(** * xiaozhi-bridge: the MQTT-to-WebSocket bridge, embedded and checked

    The development embeds the event handlers of [auto-bridge.js] (the
    [AutoBridge] class) and the heartbeat of [api-bridge.js] (the
    [ApiBridge] class) as state-passing functions, and states the properties
    of the specification over them.

    Conventions.
    - A handler is a function on the state of the object it closes over; the
      libraries (mqtt.js, ws) and the clock are the environment: whatever they
      decide (a connection flag flipping, a socket write failing, the time
      [Date.now()]) is an input.
    - [JSON.parse] and [JSON.stringify] belong to the JavaScript runtime and
      are section variables.
    - An exception is a [Throw]; code under [try]/[catch] runs in a
      state-and-exception monad, so that what was mutated before a throw stays
      mutated.
    - [console.warn] and [console.error] lines are kept as constructors of
      [console_line], as are the lines [broadcastToWebSocket] prints;
      the other informational [console.log] lines are left out.
    - What an error raised by a library says is the library's: the text of
      such a [Throw] stands for the message, whatever it is. *)

From Stdlib Require Import QArith ZArith String Ascii List Bool Lia.
From stdpp Require Import base option list gmap strings pretty.
Import ListNotations.
Open Scope string_scope.
Open Scope list_scope.

(** ** JavaScript values decoded from JSON *)

Module JS.

Inductive completion (A : Type) : Type :=
| Normal (a : A)
| Throw (e : string).
Arguments Normal {A} a.
Arguments Throw {A} e.

Definition cbind {A B : Type} (c : completion A) (k : A -> completion B) : completion B :=
  match c with
  | Normal a => k a
  | Throw e => Throw e
  end.

(** What [JSON.parse] returns.  A number is the rational value of the
    double (the handlers only test numbers for zero and pass them on; a
    literal that overflows to an infinity is left out); an object is the
    list of its own properties in insertion order, with distinct keys. *)
#[local] Unset Elimination Schemes.
Inductive json : Type :=
| JNull
| JBool (b : bool)
| JNum (q : Q)
| JStr (s : string)
| JArr (items : list json)
| JObj (fields : list (string * json)).
#[local] Set Elimination Schemes.

(** A JavaScript value read off such data: [None] is [undefined]. *)
Definition value : Type := option json.

Fixpoint own_property (k : string) (fields : list (string * json)) : option json :=
  match fields with
  | [] => None
  | (k', v) :: rest => if String.eqb k k' then Some v else own_property k rest
  end.

(** [data.k] for the keys the handlers read ([type], [session_id],
    [duration], [reason], [timestamp]): reading a property of [null] throws
    a TypeError, a primitive or an array has no such property. *)
Definition get (data : json) (k : string) : completion value :=
  match data with
  | JNull => Throw ("Cannot read properties of null (reading '" +:+ k +:+ "')")
  | JObj fields => Normal (own_property k fields)
  | _ => Normal None
  end.

Definition is_undefined (v : value) : bool :=
  match v with
  | None => true
  | Some _ => false
  end.

(** ToBoolean. *)
Definition truthy (v : value) : bool :=
  match v with
  | None => false
  | Some JNull => false
  | Some (JBool b) => b
  | Some (JNum q) => negb (Qeq_bool q 0)
  | Some (JStr s) => negb (String.eqb s EmptyString)
  | Some (JArr _) => true
  | Some (JObj _) => true
  end.

(** [v || d]. *)
Definition or_default (v : value) (d : json) : json :=
  match v with
  | Some j => if truthy v then j else d
  | None => d
  end.

(** [v === 'lit']. *)
Definition strict_eq_string (v : value) (lit : string) : bool :=
  match v with
  | Some (JStr s) => String.eqb s lit
  | _ => false
  end.

(** ToString (and with it ToNumber and [+] with a string) of JSON data throws
    exactly when ToPrimitive finds no callable conversion: an object with an
    own property [toString] (a non-callable value that shadows
    [Object.prototype.toString], while [valueOf] gives back the object), or
    an array one of whose elements, joined by [Array.prototype.toString],
    throws in turn. *)
Fixpoint toPrimitive_throws (d : json) : bool :=
  match d with
  | JObj fields => existsb (fun kv => String.eqb (fst kv) "toString") fields
  | JArr items => existsb toPrimitive_throws items
  | _ => false
  end.

Definition coerce (v : value) : completion unit :=
  match v with
  | Some d => if toPrimitive_throws d
              then Throw "Cannot convert object to primitive value"
              else Normal tt
  | None => Normal tt
  end.

(** [v?.toFixed(2)]: short-circuits on [undefined] and [null], formats a
    number, and throws on anything else, which has no method [toFixed]. *)
Definition optional_toFixed (v : value) : completion unit :=
  match v with
  | None => Normal tt
  | Some JNull => Normal tt
  | Some (JNum _) => Normal tt
  | Some _ => Throw "data.duration?.toFixed is not a function"
  end.

(** An object literal [{k1: v1, ...}] as [JSON.stringify] sees it: a property
    whose value is [undefined] is not serialized. *)
Definition object_literal (props : list (string * value)) : json :=
  JObj (omap (fun kv => match snd kv with
                        | Some j => Some (fst kv, j)
                        | None => None
                        end) props).

(** ToBoolean of a string-or-undefined field. *)
Definition truthy_string (s : option string) : bool :=
  match s with
  | Some s => negb (String.eqb s EmptyString)
  | None => false
  end.

(** [s.replace(/:/g, '_')]. *)
Fixpoint replace_colons (s : string) : string :=
  match s with
  | EmptyString => EmptyString
  | String c rest =>
      String (if Ascii.eqb c ":"%char then "_"%char else c) (replace_colons rest)
  end.

End JS.
Import JS.

(** ** auto-bridge.js: the [AutoBridge] class *)

Module AutoBridge.

(** The device configuration [fetchDeviceConfig] resolves with: the [mqtt]
    object of the OTA response, spread, then [deviceId] and [clientId].
    A field that is missing is [None]. *)
Record config : Type := Config {
  endpoint : option string;
  client_id : option string;
  username : option string;
  password : option string;
  publish_topic : option string;
  deviceId : option string;
  clientId : option string
}.

(** The [mqtt] object of the OTA response. *)
Record ota_mqtt : Type := OtaMqtt {
  ota_endpoint : option string;
  ota_client_id : option string;
  ota_username : option string;
  ota_password : option string;
  ota_publish_topic : option string
}.

Inductive promise_state : Type := Pending | Resolved | Rejected.

(** A client object returned by [mqtt.connect], together with the variables
    of the [connectMQTT] call that created it and that its handlers close
    over: [config], [subscribeConfig.isFirstConnect] and the promise of the
    call.  [connected] is the flag mqtt.js maintains; [subscribed] lists the
    topics of the [subscribe] calls issued on the client. *)
Record mqtt_client : Type := MqttClient {
  connected : bool;
  subscribed : list string;
  conn_config : config;
  isFirstConnect : bool;
  promise : promise_state
}.

(** A socket of [wss.clients].  [readyState] is the ws constant (0
    CONNECTING, 1 OPEN, 2 CLOSING, 3 CLOSED); [send_throws] says whether a
    [send] on the socket raises; [received] lists the frames written. *)
Record ws_client : Type := WsClient {
  readyState : Z;
  send_throws : bool;
  received : list string
}.

Definition OPEN : Z := 1.

Record stats_t : Type := Stats {
  mqttMessages : Z;
  websocketClients : Z;
  conversationStats : Z
}.

Inductive console_line : Type :=
| error_connection_refused (returnCode : Z)        (* on 'connect' *)
| warn_not_connected_after_connect                 (* on 'connect' *)
| warn_connection_lost_before_subscription         (* stabilization timer *)
| error_subscription (e : string)                  (* doSubscribe().catch *)
| error_parsing_mqtt_message (e raw : string)      (* on 'message', catch *)
| error_mqtt (e : string)                          (* on 'error' *)
| warn_wss_not_initialized                         (* broadcastToWebSocket *)
| log_broadcasting (message : string)              (* broadcastToWebSocket *)
| log_sent_to_client (sentCount : nat)             (* broadcastToWebSocket *)
| error_failed_to_send (e : string)                (* broadcastToWebSocket *)
| log_client_not_ready (readyState : Z)            (* broadcastToWebSocket *)
| log_broadcasted (sentCount : nat)                (* broadcastToWebSocket *)
| warn_no_clients                                  (* broadcastToWebSocket *)
| error_failed_to_add_device (e : string).         (* addDevice, catch *)

(** The fields of the object, the client objects it has created
    ([this.mqttClient] refers to one of them by its index), the pending
    stabilization timers (each named by the [connectMQTT] call whose
    ['connect'] handler set it) and the console. *)
Record bridge : Type := Bridge {
  mqttClient : option nat;
  clients : list mqtt_client;
  wss : option (list ws_client);
  deviceConfigs : gmap string config;
  publishTopic : option string;
  stats : stats_t;
  timers : list nat;
  console : list console_line
}.

Definition set_mqttClient (v : option nat) (st : bridge) : bridge :=
  Bridge v (clients st) (wss st) (deviceConfigs st) (publishTopic st)
         (stats st) (timers st) (console st).
Definition set_clients (v : list mqtt_client) (st : bridge) : bridge :=
  Bridge (mqttClient st) v (wss st) (deviceConfigs st) (publishTopic st)
         (stats st) (timers st) (console st).
Definition set_wss (v : option (list ws_client)) (st : bridge) : bridge :=
  Bridge (mqttClient st) (clients st) v (deviceConfigs st) (publishTopic st)
         (stats st) (timers st) (console st).
Definition set_deviceConfigs (v : gmap string config) (st : bridge) : bridge :=
  Bridge (mqttClient st) (clients st) (wss st) v (publishTopic st)
         (stats st) (timers st) (console st).
Definition set_publishTopic (v : option string) (st : bridge) : bridge :=
  Bridge (mqttClient st) (clients st) (wss st) (deviceConfigs st) v
         (stats st) (timers st) (console st).
Definition set_stats (v : stats_t) (st : bridge) : bridge :=
  Bridge (mqttClient st) (clients st) (wss st) (deviceConfigs st)
         (publishTopic st) v (timers st) (console st).
Definition set_timers (v : list nat) (st : bridge) : bridge :=
  Bridge (mqttClient st) (clients st) (wss st) (deviceConfigs st)
         (publishTopic st) (stats st) v (console st).
Definition set_console (v : list console_line) (st : bridge) : bridge :=
  Bridge (mqttClient st) (clients st) (wss st) (deviceConfigs st)
         (publishTopic st) (stats st) (timers st) v.

Definition print (l : console_line) (st : bridge) : bridge :=
  set_console (console st ++ [l]) st.

(** The constructor. *)
Definition new : bridge :=
  Bridge None [] None ∅ None (Stats 0 0 0) [] [].

(** [this.mqttClient && this.mqttClient.connected]. *)
Definition mqtt_connected (st : bridge) : bool :=
  match mqttClient st with
  | Some j => match clients st !! j with
              | Some c => connected c
              | None => false
              end
  | None => false
  end.

(** *** fetchDeviceConfig, connectMQTT, addDevice *)

(** [fetchDeviceConfig]: the request is the environment's; [response] is
    what it came to (a rejection, or the [mqtt] object of the answer). *)
Definition fetchDeviceConfig (deviceId clientId : string)
    (response : completion ota_mqtt) : completion config :=
  cbind response (fun m =>
    Normal (Config (ota_endpoint m) (ota_client_id m) (ota_username m)
                   (ota_password m) (ota_publish_topic m)
                   (Some deviceId) (Some clientId))).

(** The synchronous part of [connectMQTT]: the early return when a client is
    connected; otherwise the publish topic is saved, [mqtt.connect] creates
    a client and the handlers are registered on it. *)
Definition connectMQTT (cfg : config) (st : bridge) : bridge :=
  if mqtt_connected st then st
  else
    let st1 := set_publishTopic (publish_topic cfg) st in
    let fresh := MqttClient false [] cfg true Pending in
    set_mqttClient (Some (length (clients st1)))
      (set_clients (clients st1 ++ [fresh]) st1).

(** [addDevice], from the moment [fetchDeviceConfig] has settled up to the
    [await] on [connectMQTT]; what follows a rejection of that promise, the
    [catch], is in [on_error]. *)
Definition addDevice (deviceId clientId : string)
    (response : completion ota_mqtt) (st : bridge) : bridge :=
  match fetchDeviceConfig deviceId clientId response with
  | Throw e => print (error_failed_to_add_device e) st
  | Normal cfg =>
      let st1 := set_deviceConfigs (<[deviceId := cfg]> (deviceConfigs st)) st in
      if negb (mqtt_connected st1) then connectMQTT cfg st1 else st1
  end.

(** *** doSubscribe and the ['connect'] handler *)

(** The topics [doSubscribe] collects in [subscribeTopics]. *)
Definition subscribeTopics (cfg : config) : list string :=
  let t1 := if truthy_string (publish_topic cfg)
            then [default EmptyString (publish_topic cfg)] else [] in
  let t2 := if truthy_string (deviceId cfg)
            then t1 ++ ["devices/p2p/" +:+ replace_colons (default EmptyString (deviceId cfg))]
            else t1 in
  if (length t2 =? 0)%nat then
    if truthy_string (client_id cfg)
    then ["xiaozhi/" +:+ default EmptyString (client_id cfg) +:+ "/#"]
    else ["xiaozhi/+/publish"]
  else t2.

(** [this.mqttClient.subscribe(topic, ...)] on the client with index [j]. *)
Definition subscribe (j : nat) (topic : string) (st : bridge) : bridge :=
  match clients st !! j with
  | Some c =>
      set_clients (<[j := MqttClient (connected c) (subscribed c ++ [topic])
                              (conn_config c) (isFirstConnect c) (promise c)]>
                    (clients st)) st
  | None => st
  end.

(** [doSubscribe] of the [connectMQTT] call [i]: one [subscribe] per topic
    of [subscribeTopics], then the wildcard ['#'], all on [this.mqttClient]. *)
Definition doSubscribe (i : nat) (st : bridge) : bridge :=
  match clients st !! i, mqttClient st with
  | Some closure, Some j =>
      fold_left (fun s topic => subscribe j topic s)
                (subscribeTopics (conn_config closure) ++ ["#"]) st
  | _, _ => st
  end.

Record connack_t : Type := Connack {
  returnCode : Z;
  sessionPresent : bool
}.

(** The ['connect'] handler registered by the [connectMQTT] call [i]. *)
Definition on_connect (i : nat) (connack : option connack_t) (st : bridge) : bridge :=
  let refused := match connack with
                 | Some ck => negb (returnCode ck =? 0)%Z
                 | None => false
                 end in
  if refused then
    print (error_connection_refused
             (match connack with Some ck => returnCode ck | None => 0%Z end)) st
  else if negb (mqtt_connected st) then
    print warn_not_connected_after_connect st
  else
    set_timers (timers st ++ [i]) st.

(** The callback of [setTimeout(..., 1000)] set by that handler. *)
Definition stabilization_timeout (i : nat) (st : bridge) : bridge :=
  if negb (mqtt_connected st) then
    print warn_connection_lost_before_subscription st
  else
    doSubscribe i st.

Definition set_closure (i : nat) (first : bool) (p : promise_state)
    (st : bridge) : bridge :=
  match clients st !! i with
  | Some c =>
      set_clients (<[i := MqttClient (connected c) (subscribed c)
                              (conn_config c) first p]> (clients st)) st
  | None => st
  end.

Definition settle (p : promise_state) (outcome : promise_state) : promise_state :=
  match p with
  | Pending => outcome
  | _ => p
  end.

(** [doSubscribe().then(...).catch(...)]: [failure] is the error of the
    first rejected subscription, if any. *)
Definition on_subscribed (i : nat) (failure : option string) (st : bridge) : bridge :=
  let st1 := match failure with
             | Some e => print (error_subscription e) st
             | None => st
             end in
  match clients st1 !! i with
  | Some c =>
      if isFirstConnect c
      then set_closure i false (settle (promise c) Resolved) st1
      else st1
  | None => st1
  end.

(** The ['error'] handler: [reject(error)].  When that settles the promise,
    the [await] on [connectMQTT] in [addDevice] throws and the [catch] of
    [addDevice] prints its line. *)
Definition on_error (i : nat) (e : string) (st : bridge) : bridge :=
  let st1 := print (error_mqtt e) st in
  match clients st1 !! i with
  | Some c =>
      let st2 := set_closure i (isFirstConnect c) (settle (promise c) Rejected) st1 in
      match promise c with
      | Pending => print (error_failed_to_add_device e) st2
      | _ => st2
      end
  | None => st1
  end.

(** mqtt.js raising or dropping the [connected] flag of client [i]. *)
Definition transport (i : nat) (up : bool) (st : bridge) : bridge :=
  match clients st !! i with
  | Some c =>
      set_clients (<[i := MqttClient up (subscribed c) (conn_config c)
                              (isFirstConnect c) (promise c)]> (clients st)) st
  | None => st
  end.

(** *** The state-and-exception monad of the code under [try] *)

Definition M (A : Type) : Type := bridge -> completion A * bridge.

Definition ret {A : Type} (a : A) : M A := fun st => (Normal a, st).

Definition bind {A B : Type} (m : M A) (k : A -> M B) : M B :=
  fun st => match m st with
            | (Normal a, st') => k a st'
            | (Throw e, st') => (Throw e, st')
            end.

Definition lift {A : Type} (c : completion A) : M A := fun st => (c, st).

Definition modify (f : bridge -> bridge) : M unit := fun st => (Normal tt, f st).

Definition reads {A : Type} (f : bridge -> A) : M A := fun st => (Normal (f st), st).

Definition try_catch {A : Type} (body : M A) (handler : string -> M A) : M A :=
  fun st => match body st with
            | (Normal a, st') => (Normal a, st')
            | (Throw e, st') => handler e st'
            end.

Notation "x <- m ;; k" := (bind m (fun x => k))
  (at level 100, m at next level, right associativity).
Notation "m ;;; k" := (bind m (fun _ => k))
  (at level 100, right associativity).

Definition incr_mqttMessages (st : bridge) : bridge :=
  set_stats (Stats (mqttMessages (stats st) + 1) (websocketClients (stats st))
                   (conversationStats (stats st))) st.

Definition incr_websocketClients (st : bridge) : bridge :=
  set_stats (Stats (mqttMessages (stats st)) (websocketClients (stats st) + 1)
                   (conversationStats (stats st))) st.

Definition incr_conversationStats (st : bridge) : bridge :=
  set_stats (Stats (mqttMessages (stats st)) (websocketClients (stats st))
                   (conversationStats (stats st) + 1)) st.

(** [client.send(message)]. *)
Definition ws_send (message : string) (c : ws_client) : completion ws_client :=
  if send_throws c then Throw "send failed"
  else Normal (WsClient (readyState c) (send_throws c) (received c ++ [message])).

(** The body of [this.wss.clients.forEach] in [broadcastToWebSocket], over
    the sockets in the order of the set, with [sentCount] threaded through:
    the sockets afterwards, the count and the lines printed. *)
Fixpoint forEach_client (message : string) (cs : list ws_client) (sentCount : nat)
    : list ws_client * nat * list console_line :=
  match cs with
  | [] => ([], sentCount, [])
  | c :: rest =>
      if (readyState c =? OPEN)%Z then
        match ws_send message c with
        | Normal c' =>
            let '(rest', n, out) := forEach_client message rest (S sentCount) in
            (c' :: rest', n, log_sent_to_client (S sentCount) :: out)
        | Throw e =>
            let '(rest', n, out) := forEach_client message rest sentCount in
            (c :: rest', n, error_failed_to_send e :: out)
        end
      else
        let '(rest', n, out) := forEach_client message rest sentCount in
        (c :: rest', n, log_client_not_ready (readyState c) :: out)
  end.

Definition remove_first (i : nat) (l : list nat) : list nat :=
  (fix go (l : list nat) : list nat :=
     match l with
     | [] => []
     | x :: rest => if (x =? i)%nat then rest else x :: go rest
     end) l.

Definition startWebSocketServer (st : bridge) : bridge := set_wss (Some []) st.

Definition stats_json (s : stats_t) : json :=
  JObj [("mqttMessages", JNum (inject_Z (mqttMessages s)));
        ("websocketClients", JNum (inject_Z (websocketClients s)));
        ("conversationStats", JNum (inject_Z (conversationStats s)))].

(** The welcome message of the ['connection'] handler. *)
Definition welcome (st : bridge) : json :=
  JObj [("type", JStr "welcome");
        ("message", JStr "Connected to Xiaozhi Bridge");
        ("stats", stats_json (stats st))].

Inductive event : Type :=
| StartWebSocketServer
| WsConnection (ws : ws_client)
| AddDevice (deviceId clientId : string) (response : completion ota_mqtt)
| Transport (i : nat) (up : bool)
| Connect (i : nat) (connack : option connack_t)
| StabilizationTimer (i : nat)
| Subscribed (i : nat) (failure : option string)
| MqttError (i : nat) (e : string)
| Message (i : nat) (topic raw : string) (now : Z).

Definition is_AddDevice (ev : event) : bool :=
  match ev with
  | AddDevice _ _ _ => true
  | _ => false
  end.

Section Runtime.

Variable JSON_parse : string -> completion json.
Variable JSON_stringify : json -> string.

(** [broadcastToWebSocket(data)]. *)
Definition broadcastToWebSocket (data : json) (st : bridge) : bridge :=
  match wss st with
  | None => print warn_wss_not_initialized st
  | Some cs =>
      let message := JSON_stringify data in
      let st1 := print (log_broadcasting message) st in
      let '(cs', sentCount, out) := forEach_client message cs 0 in
      let st2 := set_console (console st1 ++ out) (set_wss (Some cs') st1) in
      if (0 <? sentCount)%nat
      then print (log_broadcasted sentCount) st2
      else print warn_no_clients st2
  end.

(** The message the tolerant branch rebuilds; [now] is [Date.now()]. *)
Definition statsMessage (session_id duration reason timestamp : value) (now : Z) : json :=
  object_literal
    [("type", Some (JStr "conversation_stats"));
     ("session_id", session_id);
     ("duration", duration);
     ("reason", Some (or_default reason (JStr "unknown")));
     ("timestamp", Some (or_default timestamp (JNum (inject_Z (now / 1000)))))].

(** The ['message'] handler.  It is the same function for every client: it
    reads [this.publishTopic], not a variable of the [connectMQTT] call. *)
Definition on_message (topic raw : string) (now : Z) : M unit :=
  modify incr_mqttMessages ;;;
  saved <- reads publishTopic ;;
  let isDevicePublish := bool_decide (Some topic = saved) in
  try_catch
    (data <- lift (JSON_parse raw) ;;
     type <- lift (get data "type") ;;
     if strict_eq_string type "conversation_stats" then
       modify incr_conversationStats ;;;
       duration <- lift (get data "duration") ;;
       lift (optional_toFixed duration) ;;;
       timestamp <- lift (get data "timestamp") ;;
       lift (coerce timestamp) ;;;
       modify (broadcastToWebSocket data)
     else if isDevicePublish then
       duration <- lift (get data "duration") ;;
       session_id <- lift (get data "session_id") ;;
       if negb (is_undefined duration) && truthy session_id then
         reason <- lift (get data "reason") ;;
         timestamp <- lift (get data "timestamp") ;;
         modify (broadcastToWebSocket
                   (statsMessage session_id duration reason timestamp now))
       else ret tt
     else
       lift (coerce type))
    (fun e => modify (print (error_parsing_mqtt_message e raw))).

(** The ['connection'] handler of the WebSocket server, the socket having
    been added to [wss.clients] by ws; the [send] is not under a [try]. *)
Definition on_connection (ws : ws_client) : M unit :=
  modify incr_websocketClients ;;;
  st <- reads id ;;
  match ws_send (JSON_stringify (welcome st)) ws with
  | Normal ws' => modify (set_wss (Some (default [] (wss st) ++ [ws'])))
  | Throw e => modify (set_wss (Some (default [] (wss st) ++ [ws]))) ;;; lift (Throw e)
  end.

(** One reaction of the bridge to the environment; an event of a client
    that was never created, or of a timer that is not pending, is none. *)
Definition step (ev : event) (st : bridge) : bridge :=
  match ev with
  | StartWebSocketServer => startWebSocketServer st
  | WsConnection ws => snd (on_connection ws st)
  | AddDevice d c response => addDevice d c response st
  | Transport i up => transport i up st
  | Connect i connack =>
      if bool_decide (is_Some (clients st !! i)) then on_connect i connack st else st
  | StabilizationTimer i =>
      if bool_decide (i ∈ timers st)
      then stabilization_timeout i (set_timers (remove_first i (timers st)) st)
      else st
  | Subscribed i failure => on_subscribed i failure st
  | MqttError i e => on_error i e st
  | Message i topic raw now =>
      if bool_decide (is_Some (clients st !! i))
      then snd (on_message topic raw now st) else st
  end.

Definition run (evs : list event) (st : bridge) : bridge :=
  fold_left (fun s ev => step ev s) evs st.

End Runtime.

End AutoBridge.

(** ** api-bridge.js: the heartbeat of the WebSocket server *)

Module ApiBridge.

Inductive frame : Type :=
| ping_frame                 (* [ws.ping()] *)
| text_frame (s : string).   (* [ws.send(s)] *)

(** A socket of [wss.clients] with the variables of the ['connection']
    handler that serves it: [isAlive], and whether [pingInterval] is still
    set.  [ws_isAlive] is the property [ws.isAlive] ([None] while nothing
    has defined it); [write_throws] says whether [ws.ping] and [ws.send]
    raise; [sent] lists the frames written. *)
Record connection : Type := Connection {
  isAlive : bool;
  pingInterval : bool;
  ws_isAlive : option bool;
  write_throws : bool;
  sent : list frame
}.

Inductive console_line : Type :=
| log_did_not_respond_to_ping
| error_failed_to_send_ping (e : string).

Record bridge : Type := Bridge {
  clients : gmap nat connection;
  websocketClients : Z;
  console : list console_line
}.

(** The variables as the ['connection'] handler initialises them
    ([let isAlive = true], [pingInterval = setInterval(..., 30000)]), for a
    socket with the given [ws.isAlive] and write behaviour. *)
Definition fresh_connection (ws_isAlive : option bool) (write_throws : bool) : connection :=
  Connection true true ws_isAlive write_throws [].

Definition update (k : nat) (c : connection) (st : bridge) : bridge :=
  Bridge (<[k := c]> (clients st)) (websocketClients st) (console st).

Definition print (l : console_line) (st : bridge) : bridge :=
  Bridge (clients st) (websocketClients st) (console st ++ [l]).

(** The socket closing: ws deletes it from [wss.clients], and the ['close']
    handler decrements the counter and clears the interval. *)
Definition on_close (k : nat) (st : bridge) : bridge :=
  match clients st !! k with
  | Some _ => Bridge (delete k (clients st)) (websocketClients st - 1) (console st)
  | None => st
  end.

(** [ws.terminate()]: ws destroys the socket, which closes it. *)
Definition terminate (k : nat) (st : bridge) : bridge := on_close k st.

(** [clearInterval(pingInterval)]. *)
Definition clearInterval (k : nat) (st : bridge) : bridge :=
  match clients st !! k with
  | Some c => update k (Connection (isAlive c) false (ws_isAlive c)
                                   (write_throws c) (sent c)) st
  | None => st
  end.

(** The ['error'] handler of the socket. *)
Definition on_error (k : nat) (st : bridge) : bridge := clearInterval k st.

(** The ['pong'] handler of the socket. *)
Definition on_pong (k : nat) (st : bridge) : bridge :=
  match clients st !! k with
  | Some c => update k (Connection true (pingInterval c)
                          (match ws_isAlive c with
                           | Some _ => Some true
                           | None => None
                           end)
                          (write_throws c) (sent c)) st
  | None => st
  end.

Inductive event : Type :=
| Interval (k : nat)
| Pong (k : nat)
| ClientMessage (k : nat) (raw : string)
| Close (k : nat)
| SocketError (k : nat).

Section Runtime.

Variable JSON_parse : string -> completion json.
Variable JSON_stringify : json -> string.

(** The callback of [setInterval(..., 30000)]; a cleared interval does not
    fire. *)
Definition on_interval (k : nat) (st : bridge) : bridge :=
  match clients st !! k with
  | Some c =>
      if negb (pingInterval c) then st
      else if negb (isAlive c) then
        terminate k (clearInterval k (print log_did_not_respond_to_ping st))
      else if write_throws c then
        terminate k (clearInterval k (print (error_failed_to_send_ping "write failed") st))
      else
        match ws_isAlive c with
        | Some _ =>
            update k (Connection false (pingInterval c) (Some false)
                                 (write_throws c) (sent c ++ [ping_frame])) st
        | None =>
            update k (Connection false (pingInterval c) None (write_throws c)
                        (sent c ++ [text_frame (JSON_stringify
                                      (JObj [("type", JStr "ping")]))])) st
        end
  | None => st
  end.

(** What the ['message'] handler does to the connection, under its [try]:
    a throw leaves the connection as it was. *)
Definition handle_message (raw : string) (c : connection) : completion connection :=
  cbind (JSON_parse raw) (fun data =>
  cbind (get data "type") (fun type =>
    if strict_eq_string type "ping" then
      if write_throws c then Throw "write failed"
      else Normal (Connection true (pingInterval c) (ws_isAlive c) (write_throws c)
                     (sent c ++ [text_frame (JSON_stringify
                                   (JObj [("type", JStr "pong")]))]))
    else if strict_eq_string type "pong" then
      Normal (Connection true (pingInterval c) (ws_isAlive c) (write_throws c) (sent c))
    else Normal c)).

(** The ['message'] handler of the socket; the [catch] is empty. *)
Definition on_message (k : nat) (raw : string) (st : bridge) : bridge :=
  match clients st !! k with
  | Some c =>
      match handle_message raw c with
      | Normal c' => update k c' st
      | Throw _ => st
      end
  | None => st
  end.

(** A message that counts as a sign of life: one the handler answers by
    setting [isAlive]. *)
Definition is_liveness_message (raw : string) : bool :=
  match cbind (JSON_parse raw) (fun data => get data "type") with
  | Normal type => strict_eq_string type "ping" || strict_eq_string type "pong"
  | Throw _ => false
  end.

(** The frame a probe writes on the socket. *)
Definition probe_frame (c : connection) : frame :=
  match ws_isAlive c with
  | Some _ => ping_frame
  | None => text_frame (JSON_stringify (JObj [("type", JStr "ping")]))
  end.

Definition step (ev : event) (st : bridge) : bridge :=
  match ev with
  | Interval k => on_interval k st
  | Pong k => on_pong k st
  | ClientMessage k raw => on_message k raw st
  | Close k => on_close k st
  | SocketError k => on_error k st
  end.

Definition run (evs : list event) (st : bridge) : bridge :=
  fold_left (fun s ev => step ev s) evs st.

End Runtime.

End ApiBridge.

(** ** Observations the statements are written with *)

Module Obs.
Import AutoBridge.

(** [data.k], [undefined] where reading it throws. *)
Definition field (data : json) (k : string) : value :=
  match get data k with
  | Normal v => v
  | Throw _ => None
  end.

(** The payload carries the property [k] (whatever its value, [null]
    included). *)
Definition has_field (data : json) (k : string) : bool :=
  negb (is_undefined (field data k)).

(** The payload carries the telemetry marker: [data.type] is the string
    [conversation_stats]. *)
Definition has_marker (data : json) : bool :=
  strict_eq_string (field data "type") "conversation_stats".

(** The two coercions in the lines the marked branch prints before it
    broadcasts: [data.duration?.toFixed(2)] and [data.timestamp * 1000]. *)
Definition marked_logging (data : json) : completion unit :=
  cbind (optional_toFixed (field data "duration"))
        (fun _ => coerce (field data "timestamp")).

(** The event the tolerant branch builds from a payload. *)
Definition tolerant_event (data : json) (now : Z) : json :=
  statsMessage (field data "session_id") (field data "duration")
               (field data "reason") (field data "timestamp") now.

(** What a broadcast of [message] leaves of a socket: the frame is appended
    when the socket is open and the write does not throw; the socket is as
    before otherwise. *)
Definition delivered (message : string) (c : ws_client) : ws_client :=
  if (readyState c =? OPEN)%Z && negb (send_throws c)
  then WsClient (readyState c) (send_throws c) (received c ++ [message])
  else c.

(** A client object on which [topics] were subscribed in addition. *)
Definition with_subscriptions (topics : list string) (c : mqtt_client) : mqtt_client :=
  MqttClient (connected c) (subscribed c ++ topics) (conn_config c)
             (isFirstConnect c) (promise c).

Definition is_parse_error (raw : string) (l : console_line) : Prop :=
  exists e, l = error_parsing_mqtt_message e raw.

(** The configuration with which the event, in the state, calls
    [connectMQTT] through to [mqtt.connect]: [addDevice] is the one caller,
    and calls only when no client is connected. *)
Definition connects (ev : event) (st : bridge) : option config :=
  match ev with
  | AddDevice d c response =>
      match fetchDeviceConfig d c response with
      | Normal cfg => if mqtt_connected st then None else Some cfg
      | Throw _ => None
      end
  | _ => None
  end.

Section Runtime.

Variable JSON_parse : string -> completion json.
Variable JSON_stringify : json -> string.

(** The payload decodes to data that carries the marker. *)
Definition carries_marker (raw : string) : bool :=
  match JSON_parse raw with
  | Normal data => has_marker data
  | Throw _ => false
  end.

(** The configuration of the most recent [connectMQTT] call of a run. *)
Fixpoint last_connect (evs : list event) (st : bridge) (acc : option config)
    : option config :=
  match evs with
  | [] => acc
  | ev :: rest =>
      last_connect rest (step JSON_parse JSON_stringify ev st)
        (match connects ev st with
         | Some cfg => Some cfg
         | None => acc
         end)
  end.

End Runtime.

End Obs.

(** ** A runtime and payloads for the examples *)

Module Sample.

(** A JSON text written with ['] where it has a double quote. *)
Fixpoint json_text (s : string) : string :=
  match s with
  | EmptyString => EmptyString
  | String c rest =>
      String (if Ascii.eqb c "'"%char then Ascii.ascii_of_nat 34 else c) (json_text rest)
  end.

Definition quote (s : string) : string := json_text "'" +:+ s +:+ json_text "'".

(** Serialization of data whose numbers are integers and whose strings need
    no escape, as [JSON.stringify] prints it. *)
Fixpoint stringify (d : json) : string :=
  match d with
  | JNull => "null"
  | JBool true => "true"
  | JBool false => "false"
  | JNum q => pretty (Qnum q)
  | JStr s => quote s
  | JArr items => "[" +:+ String.concat "," (map stringify items) +:+ "]"
  | JObj fields =>
      "{" +:+ String.concat ","
                (map (fun kv => let '(k, v) := kv in quote k +:+ ":" +:+ stringify v)
                     fields) +:+ "}"
  end.

Definition marked : string * json :=
  ("{'type':'conversation_stats','session_id':'s1','duration':12,'reason':'tts_stop','timestamp':1700000000}",
   JObj [("type", JStr "conversation_stats"); ("session_id", JStr "s1");
         ("duration", JNum (12 # 1)); ("reason", JStr "tts_stop");
         ("timestamp", JNum (1700000000 # 1))]).

Definition mislabeled : string * json :=
  ("{'type':'other','session_id':'s2','duration':4}",
   JObj [("type", JStr "other"); ("session_id", JStr "s2"); ("duration", JNum (4 # 1))]).

Definition empty_session : string * json :=
  ("{'type':'other','session_id':'','duration':4}",
   JObj [("type", JStr "other"); ("session_id", JStr EmptyString); ("duration", JNum (4 # 1))]).

Definition control : string * json :=
  ("{'type':'hello','version':3}",
   JObj [("type", JStr "hello"); ("version", JNum (3 # 1))]).

Definition ping : string * json := ("{'type':'ping'}", JObj [("type", JStr "ping")]).

Definition chat : string * json := ("{'type':'chat'}", JObj [("type", JStr "chat")]).

Definition payloads : list (string * json) :=
  [marked; mislabeled; empty_session; control; ping; chat].

Definition raw (p : string * json) : string := json_text (fst p).

(** [JSON.parse] on the payloads above; any other text is taken as not
    being JSON. *)
Definition parse (s : string) : completion json :=
  match find (fun p => String.eqb s (raw p)) payloads with
  | Some p => Normal (snd p)
  | None => Throw "Unexpected token"
  end.

Import AutoBridge.

Definition ota1 : ota_mqtt :=
  OtaMqtt (Some "mqtt.xiaozhi.me") None (Some "user1") (Some "secret1")
          (Some "xiaozhi/dev1/publish").

Definition ota2 : ota_mqtt :=
  OtaMqtt (Some "mqtt.xiaozhi.me") None (Some "user2") (Some "secret2")
          (Some "xiaozhi/dev2/publish").

Definition accepted : option connack_t := Some (Connack 0 false).

Definition socket : ws_client := WsClient OPEN false [].
Definition broken_socket : ws_client := WsClient OPEN true [].

(** The service started, one push client, the first device added and its
    connection acknowledged: the stabilization timer is pending. *)
Definition acknowledged : list event :=
  [StartWebSocketServer; WsConnection socket;
   AddDevice "e4:b0:63:85:96:00" "uuid-1" (Normal ota1);
   Transport 0 true; Connect 0 accepted].

(** The same, and the timer has fired and the subscriptions were granted. *)
Definition listening : list event :=
  acknowledged ++ [StabilizationTimer 0; Subscribed 0 None].

Definition run (evs : list event) : bridge := AutoBridge.run parse stringify evs new.

Definition now : Z := 1700000000123.

(** The connection is acknowledged and, during the stabilization delay, torn
    down. *)
Definition torn_down : list event := acknowledged ++ [Transport 0 false].

(** Then a second device is added, which opens a connection of its own, and
    that connection is acknowledged; the two timers are pending. *)
Definition superseded : list event :=
  torn_down ++ [AddDevice "aa:bb:cc:dd:ee:ff" "uuid-2" (Normal ota2);
                Transport 1 true; Connect 1 accepted].

(** An OTA answer with a publish topic and no [client_id]. *)
Definition ota_xy : ota_mqtt :=
  OtaMqtt (Some "mqtt.xiaozhi.me") None (Some "user") (Some "secret")
          (Some "x/y/publish").

(** A configuration built by hand, without a device identifier. *)
Definition anonymous : config :=
  Config (Some "mqtt.xiaozhi.me") None (Some "user") (Some "secret")
         (Some "x/y/publish") None None.

(** A server with three push clients, the second one broken. *)
Definition three_sockets : bridge :=
  set_wss (Some [socket; broken_socket; socket]) new.

(** An api-bridge server with one client, just connected. *)
Definition one_client : ApiBridge.bridge :=
  ApiBridge.Bridge {[ 7%nat := ApiBridge.fresh_connection None false ]} 1 [].

End Sample.


(** ** Observations on the state of the bridge *)

Module Inv.
Import AutoBridge Obs.

(** Every topic ever subscribed, client object by client object. *)
Definition subscribe_calls (st : bridge) : list string :=
  concat (map subscribed (clients st)).

(** [this.mqttClient] is the client object created last, and every pending
    stabilization timer belongs to a [connectMQTT] call that was made. *)
Definition well_formed (st : bridge) : Prop :=
  mqttClient st = match clients st with
                  | [] => None
                  | _ :: _ => Some (length (clients st) - 1)
                  end
  /\ Forall (fun i => i < length (clients st)) (timers st).

(** The broker side of the state is the same. *)
Definition same_broker (st st' : bridge) : Prop :=
  mqttClient st' = mqttClient st
  /\ clients st' = clients st
  /\ deviceConfigs st' = deviceConfigs st
  /\ publishTopic st' = publishTopic st
  /\ timers st' = timers st.

(** How a client object may differ later on from what it was: the
    configuration it was created with is the same, subscriptions were only
    added, [isFirstConnect] did not come back, and a settled promise is as
    it was settled. *)
Definition ages (c c' : mqtt_client) : Prop :=
  conn_config c' = conn_config c
  /\ (exists more, subscribed c' = subscribed c ++ more)
  /\ (isFirstConnect c = false -> isFirstConnect c' = false)
  /\ (promise c <> Pending -> promise c' = promise c).

(** [undefined], [null] or a number: what [?.toFixed(2)] accepts. *)
Definition nullish_or_number (v : value) : bool :=
  match v with
  | None => true
  | Some JNull => true
  | Some (JNum _) => true
  | Some _ => false
  end.

(** Neither an array nor an object. *)
Definition primitive (v : value) : bool :=
  match v with
  | Some (JArr _) => false
  | Some (JObj _) => false
  | _ => true
  end.

(** The index of the last element. *)
Definition last_index {A : Type} (l : list A) : option nat :=
  match l with
  | [] => None
  | _ :: _ => Some (length l - 1)
  end.

(** A socket a broadcast writes to. *)
Definition writable (c : ws_client) : bool :=
  (readyState c =? OPEN)%Z && negb (send_throws c).

(** An open socket whose write throws. *)
Definition failing (c : ws_client) : bool :=
  (readyState c =? OPEN)%Z && send_throws c.

(** The line the loop of [broadcastToWebSocket] prints for a socket, [sent]
    being the count after it. *)
Definition reported (c : ws_client) (sent : nat) (l : console_line) : Prop :=
  if writable c then l = log_sent_to_client sent
  else if failing c then exists e, l = error_failed_to_send e
  else l = log_client_not_ready (readyState c).

(** A socket after [messages] were broadcast one after the other. *)
Definition stamped (messages : list string) (c : ws_client) : ws_client :=
  if writable c
  then WsClient (readyState c) (send_throws c) (received c ++ messages)
  else c.

Section Runtime.

Variable JSON_parse : string -> completion json.
Variable JSON_stringify : json -> string.

(** The number of [connectMQTT] calls of a run that went through to
    [mqtt.connect]. *)
Fixpoint connections_opened (evs : list event) (st : bridge) : nat :=
  match evs with
  | [] => 0
  | ev :: rest =>
      (match connects ev st with
       | Some _ => 1
       | None => 0
       end)
      + connections_opened rest (step JSON_parse JSON_stringify ev st)
  end.

End Runtime.

End Inv.

(** ** api-bridge.js: the conversation store and the HTTP handlers *)

Module ApiStore.

(** A conversation as the cache [this.conversations] holds it. *)
Record conversation : Type := Conversation {
  deviceId : json;
  sessionId : json;
  duration : Q;
  reason : json;
  timestamp : json;
  receivedAt : Z
}.

Record stats_t : Type := Stats {
  totalConversations : Z;
  totalDuration : Q;
  websocketClients : Z;
  apiRequests : Z
}.

Inductive console_line : Type :=
| warn_invalid_timestamp (t : json)            (* handleConversationStats *)
| warn_no_device_id                            (* handleConversationStats *)
| error_add_conversation (e : string)          (* addConversation, catch *)
| error_failed_to_send (e : string)            (* broadcastToWebSocket *)
| log_broadcasted (sentCount : nat)            (* broadcastToWebSocket *)
| error_save_device_name (e : string)          (* saveDeviceName, catch *)
| error_delete_device_name (e : string)        (* deleteDeviceName, catch *)
| error_delete_device (e : string)             (* DELETE /api/devices/:id, catch *)
| error_clear_conversations (e : string).      (* DELETE /api/conversations, catch *)

(** The fields of the object that the handlers below read and write; the
    database [this.db] is the environment's, and what each of its calls
    comes to (a result, or an exception) is an input of the handler. *)
Record store : Type := Store {
  conversations : list conversation;
  stats : stats_t;
  deviceNames : gmap string string;
  wss : option (list AutoBridge.ws_client);
  console : list console_line
}.

Definition set_conversations (v : list conversation) (st : store) : store :=
  Store v (stats st) (deviceNames st) (wss st) (console st).
Definition set_stats (v : stats_t) (st : store) : store :=
  Store (conversations st) v (deviceNames st) (wss st) (console st).
Definition set_deviceNames (v : gmap string string) (st : store) : store :=
  Store (conversations st) (stats st) v (wss st) (console st).
Definition set_wss (v : option (list AutoBridge.ws_client)) (st : store) : store :=
  Store (conversations st) (stats st) (deviceNames st) v (console st).
Definition set_console (v : list console_line) (st : store) : store :=
  Store (conversations st) (stats st) (deviceNames st) (wss st) v.

Definition print (l : console_line) (st : store) : store :=
  set_console (console st ++ [l]) st.

(** The three request headers the handler looks at: [device-id],
    [device_id] and [x-device-id]. *)
Record headers : Type := Headers {
  device_id_dash : option string;
  device_id_underscore : option string;
  x_device_id : option string
}.

(** The three readings of [Date.now()] in [handleConversationStats]: for
    the default of a missing timestamp, for the repair of an early one, and
    for [receivedAt]. *)
Record clock : Type := Clock {
  at_default : Z;
  at_repair : Z;
  at_receipt : Z
}.

(** What [res.status(...).json(...)] answers. *)
Record response : Type := Response {
  status : Z;
  payload : json
}.

Definition M (A : Type) : Type := store -> completion A * store.

Definition ret {A : Type} (a : A) : M A := fun st => (Normal a, st).

Definition bind {A B : Type} (m : M A) (k : A -> M B) : M B :=
  fun st => match m st with
            | (Normal a, st') => k a st'
            | (Throw e, st') => (Throw e, st')
            end.

Definition lift {A : Type} (c : completion A) : M A := fun st => (c, st).

Definition modify (f : store -> store) : M unit := fun st => (Normal tt, f st).

Definition try_catch {A : Type} (body : M A) (handler : string -> M A) : M A :=
  fun st => match body st with
            | (Normal a, st') => (Normal a, st')
            | (Throw e, st') => handler e st'
            end.

Notation "x <- m ;; k" := (bind m (fun x => k))
  (at level 100, m at next level, right associativity).
Notation "m ;;; k" := (bind m (fun _ => k))
  (at level 100, right associativity).

(** [a || b] on values. *)
Definition js_or (a b : value) : value := if truthy a then a else b.


(** [typeof v === 'string']. *)
Definition is_string (v : value) : bool :=
  match v with
  | Some (JStr _) => true
  | _ => false
  end.

Definition header_value (h : option string) : value :=
  match h with
  | Some s => Some (JStr s)
  | None => None
  end.

(** [haystack.includes(needle)]. *)
Fixpoint includes (needle haystack : string) : bool :=
  String.prefix needle haystack
  || match haystack with
     | EmptyString => false
     | String _ rest => includes needle rest
     end.

Definition minValidTimestamp : Q := 1577836800 # 1.

(** The message of a conversation, as broadcast and as sent with the
    history. *)
Definition conversation_message (c : conversation) : json :=
  JObj [("type", JStr "conversation_stats");
        ("device_id", deviceId c);
        ("session_id", sessionId c);
        ("duration", JNum (duration c));
        ("reason", reason c);
        ("timestamp", timestamp c)].

(** [this.conversations.unshift(conversation)], then [pop()] when the cache
    holds more than 1000. *)
Definition cache (c : conversation) (st : store) : store :=
  let l := c :: conversations st in
  set_conversations (if (1000 <? length l)%nat then removelast l else l) st.

(** [conv.sessionId !== 'test-123' && conv.reason !== 'test' &&
    conv.deviceId !== 'unknown']. *)
Definition is_real (c : conversation) : bool :=
  negb (strict_eq_string (Some (sessionId c)) "test-123")
  && negb (strict_eq_string (Some (reason c)) "test")
  && negb (strict_eq_string (Some (deviceId c)) "unknown").

(** [req.url ? !req.url.includes('history=false') : true]. *)
Definition sendHistory (url : option string) : bool :=
  if truthy_string url
  then negb (includes "history=false" (default EmptyString url))
  else true.

(** The conversations the ['connection'] handler sends to a new client
    after the welcome message, in the order it sends them. *)
Definition history (url : option string) (st : store) : list json :=
  if sendHistory url && (0 <? length (conversations st))%nat
  then map conversation_message (firstn 10 (List.filter is_real (conversations st)))
  else [].

(** [ws.send] in the loop of [broadcastToWebSocket]. *)
Fixpoint forEach_client (message : string) (cs : list AutoBridge.ws_client)
    (sentCount : nat) : list AutoBridge.ws_client * nat * list console_line :=
  match cs with
  | [] => ([], sentCount, [])
  | c :: rest =>
      if (AutoBridge.readyState c =? AutoBridge.OPEN)%Z then
        match AutoBridge.ws_send message c with
        | Normal c' =>
            let '(rest', n, out) := forEach_client message rest (S sentCount) in
            (c' :: rest', n, out)
        | Throw e =>
            let '(rest', n, out) := forEach_client message rest sentCount in
            (c :: rest', n, error_failed_to_send e :: out)
        end
      else
        let '(rest', n, out) := forEach_client message rest sentCount in
        (c :: rest', n, out)
  end.

Section Runtime.

Variable JSON_stringify : json -> string.

(** ToNumber of a string, an array or an object that converts to a
    primitive; [None] is [NaN]. *)
Variable Number_of_text : json -> option Q.

(** Addition and subtraction of doubles. *)
Variable add : Q -> Q -> Q.
Variable sub : Q -> Q -> Q.

(** [String.prototype.trim]. *)
Variable trim : string -> string.

(** ToNumber; [None] is [NaN]. *)
Definition to_number (v : value) : completion (option Q) :=
  match v with
  | None => Normal None
  | Some JNull => Normal (Some 0%Q)
  | Some (JBool b) => Normal (Some (if b then 1%Q else 0%Q))
  | Some (JNum q) => Normal (Some q)
  | Some d => if toPrimitive_throws d
              then Throw "Cannot convert object to primitive value"
              else Normal (Number_of_text d)
  end.

(** [v < bound] for a number [bound]: false when [v] is [NaN]. *)
Definition less_than (v : value) (bound : Q) : completion bool :=
  cbind (to_number v) (fun n =>
    Normal (match n with
            | Some q => negb (Qle_bool bound q)
            | None => false
            end)).

(** [broadcastToWebSocket(data)]. *)
Definition broadcastToWebSocket (data : json) (st : store) : store :=
  match wss st with
  | None => st
  | Some cs =>
      let message := JSON_stringify data in
      let '(cs', sentCount, out) := forEach_client message cs 0 in
      let st1 := set_console (console st ++ out) (set_wss (Some cs') st) in
      if (0 <? sentCount)%nat then print (log_broadcasted sentCount) st1 else st1
  end.

(** [addConversation(conversation)]; [insert] is what the INSERT statement
    comes to. *)
Definition addConversation (c : conversation) (insert : completion unit)
    (st : store) : store :=
  match insert with
  | Normal _ =>
      let st1 := cache c st in
      set_stats (Stats (totalConversations (stats st1) + 1)
                       (add (totalDuration (stats st1)) (duration c))
                       (websocketClients (stats st1))
                       (apiRequests (stats st1))) st1
  | Throw e => cache c (print (error_add_conversation e) st)
  end.

Definition incr_apiRequests (st : store) : store :=
  set_stats (Stats (totalConversations (stats st)) (totalDuration (stats st))
                   (websocketClients (stats st)) (apiRequests (stats st) + 1)) st.

Definition seconds (now : Z) : json := JNum (inject_Z (now / 1000)).

(** [handleConversationStats], the handler of POST /api/conversation-stats
    and POST /conversation-stats.  It has no [try]: an exception leaves the
    handler.  The [coerce] is the template literal that prints the device
    identifier. *)
Definition handleConversationStats (body : json) (h : headers) (now : clock)
    (insert : completion unit) : M response :=
  modify incr_apiRequests ;;;
  device_id <- lift (get body "device_id") ;;
  session_id <- lift (get body "session_id") ;;
  duration <- lift (get body "duration") ;;
  reason <- lift (get body "reason") ;;
  timestamp <- lift (get body "timestamp") ;;
  match duration with
  | Some (JNum d) =>
      let given := or_default timestamp (seconds (at_default now)) in
      early <- lift (less_than (Some given) minValidTimestamp) ;;
      (if early then modify (print (warn_invalid_timestamp given)) else ret tt) ;;;
      let validTimestamp := if early then seconds (at_repair now) else given in
      let deviceId :=
        js_or (js_or (js_or device_id (header_value (device_id_dash h)))
                     (header_value (device_id_underscore h)))
              (header_value (x_device_id h)) in
      match deviceId with
      | Some id =>
          if truthy deviceId then
            lift (coerce deviceId) ;;;
            let conversation :=
              Conversation id (or_default session_id (JStr "unknown")) d
                (or_default reason (JStr "unknown")) validTimestamp
                (at_receipt now) in
            modify (addConversation conversation insert) ;;;
            modify (broadcastToWebSocket (conversation_message conversation)) ;;;
            ret (Response 200
                   (JObj [("success", JBool true);
                          ("message", JStr "Conversation stats received");
                          ("sessionId", ApiStore.sessionId conversation);
                          ("timestamp", ApiStore.timestamp conversation)]))
          else
            modify (print warn_no_device_id) ;;;
            ret (Response 400
                   (JObj [("success", JBool false);
                          ("error", JStr "device_id is required. Please provide device_id in request body or Device-Id header.")]))
      | None =>
          modify (print warn_no_device_id) ;;;
          ret (Response 400
                 (JObj [("success", JBool false);
                        ("error", JStr "device_id is required. Please provide device_id in request body or Device-Id header.")]))
      end
  | _ =>
      ret (Response 400
             (JObj [("success", JBool false);
                    ("error", JStr "duration is required and must be a number")]))
  end.

(** [saveDeviceName(deviceId, name)]; [db] is what the statement comes to. *)
Definition saveDeviceName (deviceId name : string) (db : completion unit) : M unit :=
  match db with
  | Normal _ => modify (fun st => set_deviceNames (<[deviceId := name]> (deviceNames st)) st)
  | Throw e => modify (print (error_save_device_name e)) ;;; lift (Throw e)
  end.

(** [deleteDeviceName(deviceId)]. *)
Definition deleteDeviceName (deviceId : string) (db : completion unit) : M unit :=
  match db with
  | Normal _ => modify (fun st => set_deviceNames (delete deviceId (deviceNames st)) st)
  | Throw e => modify (print (error_delete_device_name e)) ;;; lift (Throw e)
  end.

(** POST /api/devices/:deviceId/name. *)
Definition post_device_name (deviceId : string) (body : json)
    (db : completion unit) : M response :=
  name <- lift (get body "name") ;;
  match name with
  | Some (JStr s) =>
      if negb (truthy name) || (String.length (trim s) =? 0)%nat then
        ret (Response 400
               (JObj [("success", JBool false);
                      ("error", JStr "Device name is required and must be a non-empty string")]))
      else
        saveDeviceName deviceId (trim s) db ;;;
        ret (Response 200
               (JObj [("success", JBool true);
                      ("deviceId", JStr deviceId);
                      ("deviceName", JStr (trim s));
                      ("message", JStr "Device name updated")]))
  | _ =>
      ret (Response 400
             (JObj [("success", JBool false);
                    ("error", JStr "Device name is required and must be a non-empty string")]))
  end.

(** GET /api/devices/:deviceId/name. *)
Definition get_device_name (deviceId : string) (st : store) : response :=
  Response 200
    (JObj [("success", JBool true);
           ("deviceId", JStr deviceId);
           ("deviceName", or_default (header_value (deviceNames st !! deviceId)) JNull)]).

(** DELETE /api/devices/:deviceId/name. *)
Definition delete_device_name (deviceId : string) (db : completion unit) : M response :=
  fun st =>
    match deviceNames st !! deviceId with
    | Some _ =>
        (deleteDeviceName deviceId db ;;;
         ret (Response 200
                (JObj [("success", JBool true);
                       ("deviceId", JStr deviceId);
                       ("message", JStr "Device name removed")]))) st
    | None =>
        (Normal (Response 404
                   (JObj [("success", JBool false);
                          ("error", JStr "Device name not found")])), st)
    end.

(** DELETE /api/devices/:deviceId; [count] is what the COUNT and SUM query
    comes to, [deleted] the DELETE statement, [name_deleted] the statement
    of [deleteDeviceName]. *)
Definition delete_device (deviceId : string) (count : completion (Z * Q))
    (deleted : completion unit) (name_deleted : completion unit) : M response :=
  try_catch
    (counted <- lift count ;;
     lift deleted ;;;
     modify (fun st =>
       set_stats (Stats (totalConversations (stats st) - fst counted)
                        (sub (totalDuration (stats st)) (snd counted))
                        (websocketClients (stats st)) (apiRequests (stats st))) st) ;;;
     modify (fun st =>
       set_conversations
         (List.filter
            (fun c => negb (strict_eq_string (Some (ApiStore.deviceId c)) deviceId))
            (conversations st)) st) ;;;
     deviceNameDeleted <-
       (fun st =>
          match deviceNames st !! deviceId with
          | Some _ => (deleteDeviceName deviceId name_deleted ;;; ret true) st
          | None => (Normal false, st)
          end) ;;
     ret
       (Response 200
          (JObj [("success", JBool true);
                 ("deviceId", JStr deviceId);
                 ("deletedConversations", JNum (inject_Z (fst counted)));
                 ("deletedDuration", JNum (snd counted));
                 ("deviceNameDeleted", JBool deviceNameDeleted);
                 ("message", JStr ("Device deleted: " +:+ pretty (fst counted)
                                   +:+ " conversations removed"))])))
    (fun e =>
       modify (print (error_delete_device e)) ;;;
       ret (Response 500
              (JObj [("success", JBool false);
                     ("error", JStr "Failed to delete device")]))).

(** DELETE /api/conversations; [cleared] is what [db.exec] comes to. *)
Definition delete_conversations (cleared : completion unit) : M response :=
  try_catch
    (lift cleared ;;;
     modify (fun st =>
       set_stats (Stats 0 0%Q (websocketClients (stats st)) (apiRequests (stats st)))
                 (set_conversations [] st)) ;;;
     ret (Response 200
            (JObj [("success", JBool true);
                   ("message", JStr "All conversations cleared")])))
    (fun e =>
       modify (print (error_clear_conversations e)) ;;;
       ret (Response 500
              (JObj [("success", JBool false);
                     ("error", JStr "Failed to clear conversations")]))).

End Runtime.

End ApiStore.

(** ** Observations on the conversation store *)

Module Desk.
Import ApiStore.

(** The first truthy value of a list, [undefined] when there is none. *)
Fixpoint first_truthy (vs : list value) : value :=
  match vs with
  | [] => None
  | v :: rest => if truthy v then v else first_truthy rest
  end.

(** The device identifiers a request offers, in the order the handler
    looks at them. *)
Definition offered (body : json) (h : headers) : list value :=
  [Obs.field body "device_id";
   header_value (device_id_dash h);
   header_value (device_id_underscore h);
   header_value (x_device_id h)].

(** The cache and the counters of conversations are the same. *)
Definition same_conversations (st st' : store) : Prop :=
  conversations st' = conversations st
  /\ totalConversations (stats st') = totalConversations (stats st)
  /\ totalDuration (stats st') = totalDuration (stats st)
  /\ deviceNames st' = deviceNames st
  /\ wss st' = wss st.

End Desk.

(** ** Observations on the heartbeat *)

Module Pulse.
Import ApiBridge.

(** What a client may answer a probe with: a pong frame, or a message. *)
Inductive answer : Type :=
| pong_frame
| message (raw : string).

Definition answer_event (k : nat) (a : answer) : event :=
  match a with
  | pong_frame => Pong k
  | message raw => ClientMessage k raw
  end.

(** A tick of the interval of client [k] and the client's answer. *)
Definition round (k : nat) (a : answer) : list event :=
  [Interval k; answer_event k a].

(** Every event but the socket of client [k] closing. *)
Definition keeps_open (k : nat) (ev : event) : bool :=
  match ev with
  | Close k' => negb (k' =? k)%nat
  | _ => true
  end.

End Pulse.

(** ** Requests, stores and runs for the further examples *)

Module Cases.
Import AutoBridge.

(** A marked payload whose duration is a string. *)
Definition bad_duration : string * json :=
  ("{'type':'conversation_stats','duration':'long'}",
   JObj [("type", JStr "conversation_stats"); ("duration", JStr "long")]).

(** [JSON.parse] on the payloads of [Sample] and on the one above. *)
Definition parse (s : string) : completion json :=
  if String.eqb s (Sample.raw bad_duration) then Normal (snd bad_duration)
  else Sample.parse s.

(** The configuration fetched for the first device. *)
Definition config1 : config :=
  Config (Some "mqtt.xiaozhi.me") None (Some "user1") (Some "secret1")
         (Some "xiaozhi/dev1/publish") (Some "e4:b0:63:85:96:00") (Some "uuid-1").

(** The first connection is acknowledged and its timer has fired: the
    subscriptions are asked for and not yet granted. *)
Definition asked : list event := Sample.acknowledged ++ [StabilizationTimer 0].

(** An api-bridge server with one client whose socket takes no write. *)
Definition deaf_client : ApiBridge.bridge :=
  ApiBridge.Bridge {[ 7%nat := ApiBridge.fresh_connection None true ]} 1 [].

(** [Number(text)] on the texts of the requests below: none of them reads
    as a number. *)
Definition Number_of_text (d : json) : option Q := None.

(** [trim] on texts whose only white space is the space character. *)
Fixpoint trim_start (s : string) : string :=
  match s with
  | String c rest => if Ascii.eqb c " " then trim_start rest else s
  | EmptyString => EmptyString
  end.

Definition trim (s : string) : string :=
  String.rev (trim_start (String.rev (trim_start s))).

Definition no_headers : ApiStore.headers := ApiStore.Headers None None None.


Definition clock : ApiStore.clock :=
  ApiStore.Clock 1700000000123 1700000000124 1700000000125.

(** A request as a device sends it. *)
Definition request : json :=
  JObj [("device_id", JStr "dev1"); ("session_id", JStr "s1");
        ("duration", JNum (12 # 1)); ("reason", JStr "tts_stop");
        ("timestamp", JNum (1700000000 # 1))].


(** No device identifier, in the body or elsewhere. *)
Definition anonymous : json := JObj [("duration", JNum (12 # 1))].


(** A timestamp in milliseconds of uptime, long before 2020. *)
Definition early : json :=
  JObj [("device_id", JStr "dev1"); ("duration", JNum (12 # 1));
        ("timestamp", JNum (5 # 1))].

(** A timestamp that is a text and no number. *)
Definition dated : json :=
  JObj [("device_id", JStr "dev1"); ("duration", JNum (12 # 1));
        ("timestamp", JStr "yesterday")].

Definition conversation1 : ApiStore.conversation :=
  ApiStore.Conversation (JStr "dev1") (JStr "s1") (12 # 1) (JStr "tts_stop")
                        (JNum (1700000000 # 1)) 1700000000125.

Definition conversation2 : ApiStore.conversation :=
  ApiStore.Conversation (JStr "dev2") (JStr "s2") (7 # 1) (JStr "tts_stop")
                        (JNum (1700000100 # 1)) 1700000100125.

(** The store of a server that has started its WebSocket server, with one
    push client and nothing in the database. *)
Definition empty : ApiStore.store :=
  ApiStore.Store [] (ApiStore.Stats 0 0 1 0) ∅ (Some [Sample.socket]) [].

(** The same after two conversations, with a name for the first device. *)
Definition named : ApiStore.store :=
  ApiStore.Store [conversation2; conversation1] (ApiStore.Stats 2 (19 # 1) 1 2)
                 {[ "dev1" := "Kitchen" ]} (Some [Sample.socket]) [].

End Cases.

(** * Properties *)

Import AutoBridge Obs.

(** ** Classification of inbound broker messages *)

Section MessageProperties.

Variable JSON_parse : string -> completion json.
Variable JSON_stringify : json -> string.

#[local] Abbreviation on_message := (AutoBridge.on_message JSON_parse JSON_stringify).
#[local] Abbreviation broadcastToWebSocket :=
  (AutoBridge.broadcastToWebSocket JSON_stringify).

(** Runs the handler up to the first call whose result is not known. *)
Ltac enter_handler :=
  unfold AutoBridge.on_message, bind, try_catch, modify, reads, lift, ret; simpl.

Lemma get_field (data : json) (k : string) (v : value) :
  get data k = Normal v -> field data k = v.
Proof. unfold field. intros ->. reflexivity. Qed.

(** Once [data.type] has been read, no other read of a property throws. *)
Lemma get_total (data : json) (k k' : string) (v : value) :
  get data k = Normal v -> get data k' = Normal (field data k').
Proof.
  unfold field. destruct data; simpl; intros H; try reflexivity. discriminate H.
Qed.

Lemma set_console_nil (st : bridge) : set_console (console st ++ []) st = st.
Proof. destruct st. unfold set_console. simpl. rewrite app_nil_r. reflexivity. Qed.

(** The tolerant branch: a payload without the marker, on the saved publish
    topic, with a [duration] property and a truthy [session_id]. *)
Lemma on_message_tolerant (topic raw : string) (now : Z) (st : bridge) (data : json) :
  JSON_parse raw = Normal data ->
  has_marker data = false ->
  publishTopic st = Some topic ->
  has_field data "duration" = true ->
  truthy (field data "session_id") = true ->
  on_message topic raw now st
  = (Normal tt, broadcastToWebSocket (tolerant_event data now) (incr_mqttMessages st)).
Proof.
  intros Hparse Hmark Htopic Hdur Hsid.
  enter_handler. rewrite Hparse.
  destruct (get data "type") as [type|e] eqn:Htype.
  - unfold has_marker in Hmark. rewrite (get_field _ _ _ Htype) in Hmark.
    rewrite Hmark. rewrite Htopic.
    rewrite bool_decide_eq_true_2 by reflexivity.
    rewrite (get_total data "type" "duration" type Htype).
    rewrite (get_total data "type" "session_id" type Htype).
    unfold has_field in Hdur. rewrite Hdur, Hsid. simpl.
    rewrite (get_total data "type" "reason" type Htype).
    rewrite (get_total data "type" "timestamp" type Htype).
    reflexivity.
  - destruct data; simpl in Htype; try discriminate Htype.
    discriminate Hdur.
Qed.

(** Every other payload without the marker is dropped: the message counter
    is incremented, a thrown error is printed, and nothing else changes. *)
Lemma on_message_dropped (topic raw : string) (now : Z) (st : bridge) (data : json) :
  JSON_parse raw = Normal data ->
  has_marker data = false ->
  publishTopic st <> Some topic
  \/ has_field data "duration" = false
  \/ truthy (field data "session_id") = false ->
  exists diag,
    on_message topic raw now st
    = (Normal tt, set_console (console st ++ diag) (incr_mqttMessages st))
    /\ Forall (is_parse_error raw) diag.
Proof.
  intros Hparse Hmark Hwhy.
  enter_handler. rewrite Hparse.
  destruct (get data "type") as [type|e] eqn:Htype.
  - unfold has_marker in Hmark. rewrite (get_field _ _ _ Htype) in Hmark.
    rewrite Hmark.
    destruct (bool_decide (Some topic = publishTopic st)) eqn:Hsame.
    + apply bool_decide_eq_true_1 in Hsame.
      rewrite (get_total data "type" "duration" type Htype).
      rewrite (get_total data "type" "session_id" type Htype).
      assert (Hcond : negb (is_undefined (field data "duration"))
                      && truthy (field data "session_id") = false).
      { destruct Hwhy as [Hne | [Hdur | Hsid]].
        - exfalso. apply Hne. symmetry. exact Hsame.
        - unfold has_field in Hdur. rewrite Hdur. reflexivity.
        - rewrite Hsid. apply andb_false_r. }
      rewrite Hcond. exists []. split; [| constructor].
      f_equal. symmetry. apply (set_console_nil (incr_mqttMessages st)).
    + destruct (coerce type) as [[]|e] eqn:Hco.
      * exists []. split; [| constructor].
        f_equal. symmetry. apply (set_console_nil (incr_mqttMessages st)).
      * exists [error_parsing_mqtt_message e raw]. split.
        -- reflexivity.
        -- constructor; [exists e; reflexivity | constructor].
  - exists [error_parsing_mqtt_message e raw]. split.
    + reflexivity.
    + constructor; [exists e; reflexivity | constructor].
Qed.

Lemma broadcastToWebSocket_stats (data : json) (st : bridge) :
  stats (broadcastToWebSocket data st) = stats st.
Proof.
  unfold AutoBridge.broadcastToWebSocket. destruct (wss st) as [cs|]; [| reflexivity].
  destruct (forEach_client (JSON_stringify data) cs 0) as [[cs' n] out].
  destruct (0 <? n)%nat; reflexivity.
Qed.

(** The marked branch: the counter is incremented, and the payload is
    broadcast as it is unless one of the printed lines throws. *)
Lemma on_message_marked (topic raw : string) (now : Z) (st : bridge) (data : json) :
  JSON_parse raw = Normal data ->
  has_marker data = true ->
  on_message topic raw now st
  = (Normal tt,
     let st2 := incr_conversationStats (incr_mqttMessages st) in
     match marked_logging data with
     | Normal _ => broadcastToWebSocket data st2
     | Throw e => print (error_parsing_mqtt_message e raw) st2
     end).
Proof.
  intros Hparse Hmark.
  enter_handler. rewrite Hparse.
  destruct (get data "type") as [type|e] eqn:Htype.
  - unfold has_marker in Hmark. rewrite (get_field _ _ _ Htype) in Hmark.
    rewrite Hmark.
    rewrite (get_total data "type" "duration" type Htype).
    rewrite (get_total data "type" "timestamp" type Htype).
    unfold marked_logging, cbind.
    destruct (optional_toFixed (field data "duration")) as [[]|e]; [| reflexivity].
    destruct (coerce (field data "timestamp")) as [[]|e]; reflexivity.
  - unfold has_marker, field in Hmark. rewrite Htype in Hmark. discriminate Hmark.
Qed.

(** A payload that does not parse: the [catch] prints the error. *)
Lemma on_message_invalid (topic raw : string) (now : Z) (st : bridge) (e : string) :
  JSON_parse raw = Throw e ->
  on_message topic raw now st
  = (Normal tt, print (error_parsing_mqtt_message e raw) (incr_mqttMessages st)).
Proof.
  intros Hparse.
  enter_handler. rewrite Hparse. reflexivity.
Qed.

(** C1, as amended.  A payload without the marker that arrives on the saved
    publish topic, has a [duration] property and a [session_id] whose value
    is truthy (not [null], [false], [0] or the empty string) is rebuilt as
    a telemetry event and handed to [broadcastToWebSocket]: the event
    carries the marker, the payload's [session_id] and [duration], the
    reason ["unknown"] when the payload has none, and the current time in
    seconds when the payload has no timestamp. *)
Theorem C1_tolerant_payload_is_forwarded
    (topic raw : string) (now : Z) (st : bridge) (data : json) :
  JSON_parse raw = Normal data ->
  has_marker data = false ->
  publishTopic st = Some topic ->
  has_field data "duration" = true ->
  truthy (field data "session_id") = true ->
  on_message topic raw now st
  = (Normal tt, broadcastToWebSocket (tolerant_event data now) (incr_mqttMessages st))
  /\ field (tolerant_event data now) "type" = Some (JStr "conversation_stats")
  /\ field (tolerant_event data now) "session_id" = field data "session_id"
  /\ field (tolerant_event data now) "duration" = field data "duration"
  /\ (has_field data "reason" = false ->
      field (tolerant_event data now) "reason" = Some (JStr "unknown"))
  /\ (has_field data "timestamp" = false ->
      field (tolerant_event data now) "timestamp"
      = Some (JNum (inject_Z (now / 1000)))).
Proof.
  intros Hparse Hmark Htopic Hdur Hsid.
  split; [exact (on_message_tolerant topic raw now st data Hparse Hmark Htopic Hdur Hsid) |].
  unfold tolerant_event, statsMessage, has_field in *.
  destruct (field data "session_id") as [sid|]; [| discriminate Hsid].
  destruct (field data "duration") as [dur|]; [| discriminate Hdur].
  repeat split.
  - intros Hreason. destruct (field data "reason"); [discriminate Hreason | reflexivity].
  - intros Hts. destruct (field data "timestamp"); [discriminate Hts | reflexivity].
Qed.

(** C7.  A payload without the marker that does not have both a [duration]
    and a [session_id] property yields no event: the handler returns
    normally, and the state afterwards is the state before with the message
    counter incremented and, if reading the payload threw, that error
    printed; the push clients are untouched. *)
Theorem C7_unmarked_incomplete_payload_is_dropped
    (topic raw : string) (now : Z) (st : bridge) (data : json) :
  JSON_parse raw = Normal data ->
  has_marker data = false ->
  ~ (has_field data "duration" = true /\ has_field data "session_id" = true) ->
  (exists diag,
      on_message topic raw now st
      = (Normal tt, set_console (console st ++ diag) (incr_mqttMessages st))
      /\ Forall (is_parse_error raw) diag)
  /\ wss (snd (on_message topic raw now st)) = wss st
  /\ conversationStats (stats (snd (on_message topic raw now st)))
     = conversationStats (stats st).
Proof.
  intros Hparse Hmark Hnot.
  assert (Hwhy : publishTopic st <> Some topic
                 \/ has_field data "duration" = false
                 \/ truthy (field data "session_id") = false).
  { destruct (has_field data "duration") eqn:Hdur; [| right; left; reflexivity].
    right; right.
    destruct (has_field data "session_id") eqn:Hsid.
    - exfalso. apply Hnot. split; reflexivity.
    - unfold has_field in Hsid.
      destruct (field data "session_id"); [discriminate Hsid | reflexivity]. }
  destruct (on_message_dropped topic raw now st data Hparse Hmark Hwhy)
    as [diag [Heq Hdiag]].
  split; [exists diag; split; assumption |].
  rewrite Heq. split; reflexivity.
Qed.

(** C8.  A payload that [JSON.parse] rejects is logged and dropped: the
    handler catches the error and returns normally, having incremented the
    message counter and printed the error with the raw payload; nothing
    else changes. *)
Theorem C8_invalid_json_is_logged_and_dropped
    (topic raw : string) (now : Z) (st : bridge) (e : string) :
  JSON_parse raw = Throw e ->
  on_message topic raw now st
  = (Normal tt, print (error_parsing_mqtt_message e raw) (incr_mqttMessages st)).
Proof.
  exact (on_message_invalid topic raw now st e).
Qed.

(** C10.  The handler adds one to [conversationStats] exactly when the
    payload decodes to data that carries the marker; an event forwarded by
    the tolerant branch is broadcast with the counter as it was; and the
    welcome message reports that counter. *)
Theorem C10_counter_counts_marked_messages_only
    (topic raw : string) (now : Z) (st : bridge) :
  conversationStats (stats (snd (on_message topic raw now st)))
  = (conversationStats (stats st) + (if carries_marker JSON_parse raw then 1 else 0))%Z
  /\ (forall data,
         JSON_parse raw = Normal data ->
         has_marker data = false ->
         publishTopic st = Some topic ->
         has_field data "duration" = true ->
         truthy (field data "session_id") = true ->
         snd (on_message topic raw now st)
         = broadcastToWebSocket (tolerant_event data now) (incr_mqttMessages st)
         /\ conversationStats (stats (snd (on_message topic raw now st)))
            = conversationStats (stats st))
  /\ field (welcome st) "stats" = Some (stats_json (stats st))
  /\ field (stats_json (stats st)) "conversationStats"
     = Some (JNum (inject_Z (conversationStats (stats st)))).
Proof.
  assert (Htol : forall data,
             JSON_parse raw = Normal data ->
             has_marker data = false ->
             publishTopic st = Some topic ->
             has_field data "duration" = true ->
             truthy (field data "session_id") = true ->
             snd (on_message topic raw now st)
             = broadcastToWebSocket (tolerant_event data now) (incr_mqttMessages st)
             /\ conversationStats (stats (snd (on_message topic raw now st)))
                = conversationStats (stats st)).
  { intros data Hparse Hmark Htopic Hdur Hsid.
    rewrite (on_message_tolerant topic raw now st data Hparse Hmark Htopic Hdur Hsid).
    simpl. split; [reflexivity |].
    rewrite broadcastToWebSocket_stats. reflexivity. }
  split; [| split; [exact Htol | split; reflexivity]].
  unfold carries_marker.
  destruct (JSON_parse raw) as [data|e] eqn:Hparse.
  - destruct (has_marker data) eqn:Hmark.
    + rewrite (on_message_marked topic raw now st data Hparse Hmark). simpl.
      destruct (marked_logging data).
      * rewrite broadcastToWebSocket_stats. reflexivity.
      * reflexivity.
    + destruct (decide (publishTopic st = Some topic)) as [Htopic | Htopic].
      * destruct (has_field data "duration") eqn:Hdur.
        -- destruct (truthy (field data "session_id")) eqn:Hsid.
           ++ destruct (Htol data eq_refl Hmark Htopic Hdur Hsid) as [_ ->]. lia.
           ++ destruct (on_message_dropped topic raw now st data Hparse Hmark
                          (or_intror (or_intror Hsid))) as [diag [-> _]].
              simpl. lia.
        -- destruct (on_message_dropped topic raw now st data Hparse Hmark
                       (or_intror (or_introl Hdur))) as [diag [-> _]].
           simpl. lia.
      * destruct (on_message_dropped topic raw now st data Hparse Hmark
                    (or_introl Htopic)) as [diag [-> _]].
        simpl. lia.
  - rewrite (on_message_invalid topic raw now st e Hparse). simpl. lia.
Qed.

End MessageProperties.

(** ** Broadcast to the push clients *)

Section BroadcastProperties.

Variable JSON_stringify : json -> string.

#[local] Abbreviation broadcastToWebSocket :=
  (AutoBridge.broadcastToWebSocket JSON_stringify).

Lemma forEach_client_sockets (message : string) (cs : list ws_client) (n : nat) :
  fst (fst (forEach_client message cs n)) = map (delivered message) cs.
Proof.
  revert n. induction cs as [| c rest IH]; intros n; [reflexivity |].
  simpl. unfold delivered at 1, ws_send.
  destruct (readyState c =? OPEN)%Z; simpl.
  - destruct (send_throws c); simpl.
    + specialize (IH n).
      destruct (forEach_client message rest n) as [[rest' m] out].
      simpl in *. rewrite IH. reflexivity.
    + specialize (IH (S n)).
      destruct (forEach_client message rest (S n)) as [[rest' m] out].
      simpl in *. rewrite IH. reflexivity.
  - specialize (IH n).
    destruct (forEach_client message rest n) as [[rest' m] out].
    simpl in *. rewrite IH. reflexivity.
Qed.

Lemma broadcastToWebSocket_sockets (data : json) (st : bridge) (cs : list ws_client) :
  wss st = Some cs ->
  wss (broadcastToWebSocket data st) = Some (map (delivered (JSON_stringify data)) cs).
Proof.
  intros Hwss. unfold AutoBridge.broadcastToWebSocket. rewrite Hwss.
  pose proof (forEach_client_sockets (JSON_stringify data) cs 0) as Hcs.
  destruct (forEach_client (JSON_stringify data) cs 0) as [[cs' n] out].
  simpl in Hcs. subst cs'.
  destruct (0 <? n)%nat; reflexivity.
Qed.

(** C5, as amended.  [broadcastToWebSocket] serializes the event once and
    writes that one string to every socket that is open; a write that
    throws is caught, and the socket it failed on stays in the registry as
    it was (it is neither closed nor removed), while every other open
    socket receives the message. *)
Theorem C5_broadcast_reaches_every_open_client
    (data : json) (st : bridge) (cs : list ws_client) :
  wss st = Some cs ->
  wss (broadcastToWebSocket data st) = Some (map (delivered (JSON_stringify data)) cs)
  /\ (forall (k : nat) (c : ws_client),
         cs !! k = Some c -> readyState c = OPEN -> send_throws c = false ->
         map (delivered (JSON_stringify data)) cs !! k
         = Some (WsClient (readyState c) (send_throws c)
                          (received c ++ [JSON_stringify data])))
  /\ (forall (k : nat) (c : ws_client),
         cs !! k = Some c -> send_throws c = true ->
         map (delivered (JSON_stringify data)) cs !! k = Some c)
  /\ (forall (k : nat) (c : ws_client),
         cs !! k = Some c -> readyState c <> OPEN ->
         map (delivered (JSON_stringify data)) cs !! k = Some c).
Proof.
  intros Hwss. split; [exact (broadcastToWebSocket_sockets data st cs Hwss) |].
  repeat split; intros k c Hk.
  - intros Hopen Hsend. rewrite list_lookup_fmap, Hk. simpl.
    unfold delivered. rewrite Hopen, Hsend. reflexivity.
  - intros Hsend. rewrite list_lookup_fmap, Hk. simpl.
    unfold delivered. rewrite Hsend, andb_false_r. reflexivity.
  - intros Hclosed. rewrite list_lookup_fmap, Hk. simpl.
    unfold delivered. apply Z.eqb_neq in Hclosed. rewrite Hclosed. reflexivity.
Qed.

End BroadcastProperties.

(** ** Topics, subscriptions and the broker connection *)

Section ConnectionProperties.

Lemma set_clients_id (st : bridge) : set_clients (clients st) st = st.
Proof. destruct st. reflexivity. Qed.

Lemma with_subscriptions_nil (c : mqtt_client) : with_subscriptions [] c = c.
Proof. destruct c. unfold with_subscriptions. simpl. rewrite app_nil_r. reflexivity. Qed.

(** A run of [subscribe] calls on the client [j]. *)
Lemma subscribe_all (topics : list string) (st : bridge) (j : nat) (c : mqtt_client) :
  clients st !! j = Some c ->
  fold_left (fun s topic => subscribe j topic s) topics st
  = set_clients (<[j := with_subscriptions topics c]> (clients st)) st.
Proof.
  revert st c. induction topics as [| t rest IH]; intros st c Hj; simpl.
  - rewrite with_subscriptions_nil, (list_insert_id _ _ _ Hj).
    symmetry. apply set_clients_id.
  - unfold subscribe at 2. rewrite Hj.
    rewrite (IH _ (with_subscriptions [t] c)).
    + unfold set_clients, with_subscriptions. simpl.
      rewrite list_insert_insert_eq, <- app_assoc. reflexivity.
    + simpl. apply list_lookup_insert_eq. eapply lookup_lt_Some. exact Hj.
Qed.

Lemma subscribe_none (topics : list string) (st : bridge) (j : nat) :
  clients st !! j = None ->
  fold_left (fun s topic => subscribe j topic s) topics st = st.
Proof.
  intros Hj. induction topics as [| t rest IH]; simpl; [reflexivity |].
  unfold subscribe at 2. rewrite Hj. exact IH.
Qed.

Lemma doSubscribe_publishTopic (i : nat) (st : bridge) :
  publishTopic (doSubscribe i st) = publishTopic st.
Proof.
  unfold doSubscribe.
  destruct (clients st !! i) as [closure|]; [| reflexivity].
  destruct (mqttClient st) as [j|]; [| reflexivity].
  destruct (clients st !! j) as [c|] eqn:Hj.
  - rewrite (subscribe_all _ st j c Hj). reflexivity.
  - rewrite (subscribe_none _ st j Hj). reflexivity.
Qed.

(** C3, as amended.  For a configuration whose [publish_topic] is known,
    the topics are that topic verbatim, followed, when [deviceId] is known
    (whatever [client_id] is), by the inbox topic [devices/p2p/] with the
    device identifier, its colons replaced by underscores; so exactly the
    publish topic when [deviceId] is unknown too.  [doSubscribe] subscribes
    these in order on the current client and then, always, the wildcard
    [#].  The topics are a function of the configuration alone. *)
Theorem C3_topics_of_known_publish_topic (cfg : config) (t : string) :
  publish_topic cfg = Some t ->
  t <> EmptyString ->
  subscribeTopics cfg
  = t :: (if truthy_string (deviceId cfg)
          then ["devices/p2p/" +:+ replace_colons (default EmptyString (deviceId cfg))]
          else [])
  /\ (truthy_string (deviceId cfg) = false -> subscribeTopics cfg = [t])
  /\ (forall (st : bridge) (i j : nat) (closure c : mqtt_client),
         clients st !! i = Some closure ->
         conn_config closure = cfg ->
         mqttClient st = Some j ->
         clients st !! j = Some c ->
         doSubscribe i st
         = set_clients
             (<[j := with_subscriptions (subscribeTopics cfg ++ ["#"]) c]> (clients st))
             st).
Proof.
  intros Hpt Hne.
  assert (Htopics : subscribeTopics cfg
                    = t :: (if truthy_string (deviceId cfg)
                            then ["devices/p2p/"
                                  +:+ replace_colons (default EmptyString (deviceId cfg))]
                            else [])).
  { unfold subscribeTopics. rewrite Hpt. simpl.
    apply String.eqb_neq in Hne. rewrite Hne. simpl.
    destruct (truthy_string (deviceId cfg)); reflexivity. }
  split; [exact Htopics |]. split.
  - intros Hdev. rewrite Htopics, Hdev. reflexivity.
  - intros st i j closure c Hi Hcfg Hcur Hj.
    unfold doSubscribe. rewrite Hi, Hcur, Hcfg.
    apply subscribe_all. exact Hj.
Qed.

Lemma mqtt_connected_set_deviceConfigs (m : gmap string config) (st : bridge) :
  mqtt_connected (set_deviceConfigs m st) = mqtt_connected st.
Proof. reflexivity. Qed.

(** C2, as amended.  While a client is connected, [addDevice] opens no
    connection and issues no subscription: the client objects, with the
    topics subscribed on each, the current client, the pending timers and
    the saved publish topic are as before; the device's configuration is
    recorded in [deviceConfigs] when the fetch succeeded, and the failure is
    printed when it did not. *)
Theorem C2_addDevice_while_connected
    (deviceId clientId : string) (response : completion ota_mqtt) (st : bridge) :
  mqtt_connected st = true ->
  clients (addDevice deviceId clientId response st) = clients st
  /\ mqttClient (addDevice deviceId clientId response st) = mqttClient st
  /\ timers (addDevice deviceId clientId response st) = timers st
  /\ publishTopic (addDevice deviceId clientId response st) = publishTopic st
  /\ (forall cfg,
         fetchDeviceConfig deviceId clientId response = Normal cfg ->
         addDevice deviceId clientId response st
         = set_deviceConfigs (<[deviceId := cfg]> (deviceConfigs st)) st)
  /\ (forall e,
         fetchDeviceConfig deviceId clientId response = Throw e ->
         addDevice deviceId clientId response st
         = print (error_failed_to_add_device e) st).
Proof.
  intros Hconn. unfold addDevice.
  destruct (fetchDeviceConfig deviceId clientId response) as [cfg|e].
  - rewrite mqtt_connected_set_deviceConfigs, Hconn. simpl.
    repeat split; try reflexivity.
    + intros cfg' [= <-]. reflexivity.
    + intros e [=].
  - repeat split; try reflexivity.
    + intros cfg [=].
    + intros e' [= <-]. reflexivity.
Qed.

Lemma mqtt_connected_set_timers (l : list nat) (st : bridge) :
  mqtt_connected (set_timers l st) = mqtt_connected st.
Proof. reflexivity. Qed.

(** The current client's flag dropped: no client is connected. *)
Lemma transport_down (j : nat) (st : bridge) :
  mqttClient st = Some j -> mqtt_connected (transport j false st) = false.
Proof.
  intros Hcur. unfold transport, mqtt_connected.
  destruct (clients st !! j) as [c|] eqn:Hj.
  - simpl. rewrite Hcur.
    rewrite list_lookup_insert_eq by (eapply lookup_lt_Some; exact Hj).
    reflexivity.
  - rewrite Hcur, Hj. reflexivity.
Qed.

Lemma transport_subscribed (j : nat) (up : bool) (st : bridge) :
  map subscribed (clients (transport j up st)) = map subscribed (clients st).
Proof.
  unfold transport. destruct (clients st !! j) as [c|] eqn:Hj; [| reflexivity].
  simpl. rewrite list_fmap_insert. simpl.
  apply list_insert_id. rewrite list_lookup_fmap, Hj. reflexivity.
Qed.

Lemma on_connect_clients (i : nat) (connack : option connack_t) (st : bridge) :
  clients (on_connect i connack st) = clients st
  /\ mqttClient (on_connect i connack st) = mqttClient st.
Proof.
  unfold on_connect.
  destruct (match connack with
            | Some ck => negb (returnCode ck =? 0)%Z
            | None => false
            end); [split; reflexivity |].
  destruct (negb (mqtt_connected st)); split; reflexivity.
Qed.

End ConnectionProperties.

(** ** Runs of the bridge *)

Section RunProperties.

Variable JSON_parse : string -> completion json.
Variable JSON_stringify : json -> string.

#[local] Abbreviation on_message := (AutoBridge.on_message JSON_parse JSON_stringify).
#[local] Abbreviation step := (AutoBridge.step JSON_parse JSON_stringify).
#[local] Abbreviation run := (AutoBridge.run JSON_parse JSON_stringify).
#[local] Abbreviation last_connect := (Obs.last_connect JSON_parse JSON_stringify).

(** What the guard of the stabilization timer achieves.  Nothing cancels
    the timer; fired while no client is connected ([this.mqttClient] is
    [null] or its flag [connected] is down), its callback prints a warning
    and subscribes to nothing.  So when a connection is acknowledged, then
    torn down, and the timer of that acknowledgement fires before a client
    is connected again, no subscription is issued; a client being torn
    down leaves the pending timers as they are. *)
Lemma pending_timer_is_guarded (i : nat) (st : bridge) :
  mqtt_connected st = false ->
  stabilization_timeout i st = print warn_connection_lost_before_subscription st
  /\ clients (step (StabilizationTimer i) st) = clients st
  /\ (forall (j : nat) (up : bool), timers (transport j up st) = timers st)
  /\ (forall (st0 : bridge) (j : nat) (connack : option connack_t),
         mqttClient st0 = Some j ->
         map subscribed
             (clients (run [Connect i connack; Transport j false; StabilizationTimer i] st0))
         = map subscribed (clients st0)).
Proof.
  intros Hdown.
  assert (Hguard : forall s, mqtt_connected s = false ->
            stabilization_timeout i s
            = print warn_connection_lost_before_subscription s).
  { intros s Hs. unfold stabilization_timeout. rewrite Hs. reflexivity. }
  assert (Hfire : forall s, mqtt_connected s = false ->
            clients (step (StabilizationTimer i) s) = clients s).
  { intros s Hs. simpl. destruct (bool_decide (i ∈ timers s)); [| reflexivity].
    rewrite Hguard by (rewrite mqtt_connected_set_timers; exact Hs). reflexivity. }
  split; [exact (Hguard st Hdown) |].
  split; [exact (Hfire st Hdown) |].
  split.
  - intros j up. unfold transport. destruct (clients st !! j); reflexivity.
  - intros st0 j connack Hcur.
    change (run [Connect i connack; Transport j false; StabilizationTimer i] st0)
      with (step (StabilizationTimer i)
              (step (Transport j false) (step (Connect i connack) st0))).
    set (st1 := step (Connect i connack) st0).
    assert (H1 : clients st1 = clients st0 /\ mqttClient st1 = mqttClient st0).
    { subst st1. simpl. destruct (bool_decide (is_Some (clients st0 !! i))).
      - apply on_connect_clients.
      - split; reflexivity. }
    destruct H1 as [Hclients Hcur1].
    change (step (Transport j false) st1) with (transport j false st1).
    rewrite Hfire by (apply transport_down; rewrite Hcur1; exact Hcur).
    rewrite transport_subscribed, Hclients. reflexivity.
Qed.

Lemma broadcastToWebSocket_publishTopic (data : json) (st : bridge) :
  publishTopic (broadcastToWebSocket JSON_stringify data st) = publishTopic st.
Proof.
  unfold broadcastToWebSocket. destruct (wss st) as [cs|]; [| reflexivity].
  destruct (forEach_client (JSON_stringify data) cs 0) as [[cs' n] out].
  destruct (0 <? n)%nat; reflexivity.
Qed.

Lemma on_message_publishTopic (topic raw : string) (now : Z) (st : bridge) :
  publishTopic (snd (on_message topic raw now st)) = publishTopic st.
Proof.
  destruct (JSON_parse raw) as [data|e] eqn:Hparse.
  - destruct (has_marker data) eqn:Hmark.
    + rewrite (on_message_marked _ _ topic raw now st data Hparse Hmark). simpl.
      destruct (marked_logging data).
      * rewrite broadcastToWebSocket_publishTopic. reflexivity.
      * reflexivity.
    + destruct (decide (publishTopic st = Some topic)) as [Htopic | Htopic].
      * destruct (has_field data "duration") eqn:Hdur.
        -- destruct (truthy (field data "session_id")) eqn:Hsid.
           ++ rewrite (on_message_tolerant _ _ topic raw now st data
                         Hparse Hmark Htopic Hdur Hsid).
              simpl. rewrite broadcastToWebSocket_publishTopic. reflexivity.
           ++ destruct (on_message_dropped _ JSON_stringify topic raw now st data
                          Hparse Hmark (or_intror (or_intror Hsid))) as [diag [-> _]].
              reflexivity.
        -- destruct (on_message_dropped _ JSON_stringify topic raw now st data
                       Hparse Hmark (or_intror (or_introl Hdur))) as [diag [-> _]].
           reflexivity.
      * destruct (on_message_dropped _ JSON_stringify topic raw now st data
                    Hparse Hmark (or_introl Htopic)) as [diag [-> _]].
        reflexivity.
  - rewrite (on_message_invalid _ JSON_stringify topic raw now st e Hparse). reflexivity.
Qed.

(** The saved publish topic changes exactly when an event calls
    [connectMQTT] through to [mqtt.connect], and then to the topic of the
    configuration of that call. *)
Lemma step_publishTopic (ev : event) (st : bridge) :
  publishTopic (step ev st)
  = match connects ev st with
    | Some cfg => publish_topic cfg
    | None => publishTopic st
    end.
Proof.
  destruct ev as [| ws | d c response | i up | i connack | i | i failure | i e
                  | i topic raw now]; simpl.
  - reflexivity.
  - unfold on_connection, bind, modify, reads, lift. simpl.
    unfold ws_send. destruct (send_throws ws); reflexivity.
  - unfold addDevice.
    destruct (fetchDeviceConfig d c response) as [cfg|e]; [| reflexivity].
    rewrite mqtt_connected_set_deviceConfigs.
    unfold connectMQTT. rewrite mqtt_connected_set_deviceConfigs.
    destruct (mqtt_connected st); reflexivity.
  - unfold transport. destruct (clients st !! i); reflexivity.
  - destruct (bool_decide (is_Some (clients st !! i))); [| reflexivity].
    unfold on_connect.
    destruct (match connack with
              | Some ck => negb (returnCode ck =? 0)%Z
              | None => false
              end); [reflexivity |].
    destruct (negb (mqtt_connected st)); reflexivity.
  - destruct (bool_decide (i ∈ timers st)); [| reflexivity].
    unfold stabilization_timeout.
    destruct (negb (mqtt_connected (set_timers (remove_first i (timers st)) st)));
      [reflexivity |].
    rewrite doSubscribe_publishTopic. reflexivity.
  - unfold on_subscribed.
    destruct failure as [e|]; simpl.
    + destruct (clients st !! i) as [cl|]; [| reflexivity].
      destruct (isFirstConnect cl); [| reflexivity].
      unfold set_closure. simpl. destruct (clients st !! i); reflexivity.
    + destruct (clients st !! i) as [cl|] eqn:Hi; [| reflexivity].
      destruct (isFirstConnect cl); [| reflexivity].
      unfold set_closure. rewrite Hi. reflexivity.
  - unfold on_error. simpl.
    destruct (clients st !! i) as [cl|] eqn:Hi; [| reflexivity].
    unfold set_closure. simpl. rewrite Hi. destruct (promise cl); reflexivity.
  - destruct (bool_decide (is_Some (clients st !! i))); [| reflexivity].
    apply on_message_publishTopic.
Qed.

Lemma last_connect_publishTopic (evs : list event) (st : bridge)
    (acc : option config) (cfg : config) :
  (forall cfg0, acc = Some cfg0 -> publishTopic st = publish_topic cfg0) ->
  last_connect evs st acc = Some cfg ->
  publishTopic (run evs st) = publish_topic cfg.
Proof.
  revert st acc. induction evs as [| ev rest IH]; intros st acc Hacc Hlast.
  - simpl in *. apply Hacc. exact Hlast.
  - simpl in Hlast.
    change (run (ev :: rest) st) with (run rest (step ev st)).
    eapply (IH (step ev st)); [| exact Hlast].
    intros cfg0 Hcfg0. rewrite step_publishTopic.
    destruct (connects ev st) as [cfg1|].
    + injection Hcfg0 as ->. reflexivity.
    + apply Hacc. exact Hcfg0.
Qed.

(** C9.  The handler of every client compares the topic with the one
    variable [this.publishTopic]; after a run that variable holds the
    publish topic of the configuration of the most recent [connectMQTT]
    call; so a payload without the marker on any other topic, the publish
    topic of an earlier device included, does not take the tolerant path: it
    is dropped. *)
Theorem C9_tolerant_path_knows_one_publish_topic
    (evs : list event) (st : bridge) (cfg : config)
    (topic raw : string) (now : Z) (data : json) :
  last_connect evs st None = Some cfg ->
  publish_topic cfg <> Some topic ->
  JSON_parse raw = Normal data ->
  has_marker data = false ->
  publishTopic (run evs st) = publish_topic cfg
  /\ (exists diag,
         on_message topic raw now (run evs st)
         = (Normal tt,
            set_console (console (run evs st) ++ diag) (incr_mqttMessages (run evs st)))
         /\ Forall (is_parse_error raw) diag)
  /\ wss (snd (on_message topic raw now (run evs st))) = wss (run evs st).
Proof.
  intros Hlast Hother Hparse Hmark.
  assert (Hsaved : publishTopic (run evs st) = publish_topic cfg).
  { apply (last_connect_publishTopic evs st None cfg); [intros ? [=] | exact Hlast]. }
  assert (Hne : publishTopic (run evs st) <> Some topic).
  { rewrite Hsaved. exact Hother. }
  destruct (on_message_dropped _ JSON_stringify topic raw now (run evs st) data
              Hparse Hmark (or_introl Hne)) as [diag [Heq Hdiag]].
  split; [exact Hsaved |]. split.
  - exists diag. split; assumption.
  - rewrite Heq. reflexivity.
Qed.

End RunProperties.

(** ** The heartbeat of api-bridge.js *)

Section HeartbeatProperties.

Variable JSON_parse : string -> completion json.
Variable JSON_stringify : json -> string.

#[local] Abbreviation on_interval := (ApiBridge.on_interval JSON_stringify).
#[local] Abbreviation on_client_message :=
  (ApiBridge.on_message JSON_parse JSON_stringify).
#[local] Abbreviation is_liveness_message := (ApiBridge.is_liveness_message JSON_parse).
#[local] Abbreviation heartbeat := (ApiBridge.run JSON_parse JSON_stringify).

Lemma update_id (k : nat) (c : ApiBridge.connection) (st : ApiBridge.bridge) :
  ApiBridge.clients st !! k = Some c -> ApiBridge.update k c st = st.
Proof.
  intros Hk. destruct st as [m n out]. unfold ApiBridge.update. simpl in *.
  rewrite (insert_id m k c Hk). reflexivity.
Qed.

(** A message that is no sign of life changes nothing. *)
Lemma on_message_silent (k : nat) (raw : string) (st : ApiBridge.bridge) :
  is_liveness_message raw = false -> on_client_message k raw st = st.
Proof.
  intros Hsilent. unfold ApiBridge.on_message.
  destruct (ApiBridge.clients st !! k) as [c|] eqn:Hk; [| reflexivity].
  unfold ApiBridge.is_liveness_message in Hsilent.
  unfold ApiBridge.handle_message.
  destruct (JSON_parse raw) as [data|e]; simpl in *; [| reflexivity].
  destruct (get data "type") as [type|e]; simpl in *; [| reflexivity].
  apply orb_false_iff in Hsilent. destruct Hsilent as [-> ->].
  apply update_id. exact Hk.
Qed.

Lemma silence_changes_nothing (k : nat) (msgs : list string) (st : ApiBridge.bridge) :
  Forall (fun raw => is_liveness_message raw = false) msgs ->
  heartbeat (map (ApiBridge.ClientMessage k) msgs) st = st.
Proof.
  intros Hall. revert st. induction Hall as [| raw rest Hraw _ IH]; intros st.
  - reflexivity.
  - change (heartbeat (map (ApiBridge.ClientMessage k) (raw :: rest)) st)
      with (heartbeat (map (ApiBridge.ClientMessage k) rest) (on_client_message k raw st)).
    rewrite (on_message_silent k raw st Hraw). apply IH.
Qed.

(** C6, as amended.  Take a registered client whose interval is running
    and whose socket takes the probe.  After the probe it is still registered, with
    [isAlive] down.  If, until the next tick, it gives no sign of life (the
    messages it sends, if any, are neither a JSON pong nor a JSON ping, the
    two messages the handler answers by raising [isAlive]; a pong frame is
    the event [Pong], absent here), it stays registered, unchanged: nothing
    removes it earlier.  At the next tick of its interval the socket is
    terminated: it is gone from the registry, the other clients are as they
    were, and the client counter is one less. *)
Theorem C6_silent_client_is_evicted_at_next_probe
    (st : ApiBridge.bridge) (k : nat) (c : ApiBridge.connection) (msgs : list string) :
  ApiBridge.clients st !! k = Some c ->
  ApiBridge.pingInterval c = true ->
  ApiBridge.isAlive c = true ->
  ApiBridge.write_throws c = false ->
  Forall (fun raw => is_liveness_message raw = false) msgs ->
  let probed := on_interval k st in
  let waited := heartbeat (map (ApiBridge.ClientMessage k) msgs) probed in
  let evicted := on_interval k waited in
  ApiBridge.clients probed !! k
  = Some (ApiBridge.Connection false true
            (match ApiBridge.ws_isAlive c with Some _ => Some false | None => None end)
            false (ApiBridge.sent c ++ [ApiBridge.probe_frame JSON_stringify c]))
  /\ ApiBridge.websocketClients probed = ApiBridge.websocketClients st
  /\ waited = probed
  /\ ApiBridge.clients evicted !! k = None
  /\ (forall k', k' <> k ->
        ApiBridge.clients evicted !! k' = ApiBridge.clients st !! k')
  /\ ApiBridge.websocketClients evicted = (ApiBridge.websocketClients st - 1)%Z.
Proof.
  intros Hk Hint Halive Hwrite Hsilent probed waited evicted.
  assert (Hwaited : waited = probed).
  { subst waited. apply silence_changes_nothing. exact Hsilent. }
  assert (Hprobed : probed
            = ApiBridge.update k
                (ApiBridge.Connection false true
                   (match ApiBridge.ws_isAlive c with
                    | Some _ => Some false
                    | None => None
                    end)
                   false (ApiBridge.sent c ++ [ApiBridge.probe_frame JSON_stringify c]))
                st).
  { subst probed. unfold ApiBridge.on_interval, ApiBridge.probe_frame.
    rewrite Hk, Hint, Halive, Hwrite. simpl.
    destruct (ApiBridge.ws_isAlive c); reflexivity. }
  assert (Hevicted : ApiBridge.clients evicted = delete k (ApiBridge.clients st)
                     /\ ApiBridge.websocketClients evicted
                        = (ApiBridge.websocketClients st - 1)%Z).
  { subst evicted. rewrite Hwaited, Hprobed.
    unfold ApiBridge.on_interval, ApiBridge.update. simpl.
    rewrite lookup_insert_eq. simpl.
    unfold ApiBridge.terminate, ApiBridge.on_close, ApiBridge.clearInterval,
      ApiBridge.print, ApiBridge.update. simpl.
    rewrite lookup_insert_eq. simpl. rewrite lookup_insert_eq. simpl.
    rewrite insert_insert_eq, delete_insert_eq. split; reflexivity. }
  destruct Hevicted as [Hclients Hcount].
  split; [rewrite Hprobed; simpl; apply lookup_insert_eq |].
  split; [rewrite Hprobed; reflexivity |].
  split; [exact Hwaited |].
  split; [rewrite Hclients; apply lookup_delete_eq |].
  split; [| exact Hcount].
  intros k' Hne. rewrite Hclients. apply lookup_delete_ne. congruence.
Qed.

End HeartbeatProperties.

(** * The statements at concrete inputs *)

(** C1 at a mislabeled payload (type [other], session [s2], duration 4) on
    the device's publish topic. *)
Lemma C1_witness :
  (Sample.parse (Sample.raw Sample.mislabeled) = Normal (snd Sample.mislabeled)
   /\ has_marker (snd Sample.mislabeled) = false
   /\ publishTopic (Sample.run Sample.listening) = Some "xiaozhi/dev1/publish"
   /\ has_field (snd Sample.mislabeled) "duration" = true
   /\ truthy (field (snd Sample.mislabeled) "session_id") = true)
  /\ AutoBridge.on_message Sample.parse Sample.stringify "xiaozhi/dev1/publish"
       (Sample.raw Sample.mislabeled) Sample.now (Sample.run Sample.listening)
     = (Normal tt,
        broadcastToWebSocket Sample.stringify
          (tolerant_event (snd Sample.mislabeled) Sample.now)
          (incr_mqttMessages (Sample.run Sample.listening))).
Proof.
  split.
  - repeat split; vm_compute; reflexivity.
  - apply (C1_tolerant_payload_is_forwarded Sample.parse Sample.stringify
             "xiaozhi/dev1/publish" (Sample.raw Sample.mislabeled) Sample.now
             (Sample.run Sample.listening) (snd Sample.mislabeled));
      vm_compute; reflexivity.
Defined.

(** C1 as stated fails: a payload of type [other] with [duration] 4 and the
    empty string as [session_id] lacks the marker, arrives on the device's publish topic
    and has both properties, and nothing is broadcast: the handler only
    counts the message. *)
Lemma C1_counterexample :
  Sample.parse (Sample.raw Sample.empty_session) = Normal (snd Sample.empty_session)
  /\ has_marker (snd Sample.empty_session) = false
  /\ publishTopic (Sample.run Sample.listening) = Some "xiaozhi/dev1/publish"
  /\ has_field (snd Sample.empty_session) "duration" = true
  /\ has_field (snd Sample.empty_session) "session_id" = true
  /\ AutoBridge.on_message Sample.parse Sample.stringify "xiaozhi/dev1/publish"
       (Sample.raw Sample.empty_session) Sample.now (Sample.run Sample.listening)
     = (Normal tt, incr_mqttMessages (Sample.run Sample.listening)).
Proof.
  do 5 (split; [vm_compute; reflexivity |]).
  vm_compute; reflexivity.
Qed.

(** C2 at a second device added while the first connection is up. *)
Lemma C2_witness :
  mqtt_connected (Sample.run Sample.listening) = true
  /\ clients (addDevice "aa:bb:cc:dd:ee:ff" "uuid-2" (Normal Sample.ota2)
                        (Sample.run Sample.listening))
     = clients (Sample.run Sample.listening).
Proof.
  split.
  - vm_compute; reflexivity.
  - apply (C2_addDevice_while_connected "aa:bb:cc:dd:ee:ff" "uuid-2"
             (Normal Sample.ota2) (Sample.run Sample.listening)).
    vm_compute; reflexivity.
Defined.

(** C2 as stated fails: after the second device is added while connected,
    its configuration is recorded, but the only topics ever subscribed are
    those of the first device, and no timer that would subscribe is
    pending. *)
Lemma C2_counterexample :
  mqtt_connected (Sample.run Sample.listening) = true
  /\ publish_topic
       <$> (deviceConfigs (Sample.run (Sample.listening
              ++ [AddDevice "aa:bb:cc:dd:ee:ff" "uuid-2" (Normal Sample.ota2)]))
            !! "aa:bb:cc:dd:ee:ff")
     = Some (Some "xiaozhi/dev2/publish")
  /\ map subscribed
       (clients (Sample.run (Sample.listening
          ++ [AddDevice "aa:bb:cc:dd:ee:ff" "uuid-2" (Normal Sample.ota2)])))
     = [["xiaozhi/dev1/publish"; "devices/p2p/e4_b0_63_85_96_00"; "#"]]
  /\ timers (Sample.run (Sample.listening
       ++ [AddDevice "aa:bb:cc:dd:ee:ff" "uuid-2" (Normal Sample.ota2)])) = [].
Proof. repeat split; vm_compute; reflexivity. Qed.

(** C3 at a configuration with a publish topic and no device identifier. *)
Lemma C3_witness :
  (publish_topic Sample.anonymous = Some "x/y/publish" /\ "x/y/publish" <> EmptyString)
  /\ subscribeTopics Sample.anonymous = ["x/y/publish"].
Proof.
  split.
  - split; [reflexivity | discriminate].
  - apply (C3_topics_of_known_publish_topic Sample.anonymous "x/y/publish");
      [reflexivity | discriminate | reflexivity].
Defined.

(** C3 as stated fails: the configuration [fetchDeviceConfig] builds from an
    OTA answer with a publish topic and no [client_id] resolves to two
    topics, the publish topic and the inbox topic of the device. *)
Lemma C3_counterexample :
  exists cfg,
    fetchDeviceConfig "e4:b0:63:85:96:00" "uuid-1" (Normal Sample.ota_xy) = Normal cfg
    /\ publish_topic cfg = Some "x/y/publish"
    /\ client_id cfg = None
    /\ subscribeTopics cfg = ["x/y/publish"; "devices/p2p/e4_b0_63_85_96_00"].
Proof. eexists. repeat split. Qed.

(** The guard at the timer firing after the connection was torn down. *)
Example pending_timer_is_guarded_after_tear_down :
  mqtt_connected (Sample.run Sample.torn_down) = false
  /\ stabilization_timeout 0 (Sample.run Sample.torn_down)
     = print warn_connection_lost_before_subscription (Sample.run Sample.torn_down).
Proof.
  split.
  - vm_compute; reflexivity.
  - apply (pending_timer_is_guarded Sample.parse Sample.stringify 0
             (Sample.run Sample.torn_down)).
    vm_compute; reflexivity.
Qed.


(** C5 at three push clients, the second of which fails on write. *)
Lemma C5_witness :
  wss Sample.three_sockets
  = Some [Sample.socket; Sample.broken_socket; Sample.socket]
  /\ wss (broadcastToWebSocket Sample.stringify (snd Sample.marked) Sample.three_sockets)
     = Some (map (delivered (Sample.stringify (snd Sample.marked)))
                 [Sample.socket; Sample.broken_socket; Sample.socket]).
Proof.
  split.
  - reflexivity.
  - apply (C5_broadcast_reaches_every_open_client Sample.stringify
             (snd Sample.marked) Sample.three_sockets). reflexivity.
Defined.

(** C5 as stated fails: the client whose write throws is not dropped; after
    the broadcast it is in the registry as before, open, between the two
    clients that received the message. *)
Lemma C5_counterexample :
  wss (broadcastToWebSocket Sample.stringify (snd Sample.marked) Sample.three_sockets)
  = Some [WsClient OPEN false [Sample.stringify (snd Sample.marked)];
          Sample.broken_socket;
          WsClient OPEN false [Sample.stringify (snd Sample.marked)]]
  /\ console (broadcastToWebSocket Sample.stringify (snd Sample.marked)
                                   Sample.three_sockets)
     = [log_broadcasting (Sample.stringify (snd Sample.marked));
        log_sent_to_client 1;
        error_failed_to_send "send failed";
        log_sent_to_client 2;
        log_broadcasted 2].
Proof. split; vm_compute; reflexivity. Qed.

(** C6 at a client that answers the probe with a message that is no sign of
    life. *)
Lemma C6_witness :
  (ApiBridge.clients Sample.one_client !! 7%nat
   = Some (ApiBridge.fresh_connection None false)
   /\ ApiBridge.pingInterval (ApiBridge.fresh_connection None false) = true
   /\ ApiBridge.isAlive (ApiBridge.fresh_connection None false) = true
   /\ ApiBridge.write_throws (ApiBridge.fresh_connection None false) = false
   /\ Forall (fun raw => ApiBridge.is_liveness_message Sample.parse raw = false)
             [Sample.raw Sample.chat; "noise"])
  /\ ApiBridge.clients
       (ApiBridge.run Sample.parse Sample.stringify
          [ApiBridge.Interval 7; ApiBridge.ClientMessage 7 (Sample.raw Sample.chat);
           ApiBridge.ClientMessage 7 "noise"; ApiBridge.Interval 7]
          Sample.one_client) !! 7%nat
     = None.
Proof.
  split.
  - repeat split; try (vm_compute; reflexivity).
    repeat constructor; vm_compute; reflexivity.
  - apply (C6_silent_client_is_evicted_at_next_probe Sample.parse Sample.stringify
             Sample.one_client 7 (ApiBridge.fresh_connection None false)
             [Sample.raw Sample.chat; "noise"]);
      try (vm_compute; reflexivity).
    repeat constructor; vm_compute; reflexivity.
Defined.

(** C6 as stated fails, both ways.  A client that acknowledges no probe but
    sends a JSON ping of its own between two ticks is not closed at the
    second tick: the handler of its message has raised [isAlive], and it
    is registered still, probed a second time.  And a client whose socket
    takes no write is closed at the first tick, before it has missed a
    probe. *)
Lemma C6_counterexample :
  ApiBridge.clients
    (ApiBridge.run Sample.parse Sample.stringify
       [ApiBridge.Interval 7; ApiBridge.ClientMessage 7 (Sample.raw Sample.ping);
        ApiBridge.Interval 7]
       Sample.one_client) !! 7%nat
  = Some (ApiBridge.Connection false true None false
            [ApiBridge.text_frame (Sample.json_text "{'type':'ping'}");
             ApiBridge.text_frame (Sample.json_text "{'type':'pong'}");
             ApiBridge.text_frame (Sample.json_text "{'type':'ping'}")])
  /\ ApiBridge.clients Cases.deaf_client !! 7%nat
     = Some (ApiBridge.fresh_connection None true)
  /\ ApiBridge.clients
       (ApiBridge.run Sample.parse Sample.stringify [ApiBridge.Interval 7]
          Cases.deaf_client) !! 7%nat
     = None.
Proof. do 2 (split; [vm_compute; reflexivity |]). vm_compute; reflexivity. Qed.

(** C7 at a control message on the device's publish topic. *)
Lemma C7_witness :
  (Sample.parse (Sample.raw Sample.control) = Normal (snd Sample.control)
   /\ has_marker (snd Sample.control) = false
   /\ ~ (has_field (snd Sample.control) "duration" = true
         /\ has_field (snd Sample.control) "session_id" = true))
  /\ wss (snd (AutoBridge.on_message Sample.parse Sample.stringify
                 "xiaozhi/dev1/publish" (Sample.raw Sample.control) Sample.now
                 (Sample.run Sample.listening)))
     = wss (Sample.run Sample.listening).
Proof.
  split.
  - repeat split; try (vm_compute; reflexivity).
    intros [H _]. vm_compute in H. discriminate H.
  - apply (C7_unmarked_incomplete_payload_is_dropped Sample.parse Sample.stringify
             "xiaozhi/dev1/publish" (Sample.raw Sample.control) Sample.now
             (Sample.run Sample.listening) (snd Sample.control));
      try (vm_compute; reflexivity).
    intros [H _]. vm_compute in H. discriminate H.
Defined.

(** C8 at a payload that is not JSON. *)
Lemma C8_witness :
  Sample.parse "not json" = Throw "Unexpected token"
  /\ AutoBridge.on_message Sample.parse Sample.stringify "xiaozhi/dev1/publish"
       "not json" Sample.now (Sample.run Sample.listening)
     = (Normal tt,
        print (error_parsing_mqtt_message "Unexpected token" "not json")
              (incr_mqttMessages (Sample.run Sample.listening))).
Proof.
  split.
  - vm_compute; reflexivity.
  - apply (C8_invalid_json_is_logged_and_dropped Sample.parse Sample.stringify).
    vm_compute; reflexivity.
Defined.

(** C9 at two devices: the second was added after the first connection was
    lost, and a mislabeled payload on the first device's publish topic is
    dropped. *)
Lemma C9_witness :
  (exists cfg,
      last_connect Sample.parse Sample.stringify Sample.superseded new None = Some cfg
      /\ publish_topic cfg = Some "xiaozhi/dev2/publish"
      /\ publish_topic cfg <> Some "xiaozhi/dev1/publish")
  /\ Sample.parse (Sample.raw Sample.mislabeled) = Normal (snd Sample.mislabeled)
  /\ has_marker (snd Sample.mislabeled) = false
  /\ wss (snd (AutoBridge.on_message Sample.parse Sample.stringify
                 "xiaozhi/dev1/publish" (Sample.raw Sample.mislabeled) Sample.now
                 (Sample.run Sample.superseded)))
     = wss (Sample.run Sample.superseded).
Proof.
  split; [| split; [| split]].
  - eexists. split; [vm_compute; reflexivity |]. split; [reflexivity | discriminate].
  - vm_compute; reflexivity.
  - vm_compute; reflexivity.
  - eapply (C9_tolerant_path_knows_one_publish_topic Sample.parse Sample.stringify
              Sample.superseded new _ "xiaozhi/dev1/publish"
              (Sample.raw Sample.mislabeled) Sample.now (snd Sample.mislabeled)).
    + vm_compute; reflexivity.
    + discriminate.
    + vm_compute; reflexivity.
    + vm_compute; reflexivity.
Defined.

(** C10 at the mislabeled payload: it is broadcast and the counter stays at
    zero. *)
Lemma C10_witness :
  (Sample.parse (Sample.raw Sample.mislabeled) = Normal (snd Sample.mislabeled)
   /\ has_marker (snd Sample.mislabeled) = false
   /\ publishTopic (Sample.run Sample.listening) = Some "xiaozhi/dev1/publish"
   /\ has_field (snd Sample.mislabeled) "duration" = true
   /\ truthy (field (snd Sample.mislabeled) "session_id") = true)
  /\ conversationStats
       (stats (snd (AutoBridge.on_message Sample.parse Sample.stringify
                      "xiaozhi/dev1/publish" (Sample.raw Sample.mislabeled) Sample.now
                      (Sample.run Sample.listening))))
     = conversationStats (stats (Sample.run Sample.listening)).
Proof.
  split.
  - repeat split; vm_compute; reflexivity.
  - apply (proj1 (proj2 (C10_counter_counts_marked_messages_only
             Sample.parse Sample.stringify "xiaozhi/dev1/publish"
             (Sample.raw Sample.mislabeled) Sample.now (Sample.run Sample.listening)))
             (snd Sample.mislabeled));
      vm_compute; reflexivity.
Defined.

(** * Further properties of auto-bridge.js *)

Import Inv.

Section TopicProperties.

Lemma length_replace_colons (s : string) :
  String.length (replace_colons s) = String.length s.
Proof. induction s as [| c rest IH]; simpl; [reflexivity | rewrite IH; reflexivity]. Qed.

Lemma get_replace_colons (s : string) (n : nat) :
  String.get n (replace_colons s) <> Some ":"%char.
Proof.
  revert n. induction s as [| c rest IH]; intros n; simpl; [discriminate |].
  destruct n as [| n]; [| apply IH].
  destruct (Ascii.eqb c ":") eqn:Hc; [discriminate |].
  apply Ascii.eqb_neq in Hc. congruence.
Qed.

(** X1.  Replacing the colons of a device identifier keeps its length and
    every other character, leaves no colon, and changes nothing in an
    identifier that has none. *)
Theorem X1_replace_colons_leaves_no_colon (s : string) :
  String.length (replace_colons s) = String.length s
  /\ (forall n, String.get n (replace_colons s) <> Some ":"%char)
  /\ (forall n c, String.get n s = Some c -> c <> ":"%char ->
                  String.get n (replace_colons s) = Some c)
  /\ ((forall n, String.get n s <> Some ":"%char) -> replace_colons s = s).
Proof.
  split; [apply length_replace_colons |].
  split; [apply get_replace_colons |].
  split.
  - induction s as [| a rest IH]; intros n c; simpl; [discriminate |].
    destruct n as [| n].
    + intros [= ->] Hc. apply Ascii.eqb_neq in Hc. rewrite Hc. reflexivity.
    + apply IH.
  - induction s as [| a rest IH]; intros Hno; simpl; [reflexivity |].
    destruct (Ascii.eqb a ":") eqn:Ha.
    + apply Ascii.eqb_eq in Ha. subst a. exfalso. apply (Hno 0%nat). reflexivity.
    + rewrite IH; [reflexivity |]. intros n. apply (Hno (S n)).
Qed.

(** X2.  The configuration [fetchDeviceConfig] builds for a device with a
    non-empty identifier always resolves to the publish topic of the OTA
    answer, if it has one, followed by the inbox topic of the device: the
    fallback topics are never used for it, whatever [client_id] is. *)
Theorem X2_fetched_configuration_topics
    (d c : string) (ota : ota_mqtt) (cfg : config) :
  d <> EmptyString ->
  fetchDeviceConfig d c (Normal ota) = Normal cfg ->
  subscribeTopics cfg
  = (if truthy_string (ota_publish_topic ota)
     then [default EmptyString (ota_publish_topic ota)] else [])
    ++ ["devices/p2p/" +:+ replace_colons d].
Proof.
  intros Hd [= <-]. unfold subscribeTopics. simpl.
  apply String.eqb_neq in Hd. rewrite Hd. simpl.
  destruct (truthy_string (ota_publish_topic ota)); reflexivity.
Qed.

Lemma subscribeTopics_not_nil (cfg : config) : subscribeTopics cfg <> [].
Proof.
  unfold subscribeTopics.
  destruct (truthy_string (publish_topic cfg)), (truthy_string (deviceId cfg));
    simpl; try discriminate.
  destruct (truthy_string (client_id cfg)); discriminate.
Qed.

(** X3.  A subscription round of the [connectMQTT] call [i] goes to the
    current client [j], whichever call created it: the topics of call [i]
    and then [#] are appended to what was subscribed on [j], so at least
    two subscribe calls are made, and every other client object is as
    before.  With neither a publish topic nor a device identifier in the
    configuration, the one topic before [#] is the fallback,
    [xiaozhi/<client_id>/#] when [client_id] is known and
    [xiaozhi/+/publish] otherwise. *)
Theorem X3_subscription_round
    (st : bridge) (i j : nat) (closure c : mqtt_client) :
  clients st !! i = Some closure ->
  mqttClient st = Some j ->
  clients st !! j = Some c ->
  (subscribed <$> clients (doSubscribe i st) !! j)
  = Some (subscribed c ++ subscribeTopics (conn_config closure) ++ ["#"])
  /\ 2 <= length (subscribeTopics (conn_config closure) ++ ["#"])
  /\ (forall k, k <> j -> clients (doSubscribe i st) !! k = clients st !! k)
  /\ (truthy_string (publish_topic (conn_config closure)) = false ->
      truthy_string (deviceId (conn_config closure)) = false ->
      subscribeTopics (conn_config closure)
      = [if truthy_string (client_id (conn_config closure))
         then "xiaozhi/" +:+ default EmptyString (client_id (conn_config closure)) +:+ "/#"
         else "xiaozhi/+/publish"]).
Proof.
  intros Hi Hcur Hj.
  assert (Hround : doSubscribe i st
            = set_clients
                (<[j := with_subscriptions
                          (subscribeTopics (conn_config closure) ++ ["#"]) c]>
                   (clients st)) st).
  { unfold doSubscribe. rewrite Hi, Hcur. apply subscribe_all. exact Hj. }
  rewrite Hround. simpl. split; [| split; [| split]].
  - rewrite list_lookup_insert_eq by (eapply lookup_lt_Some; exact Hj). reflexivity.
  - rewrite length_app. simpl.
    pose proof (subscribeTopics_not_nil (conn_config closure)) as Hne.
    destruct (subscribeTopics (conn_config closure)); [contradiction | simpl; lia].
  - intros k Hk. apply list_lookup_insert_ne. congruence.
  - intros Hpt Hdev. unfold subscribeTopics. rewrite Hpt, Hdev. simpl.
    destruct (truthy_string (client_id (conn_config closure))); reflexivity.
Qed.

End TopicProperties.

(** ** What one event may do to the broker side *)

Section StepProperties.

Variable JSON_parse : string -> completion json.
Variable JSON_stringify : json -> string.

#[local] Abbreviation on_message := (AutoBridge.on_message JSON_parse JSON_stringify).
#[local] Abbreviation broadcastToWebSocket :=
  (AutoBridge.broadcastToWebSocket JSON_stringify).
#[local] Abbreviation step := (AutoBridge.step JSON_parse JSON_stringify).
#[local] Abbreviation run := (AutoBridge.run JSON_parse JSON_stringify).

Lemma same_broker_refl (st : bridge) : same_broker st st.
Proof. repeat split. Qed.

Lemma broadcastToWebSocket_same_broker (data : json) (st : bridge) :
  same_broker st (broadcastToWebSocket data st)
  /\ stats (broadcastToWebSocket data st) = stats st.
Proof.
  unfold AutoBridge.broadcastToWebSocket, same_broker.
  destruct (wss st) as [cs|]; [| repeat split].
  destruct (forEach_client (JSON_stringify data) cs 0) as [[cs' n] out].
  destruct (0 <? n)%nat; repeat split.
Qed.

(** The handler returns normally, and what it leaves is a broadcast or some
    printed lines on top of the counted message. *)
Lemma on_message_shape (topic raw : string) (now : Z) (st : bridge) :
  exists base,
    (base = incr_mqttMessages st
     \/ base = incr_conversationStats (incr_mqttMessages st))
    /\ ((exists data, on_message topic raw now st
                      = (Normal tt, broadcastToWebSocket data base))
        \/ (exists out, on_message topic raw now st
                        = (Normal tt, set_console (console base ++ out) base))).
Proof.
  destruct (JSON_parse raw) as [data|e] eqn:Hparse.
  - destruct (has_marker data) eqn:Hmark.
    + exists (incr_conversationStats (incr_mqttMessages st)).
      split; [right; reflexivity |].
      rewrite (on_message_marked _ JSON_stringify topic raw now st data Hparse Hmark).
      simpl. destruct (marked_logging data) as [[]|e].
      * left. exists data. reflexivity.
      * right. exists [error_parsing_mqtt_message e raw]. reflexivity.
    + exists (incr_mqttMessages st). split; [left; reflexivity |].
      destruct (decide (publishTopic st = Some topic)) as [Htopic | Htopic].
      * destruct (has_field data "duration") eqn:Hdur.
        -- destruct (truthy (field data "session_id")) eqn:Hsid.
           ++ left. exists (tolerant_event data now).
              apply (on_message_tolerant _ JSON_stringify); assumption.
           ++ right.
              destruct (on_message_dropped _ JSON_stringify topic raw now st data
                          Hparse Hmark (or_intror (or_intror Hsid))) as [out [Heq _]].
              exists out. exact Heq.
        -- right.
           destruct (on_message_dropped _ JSON_stringify topic raw now st data
                       Hparse Hmark (or_intror (or_introl Hdur))) as [out [Heq _]].
           exists out. exact Heq.
      * right.
        destruct (on_message_dropped _ JSON_stringify topic raw now st data
                    Hparse Hmark (or_introl Htopic)) as [out [Heq _]].
        exists out. exact Heq.
  - exists (incr_mqttMessages st). split; [left; reflexivity |].
    right. exists [error_parsing_mqtt_message e raw].
    apply (on_message_invalid _ JSON_stringify). exact Hparse.
Qed.

Lemma on_message_contained (topic raw : string) (now : Z) (st : bridge) :
  fst (on_message topic raw now st) = Normal tt
  /\ same_broker st (snd (on_message topic raw now st))
  /\ mqttMessages (stats (snd (on_message topic raw now st)))
     = (mqttMessages (stats st) + 1)%Z
  /\ websocketClients (stats (snd (on_message topic raw now st)))
     = websocketClients (stats st).
Proof.
  destruct (on_message_shape topic raw now st) as [base [Hbase Hshape]].
  assert (Hb : same_broker st base
               /\ mqttMessages (stats base) = (mqttMessages (stats st) + 1)%Z
               /\ websocketClients (stats base) = websocketClients (stats st)).
  { destruct Hbase as [-> | ->]; repeat split. }
  destruct Hb as [(H1 & H2 & H3 & H4 & H5) [Hm Hw]].
  destruct Hshape as [[data ->] | [out ->]]; simpl.
  - destruct (broadcastToWebSocket_same_broker data base)
      as [(B1 & B2 & B3 & B4 & B5) Bs].
    split; [reflexivity |].
    split; [repeat split; congruence |].
    rewrite Bs. split; assumption.
  - split; [reflexivity |].
    split; [repeat split; assumption |].
    split; assumption.
Qed.

(** X4.  Whatever the topic and the payload, the ['message'] handler
    returns normally, counts the message once, and leaves the broker side
    of the bridge (the client objects and their subscriptions, the current
    client, the device configurations, the saved publish topic, the pending
    timers) and the push-client counter as they were. *)
Theorem X4_message_handler_is_contained
    (topic raw : string) (now : Z) (st : bridge) :
  fst (on_message topic raw now st) = Normal tt
  /\ same_broker st (snd (on_message topic raw now st))
  /\ mqttMessages (stats (snd (on_message topic raw now st)))
     = (mqttMessages (stats st) + 1)%Z
  /\ websocketClients (stats (snd (on_message topic raw now st)))
     = websocketClients (stats st).
Proof. exact (on_message_contained topic raw now st). Qed.

(** X5.  A payload that carries the marker is forwarded as it was decoded:
    when its [duration] is absent, [null] or a number and its [timestamp]
    is no array or object, the handler counts it in [conversationStats] and
    broadcasts the decoded payload itself, so every open socket whose write
    succeeds receives its serialization, whether or not the payload has a
    [session_id], a [duration] or a [reason]. *)
Theorem X5_marked_payload_is_forwarded_verbatim
    (topic raw : string) (now : Z) (st : bridge) (data : json)
    (cs : list ws_client) :
  JSON_parse raw = Normal data ->
  has_marker data = true ->
  nullish_or_number (field data "duration") = true ->
  primitive (field data "timestamp") = true ->
  wss st = Some cs ->
  on_message topic raw now st
  = (Normal tt,
     broadcastToWebSocket data (incr_conversationStats (incr_mqttMessages st)))
  /\ wss (snd (on_message topic raw now st))
     = Some (map (delivered (JSON_stringify data)) cs)
  /\ conversationStats (stats (snd (on_message topic raw now st)))
     = (conversationStats (stats st) + 1)%Z.
Proof.
  intros Hparse Hmark Hdur Hts Hwss.
  assert (Hlog : marked_logging data = Normal tt).
  { unfold marked_logging, cbind.
    destruct (field data "duration") as [[]|]; try discriminate Hdur;
      destruct (field data "timestamp") as [[]|]; try discriminate Hts; reflexivity. }
  rewrite (on_message_marked _ JSON_stringify topic raw now st data Hparse Hmark).
  simpl. rewrite Hlog. split; [reflexivity |]. split.
  - apply broadcastToWebSocket_sockets. exact Hwss.
  - destruct (broadcastToWebSocket_same_broker data
                (incr_conversationStats (incr_mqttMessages st))) as [_ ->].
    reflexivity.
Qed.

(** X6.  A payload that carries the marker but whose [duration] is a
    string, a boolean, an array or an object is counted in
    [conversationStats] and then lost: printing the duration throws, the
    [catch] prints the error, and nothing is broadcast. *)
Theorem X6_marked_payload_with_bad_duration_is_counted_not_forwarded
    (topic raw : string) (now : Z) (st : bridge) (data : json) :
  JSON_parse raw = Normal data ->
  has_marker data = true ->
  nullish_or_number (field data "duration") = false ->
  on_message topic raw now st
  = (Normal tt,
     print (error_parsing_mqtt_message "data.duration?.toFixed is not a function" raw)
           (incr_conversationStats (incr_mqttMessages st)))
  /\ wss (snd (on_message topic raw now st)) = wss st
  /\ conversationStats (stats (snd (on_message topic raw now st)))
     = (conversationStats (stats st) + 1)%Z.
Proof.
  intros Hparse Hmark Hdur.
  assert (Hlog : marked_logging data
                 = Throw "data.duration?.toFixed is not a function").
  { unfold marked_logging, cbind.
    destruct (field data "duration") as [[]|]; try discriminate Hdur; reflexivity. }
  rewrite (on_message_marked _ JSON_stringify topic raw now st data Hparse Hmark).
  simpl. rewrite Hlog. repeat split.
Qed.

Lemma ages_refl (c : mqtt_client) : ages c c.
Proof.
  repeat split; try (intros; assumption).
  exists []. rewrite app_nil_r. reflexivity.
Qed.

Lemma ages_trans (c1 c2 c3 : mqtt_client) : ages c1 c2 -> ages c2 c3 -> ages c1 c3.
Proof.
  intros (Hc & [m Hs] & Hf & Hp) (Hc' & [m' Hs'] & Hf' & Hp').
  split; [congruence |]. split; [| split].
  - exists (m ++ m'). rewrite Hs', Hs, app_assoc. reflexivity.
  - intros H. apply Hf', Hf, H.
  - intros H. rewrite Hp' by (rewrite Hp; assumption). apply Hp, H.
Qed.

Lemma mqtt_connected_lookup (st : bridge) :
  mqtt_connected st = true ->
  exists j c, mqttClient st = Some j /\ clients st !! j = Some c.
Proof.
  unfold mqtt_connected. destruct (mqttClient st) as [j|] eqn:Hcur; [| discriminate].
  destruct (clients st !! j) as [c|] eqn:Hj; [| discriminate].
  intros _. exists j, c. split; [reflexivity | exact Hj].
Qed.

Lemma on_subscribed_clients (i : nat) (failure : option string) (st : bridge) :
  (clients (on_subscribed i failure st) = clients st
   /\ mqttClient (on_subscribed i failure st) = mqttClient st)
  \/ (exists ci,
         clients st !! i = Some ci
         /\ isFirstConnect ci = true
         /\ clients (on_subscribed i failure st)
            = <[i := MqttClient (connected ci) (subscribed ci) (conn_config ci)
                                false (settle (promise ci) Resolved)]> (clients st)
         /\ mqttClient (on_subscribed i failure st) = mqttClient st).
Proof.
  unfold on_subscribed.
  destruct failure as [e|]; simpl;
    (destruct (clients st !! i) as [ci|] eqn:Hi; [| left; split; reflexivity]);
    (destruct (isFirstConnect ci) eqn:Hfirst; [| left; split; reflexivity]);
    right; exists ci; unfold set_closure; simpl; rewrite Hi; repeat split; assumption.
Qed.

(** The ['error'] handler settles the promise of its call and leaves the
    rest of the broker side alone. *)
Lemma on_error_clients (i : nat) (e : string) (st : bridge) :
  mqttClient (on_error i e st) = mqttClient st
  /\ timers (on_error i e st) = timers st
  /\ clients (on_error i e st)
     = match clients st !! i with
       | Some c => <[i := MqttClient (connected c) (subscribed c) (conn_config c)
                                     (isFirstConnect c) (settle (promise c) Rejected)]>
                     (clients st)
       | None => clients st
       end.
Proof.
  unfold on_error. simpl.
  destruct (clients st !! i) as [c|] eqn:Hi; [| repeat split].
  unfold set_closure. simpl. rewrite Hi. destruct (promise c); repeat split.
Qed.

(** What one event does to the client objects: nothing, or one of them
    ages, or a connection is opened and becomes the current one. *)
Lemma step_clients (ev : event) (st : bridge) :
  (clients (step ev st) = clients st
   /\ mqttClient (step ev st) = mqttClient st
   /\ connects ev st = None)
  \/ (exists j cj cj',
         clients st !! j = Some cj
         /\ ages cj cj'
         /\ clients (step ev st) = <[j := cj']> (clients st)
         /\ mqttClient (step ev st) = mqttClient st
         /\ connects ev st = None
         /\ (subscribed cj' = subscribed cj
             \/ exists i, ev = StabilizationTimer i
                          /\ i ∈ timers st /\ mqtt_connected st = true))
  \/ (exists cfg,
         connects ev st = Some cfg
         /\ clients (step ev st) = clients st ++ [MqttClient false [] cfg true Pending]
         /\ mqttClient (step ev st) = Some (length (clients st))).
Proof.
  destruct ev as [| ws | d c response | i up | i connack | i | i failure | i e
                  | i topic raw now]; simpl.
  - left. repeat split.
  - left. unfold on_connection, bind, modify, reads, lift. simpl.
    unfold ws_send. destruct (send_throws ws); repeat split.
  - unfold addDevice.
    destruct (fetchDeviceConfig d c response) as [cfg|e]; [| left; repeat split].
    rewrite mqtt_connected_set_deviceConfigs.
    unfold connectMQTT. rewrite mqtt_connected_set_deviceConfigs.
    destruct (mqtt_connected st); simpl.
    + left. repeat split.
    + right; right. exists cfg. repeat split.
  - unfold transport. destruct (clients st !! i) as [ci|] eqn:Hi; [| left; repeat split].
    right; left. eexists i, ci, _. split; [exact Hi |]. split; [| repeat split].
    + repeat split; try (intros; assumption). exists []. simpl. rewrite app_nil_r. reflexivity.
    + left. reflexivity.
  - left. destruct (bool_decide (is_Some (clients st !! i))); [| repeat split].
    destruct (on_connect_clients i connack st) as [-> ->]. repeat split.
  - destruct (bool_decide (i ∈ timers st)) eqn:Hin; [| left; repeat split].
    apply bool_decide_eq_true_1 in Hin.
    unfold stabilization_timeout. rewrite mqtt_connected_set_timers.
    destruct (mqtt_connected st) eqn:Hconn; simpl; [| left; repeat split].
    destruct (mqtt_connected_lookup st Hconn) as (j & cj & Hcur & Hj).
    unfold doSubscribe. simpl.
    destruct (clients st !! i) as [closure|] eqn:Hi; [| left; repeat split].
    rewrite Hcur.
    rewrite (subscribe_all _ (set_timers (remove_first i (timers st)) st) j cj Hj).
    simpl. right; left. eexists j, cj, _. split; [exact Hj |]. split; [| repeat split].
    + repeat split; try (intros; assumption). eexists. reflexivity.
    + exact Hcur.
    + right. exists i. repeat split; assumption.
  - destruct (on_subscribed_clients i failure st)
      as [[Hcl Hcur] | (ci & Hi & Hfirst & Hcl & Hcur)].
    + left. repeat split; assumption.
    + right; left. eexists i, ci, _. split; [exact Hi |].
      split; [| split; [exact Hcl | split; [exact Hcur | split; [reflexivity |]]]].
      * repeat split; simpl.
        -- exists []. rewrite app_nil_r. reflexivity.
        -- intros Hp. destruct (promise ci); [contradiction | reflexivity | reflexivity].
      * left. reflexivity.
  - destruct (on_error_clients i e st) as (Hcur & _ & Hcl).
    destruct (clients st !! i) as [ci|] eqn:Hi; [| left; repeat split; assumption].
    right; left. eexists i, ci, _. split; [exact Hi |].
    split; [| split; [exact Hcl | split; [exact Hcur | split; [reflexivity |]]]].
    + repeat split; simpl; try (intros; assumption).
      * exists []. rewrite app_nil_r. reflexivity.
      * intros Hp. destruct (promise ci); [contradiction | reflexivity | reflexivity].
    + left. reflexivity.
  - left. destruct (bool_decide (is_Some (clients st !! i))); [| repeat split].
    destruct (on_message_contained topic raw now st)
      as (_ & (H1 & H2 & _) & _).
    repeat split; assumption.
Qed.

(** A stabilization timer, stale or not, subscribes nothing on a client
    object whose connection is down. *)
Lemma timer_spares_disconnected_clients
    (i j : nat) (st : bridge) (c : mqtt_client) :
  clients st !! j = Some c ->
  connected c = false ->
  clients (step (StabilizationTimer i) st) !! j = Some c.
Proof.
  intros Hj Hdown. simpl.
  destruct (bool_decide (i ∈ timers st)); [| exact Hj].
  unfold stabilization_timeout. rewrite mqtt_connected_set_timers.
  destruct (mqtt_connected st) eqn:Hconn; simpl; [| exact Hj].
  unfold mqtt_connected in Hconn.
  destruct (mqttClient st) as [j'|] eqn:Hcur; [| discriminate Hconn].
  destruct (clients st !! j') as [cj|] eqn:Hj'; [| discriminate Hconn].
  unfold doSubscribe. simpl.
  destruct (clients st !! i) as [closure|]; [| exact Hj].
  rewrite Hcur.
  rewrite (subscribe_all _ (set_timers (remove_first i (timers st)) st) j' cj Hj').
  simpl. rewrite list_lookup_insert_ne; [exact Hj |].
  intros ->. rewrite Hj in Hj'. injection Hj' as ->.
  rewrite Hdown in Hconn. discriminate Hconn.
Qed.

Lemma map_subscribed_insert (l : list mqtt_client) (j : nat) (cj cj' : mqtt_client) :
  l !! j = Some cj -> subscribed cj' = subscribed cj ->
  map subscribed (<[j := cj']> l) = map subscribed l.
Proof.
  intros Hj Hsub. rewrite list_fmap_insert, Hsub.
  apply list_insert_id. rewrite list_lookup_fmap, Hj. reflexivity.
Qed.

(** X7.  A topic is subscribed only when a pending stabilization timer fires
    while a client is connected: no other event, and no timer firing while
    disconnected, adds to, removes from or reorders the topics subscribed
    on the client objects. *)
Theorem X7_only_a_timer_subscribes (ev : event) (st : bridge) :
  subscribe_calls (step ev st) <> subscribe_calls st ->
  exists i, ev = StabilizationTimer i /\ i ∈ timers st /\ mqtt_connected st = true.
Proof.
  intros Hchanged.
  destruct (step_clients ev st)
    as [(Hcl & _) | [(j & cj & cj' & Hj & _ & Hcl & _ & _ & [Hsub | Htimer])
                    | (cfg & _ & Hcl & _)]].
  - exfalso. apply Hchanged. unfold subscribe_calls. rewrite Hcl. reflexivity.
  - exfalso. apply Hchanged. unfold subscribe_calls. rewrite Hcl.
    rewrite (map_subscribed_insert _ j cj cj' Hj Hsub). reflexivity.
  - exact Htimer.
  - exfalso. apply Hchanged. unfold subscribe_calls. rewrite Hcl.
    rewrite map_app, concat_app. simpl. rewrite app_nil_r. reflexivity.
Qed.

Lemma last_index_length {A : Type} (l l' : list A) :
  length l = length l' -> last_index l = last_index l'.
Proof. destruct l, l'; simpl; intros H; try discriminate H; congruence. Qed.

Lemma Forall_remove_first (P : nat -> Prop) (i : nat) (l : list nat) :
  Forall P l -> Forall P (remove_first i l).
Proof.
  induction 1 as [| x l Hx Hl IH]; simpl; [constructor |].
  destruct (x =? i)%nat; [assumption | constructor; assumption].
Qed.

(** What one event does to the pending timers. *)
Lemma step_timers (ev : event) (st : bridge) :
  timers (step ev st) = timers st
  \/ (exists i, is_Some (clients st !! i) /\ timers (step ev st) = timers st ++ [i])
  \/ (exists i, timers (step ev st) = remove_first i (timers st)).
Proof.
  destruct ev as [| ws | d c response | i up | i connack | i | i failure | i e
                  | i topic raw now]; simpl.
  - left. reflexivity.
  - left. unfold on_connection, bind, modify, reads, lift. simpl.
    unfold ws_send. destruct (send_throws ws); reflexivity.
  - left. unfold addDevice.
    destruct (fetchDeviceConfig d c response) as [cfg|e]; [| reflexivity].
    rewrite mqtt_connected_set_deviceConfigs.
    unfold connectMQTT. rewrite mqtt_connected_set_deviceConfigs.
    destruct (mqtt_connected st); reflexivity.
  - left. unfold transport. destruct (clients st !! i); reflexivity.
  - destruct (bool_decide (is_Some (clients st !! i))) eqn:Hi; [| left; reflexivity].
    apply bool_decide_eq_true_1 in Hi. unfold on_connect.
    destruct (match connack with
              | Some ck => negb (returnCode ck =? 0)%Z
              | None => false
              end); [left; reflexivity |].
    destruct (negb (mqtt_connected st)); [left; reflexivity |].
    right; left. exists i. split; [exact Hi | reflexivity].
  - destruct (bool_decide (i ∈ timers st)); [| left; reflexivity].
    right; right. exists i. unfold stabilization_timeout.
    destruct (negb (mqtt_connected (set_timers (remove_first i (timers st)) st)));
      [reflexivity |].
    unfold doSubscribe. simpl.
    destruct (clients st !! i) as [closure|]; [| reflexivity].
    destruct (mqttClient st) as [j|]; [| reflexivity].
    destruct (clients st !! j) as [cj|] eqn:Hj.
    + rewrite (subscribe_all _ (set_timers (remove_first i (timers st)) st) j cj Hj).
      reflexivity.
    + rewrite (subscribe_none _ (set_timers (remove_first i (timers st)) st) j Hj).
      reflexivity.
  - left. unfold on_subscribed.
    destruct failure as [e|]; simpl;
      (destruct (clients st !! i) as [ci|] eqn:Hi; [| reflexivity]);
      (destruct (isFirstConnect ci); [| reflexivity]);
      unfold set_closure; simpl; rewrite Hi; reflexivity.
  - left. apply on_error_clients.
  - left. destruct (bool_decide (is_Some (clients st !! i))); [| reflexivity].
    destruct (on_message_contained topic raw now st) as (_ & (_ & _ & _ & _ & H) & _).
    exact H.
Qed.

Lemma step_length (ev : event) (st : bridge) :
  length (clients (step ev st))
  = length (clients st) + match connects ev st with Some _ => 1 | None => 0 end.
Proof.
  destruct (step_clients ev st)
    as [(Hcl & _ & Hc) | [(j & cj & cj' & _ & _ & Hcl & _ & Hc & _)
                         | (cfg & Hc & Hcl & _)]]; rewrite Hcl, Hc.
  - lia.
  - rewrite length_insert. lia.
  - rewrite length_app. simpl. lia.
Qed.

Lemma step_well_formed (ev : event) (st : bridge) :
  well_formed st -> well_formed (step ev st).
Proof.
  intros [Hcur Htimers]. split.
  - fold (last_index (clients st)) in Hcur. fold (last_index (clients (step ev st))).
    destruct (step_clients ev st)
      as [(Hcl & Hm & _) | [(j & cj & cj' & _ & _ & Hcl & Hm & _)
                           | (cfg & _ & Hcl & Hm)]]; rewrite Hm.
    + rewrite Hcl. exact Hcur.
    + rewrite Hcur. apply last_index_length. rewrite Hcl, length_insert. reflexivity.
    + rewrite Hcl. destruct (clients st); simpl; [reflexivity |].
      rewrite length_app. simpl. f_equal. lia.
  - assert (Hgrow : Forall (fun i => i < length (clients (step ev st))) (timers st)).
    { eapply Forall_impl; [exact Htimers |]. intros i Hi. simpl in Hi.
      rewrite step_length. lia. }
    destruct (step_timers ev st) as [-> | [(i & Hi & ->) | (i & ->)]].
    + exact Hgrow.
    + apply Forall_app. split; [exact Hgrow |].
      constructor; [| constructor].
      apply lookup_lt_is_Some in Hi. rewrite step_length. lia.
    + apply Forall_remove_first. exact Hgrow.
Qed.

(** X8.  In every state the bridge reaches from its construction,
    [this.mqttClient] is the client object created by the most recent
    [mqtt.connect] ([null] only while none was created), and every pending
    stabilization timer belongs to a [connectMQTT] call that was made. *)
Theorem X8_current_client_is_the_last_created (evs : list event) :
  well_formed (run evs new).
Proof.
  assert (Hrun : forall st, well_formed st -> well_formed (run evs st)).
  { induction evs as [| ev rest IH]; intros st Hst; [exact Hst |].
    change (run (ev :: rest) st) with (run rest (step ev st)).
    apply IH, step_well_formed, Hst. }
  apply Hrun. split; [reflexivity | constructor].
Qed.

(** X9.  Over a run, the number of client objects grows by exactly the
    number of [connectMQTT] calls that [addDevice] makes while no client is
    connected; no event removes a client object. *)
Theorem X9_one_client_object_per_connecting_call (evs : list event) (st : bridge) :
  length (clients (run evs st))
  = length (clients st) + connections_opened JSON_parse JSON_stringify evs st.
Proof.
  revert st. induction evs as [| ev rest IH]; intros st; simpl; [lia |].
  change (run (ev :: rest) st) with (run rest (step ev st)).
  rewrite IH, step_length. lia.
Qed.

Lemma step_ages (ev : event) (st : bridge) (i : nat) (c : mqtt_client) :
  clients st !! i = Some c ->
  exists c', clients (step ev st) !! i = Some c' /\ ages c c'.
Proof.
  intros Hi.
  destruct (step_clients ev st)
    as [(Hcl & _) | [(j & cj & cj' & Hj & Hages & Hcl & _) | (cfg & _ & Hcl & _)]];
    rewrite Hcl.
  - exists c. split; [exact Hi | apply ages_refl].
  - destruct (decide (j = i)) as [-> | Hne].
    + exists cj'. split.
      * apply list_lookup_insert_eq. eapply lookup_lt_Some. exact Hi.
      * rewrite Hi in Hj. injection Hj as ->. exact Hages.
    + exists c. split; [| apply ages_refl].
      rewrite list_lookup_insert_ne by exact Hne. exact Hi.
  - exists c. split; [| apply ages_refl].
    apply lookup_app_l_Some. exact Hi.
Qed.

(** X10.  A client object, once created, stays where it is for the rest of
    any run: no event removes or replaces it, its configuration never
    changes, the topics subscribed on it only accumulate (nothing is ever
    unsubscribed), [isFirstConnect] never returns to [true], and the
    promise of its [connectMQTT] call, once settled, stays as settled. *)
Theorem X10_client_objects_only_age
    (evs : list event) (st : bridge) (i : nat) (c : mqtt_client) :
  clients st !! i = Some c ->
  exists c', clients (run evs st) !! i = Some c' /\ ages c c'.
Proof.
  revert st c. induction evs as [| ev rest IH]; intros st c Hi.
  - exists c. split; [exact Hi | apply ages_refl].
  - change (run (ev :: rest) st) with (run rest (step ev st)).
    destruct (step_ages ev st i c Hi) as (c1 & Hi1 & Hages1).
    destruct (IH (step ev st) c1 Hi1) as (c' & Hi' & Hages').
    exists c'. split; [exact Hi' | eapply ages_trans; eassumption].
Qed.

(** X11.  When the first subscription round of a [connectMQTT] call ends,
    whether or not a subscription failed, [isFirstConnect] is cleared and
    [resolve()] is called: a promise that is still pending becomes
    resolved (a failed subscription never rejects it), and a promise
    already settled, such as one an ['error'] event has rejected, stays as
    it is.  A later round, on a reconnect, changes no client object,
    whatever its outcome. *)
Theorem X11_first_round_resolves_even_on_failure
    (st : bridge) (i : nat) (c : mqtt_client) (failure later : option string) :
  clients st !! i = Some c ->
  isFirstConnect c = true ->
  clients (on_subscribed i failure st)
  = <[i := MqttClient (connected c) (subscribed c) (conn_config c) false
                      (match promise c with
                       | Pending => Resolved
                       | _ => promise c
                       end)]>
      (clients st)
  /\ clients (on_subscribed i later (on_subscribed i failure st))
     = clients (on_subscribed i failure st).
Proof.
  intros Hi Hfirst.
  assert (Hround : clients (on_subscribed i failure st)
            = <[i := MqttClient (connected c) (subscribed c) (conn_config c) false
                                (match promise c with
                                 | Pending => Resolved
                                 | _ => promise c
                                 end)]> (clients st)).
  { destruct (on_subscribed_clients i failure st)
      as [[Hcl _] | (ci & Hi' & _ & Hcl & _)].
    - exfalso. revert Hcl. unfold on_subscribed.
      destruct failure as [e|]; simpl; rewrite Hi, Hfirst;
        unfold set_closure; simpl; rewrite Hi; simpl; intros Hcl;
        apply (f_equal (fun l => isFirstConnect <$> l !! i)) in Hcl;
        rewrite list_lookup_insert_eq in Hcl by (eapply lookup_lt_Some; exact Hi);
        rewrite Hi in Hcl; simpl in Hcl; rewrite Hfirst in Hcl; discriminate Hcl.
    - rewrite Hi in Hi'. injection Hi' as <-. rewrite Hcl. reflexivity. }
  split; [exact Hround |].
  destruct (on_subscribed_clients i later (on_subscribed i failure st))
    as [[Hcl _] | (ci & Hi' & Hfirst' & _)]; [exact Hcl |].
  exfalso. rewrite Hround in Hi'.
  rewrite list_lookup_insert_eq in Hi' by (eapply lookup_lt_Some; exact Hi).
  injection Hi' as <-. discriminate Hfirst'.
Qed.

End StepProperties.

(** ** More on the broadcast *)

Section BroadcastOrder.

Variable JSON_stringify : json -> string.

#[local] Abbreviation broadcastToWebSocket :=
  (AutoBridge.broadcastToWebSocket JSON_stringify).

(** The loop over the registry: the sockets afterwards, the count, and one
    line for every socket. *)
Lemma forEach_client_spec (message : string) (cs : list ws_client) (n : nat) :
  exists out,
    forEach_client message cs n
    = (map (delivered message) cs, n + length (List.filter writable cs), out)
    /\ length out = length cs
    /\ (forall k c,
          cs !! k = Some c ->
          exists l, out !! k = Some l
                    /\ reported c (n + length (List.filter writable (take (S k) cs))) l).
Proof.
  revert n. induction cs as [| c rest IH]; intros n.
  - exists []. split; [simpl; do 2 f_equal; lia |].
    split; [reflexivity |]. intros k c Hk. rewrite lookup_nil in Hk. discriminate Hk.
  - cbn [forEach_client]. unfold ws_send.
    destruct (readyState c =? OPEN)%Z eqn:Hopen; [destruct (send_throws c) eqn:Hthrows |].
    + destruct (IH n) as (out & -> & Hlen & Hlines).
      exists (error_failed_to_send "send failed" :: out).
      assert (Hw : writable c = false) by (unfold writable; rewrite Hopen, Hthrows; reflexivity).
      split; [| split].
      * cbn [map List.filter]. rewrite Hw. unfold delivered at 2.
        rewrite Hopen, Hthrows. reflexivity.
      * simpl. rewrite Hlen. reflexivity.
      * intros [| k] c' Hk; simpl in Hk.
        -- injection Hk as <-. eexists. split; [reflexivity |].
           unfold reported, failing. rewrite Hw, Hopen, Hthrows. simpl. eexists. reflexivity.
        -- destruct (Hlines k c' Hk) as (l & Hl & Hrep). exists l. split; [exact Hl |].
           cbn [take List.filter]. rewrite Hw. exact Hrep.
    + destruct (IH (S n)) as (out & -> & Hlen & Hlines).
      exists (log_sent_to_client (S n) :: out).
      assert (Hw : writable c = true) by (unfold writable; rewrite Hopen, Hthrows; reflexivity).
      split; [| split].
      * cbn [map List.filter]. rewrite Hw. unfold delivered at 2.
        rewrite Hopen, Hthrows. cbn [length andb negb]. do 2 f_equal. lia.
      * simpl. rewrite Hlen. reflexivity.
      * intros [| k] c' Hk; simpl in Hk.
        -- injection Hk as <-. eexists. split; [reflexivity |].
           unfold reported. rewrite Hw. cbn [take List.filter]. rewrite Hw.
           simpl. f_equal. lia.
        -- destruct (Hlines k c' Hk) as (l & Hl & Hrep). exists l. split; [exact Hl |].
           cbn [take List.filter]. rewrite Hw. cbn [length].
           replace (n + S (length (List.filter writable (take (S k) rest))))
             with (S n + length (List.filter writable (take (S k) rest))) by lia.
           exact Hrep.
    + destruct (IH n) as (out & -> & Hlen & Hlines).
      exists (log_client_not_ready (readyState c) :: out).
      assert (Hw : writable c = false) by (unfold writable; rewrite Hopen; reflexivity).
      split; [| split].
      * cbn [map List.filter]. rewrite Hw. unfold delivered at 2.
        rewrite Hopen. reflexivity.
      * simpl. rewrite Hlen. reflexivity.
      * intros [| k] c' Hk; simpl in Hk.
        -- injection Hk as <-. eexists. split; [reflexivity |].
           unfold reported, failing. rewrite Hw, Hopen. reflexivity.
        -- destruct (Hlines k c' Hk) as (l & Hl & Hrep). exists l. split; [exact Hl |].
           cbn [take List.filter]. rewrite Hw. exact Hrep.
Qed.

(** X12.  What a broadcast prints tells what it did.  With the WebSocket
    server started it prints the serialized message, then one line for
    every socket of the registry, in the order of the registry: for an open
    socket whose write succeeds, that it was sent to client number [n],
    where [n] counts the sockets written so far; for an open socket whose
    write throws, the error; for a socket that is not open, its state.
    The last line is the number of sockets written, which is the number of
    open sockets whose write succeeds, or, when that is zero (registered
    clients or not), the warning that no client is connected.  Without a
    WebSocket server it only prints a warning. *)
Theorem X12_broadcast_reports_what_it_wrote (data : json) (st : bridge) :
  (forall cs,
      wss st = Some cs ->
      exists lines,
        console (broadcastToWebSocket data st)
        = console st
          ++ log_broadcasting (JSON_stringify data)
             :: lines
          ++ [if (0 <? length (List.filter writable cs))%nat
              then log_broadcasted (length (List.filter writable cs))
              else warn_no_clients]
        /\ length lines = length cs
        /\ (forall k c,
              cs !! k = Some c ->
              exists l, lines !! k = Some l
                        /\ reported c (length (List.filter writable (take (S k) cs))) l))
  /\ (wss st = None ->
      broadcastToWebSocket data st = print warn_wss_not_initialized st).
Proof.
  split.
  - intros cs Hwss. unfold AutoBridge.broadcastToWebSocket. rewrite Hwss.
    destruct (forEach_client_spec (JSON_stringify data) cs 0) as (out & -> & Hlen & Hlines).
    exists out. split; [| split; [exact Hlen | exact Hlines]].
    cbn [Nat.add].
    destruct (0 <? length (List.filter writable cs))%nat; simpl;
      rewrite <- !app_assoc; reflexivity.
  - intros Hwss. unfold AutoBridge.broadcastToWebSocket. rewrite Hwss. reflexivity.
Qed.

Lemma stamped_nil (c : ws_client) : stamped [] c = c.
Proof.
  unfold stamped. destruct (writable c); [| reflexivity].
  destruct c. simpl. rewrite app_nil_r. reflexivity.
Qed.

Lemma stamped_delivered (message : string) (messages : list string) (c : ws_client) :
  stamped messages (delivered message c) = stamped (message :: messages) c.
Proof.
  unfold stamped, delivered, writable.
  destruct ((readyState c =? OPEN)%Z && negb (send_throws c)) eqn:Hw; simpl.
  - rewrite Hw. rewrite <- app_assoc. reflexivity.
  - rewrite Hw. reflexivity.
Qed.

(** X13.  Events broadcast one after the other reach every open socket whose
    write succeeds in that order, appended to what it had received; every
    other socket is as before, and the registry keeps its sockets and
    their order. *)
Theorem X13_broadcasts_arrive_in_order
    (events : list json) (st : bridge) (cs : list ws_client) :
  wss st = Some cs ->
  wss (fold_left (fun s data => broadcastToWebSocket data s) events st)
  = Some (map (stamped (map JSON_stringify events)) cs).
Proof.
  revert st cs. induction events as [| data rest IH]; intros st cs Hwss; simpl.
  - rewrite Hwss. f_equal. symmetry.
    erewrite map_ext; [apply map_id |]. intros c. apply stamped_nil.
  - rewrite (IH _ (map (delivered (JSON_stringify data)) cs)).
    + f_equal. rewrite map_map. apply map_ext. intros c. apply stamped_delivered.
    + apply broadcastToWebSocket_sockets. exact Hwss.
Qed.

End BroadcastOrder.

(** * Further properties of the heartbeat of api-bridge.js *)

Section PulseProperties.

Variable JSON_parse : string -> completion json.
Variable JSON_stringify : json -> string.

#[local] Abbreviation on_interval := (ApiBridge.on_interval JSON_stringify).
#[local] Abbreviation on_client_message :=
  (ApiBridge.on_message JSON_parse JSON_stringify).
#[local] Abbreviation is_liveness_message := (ApiBridge.is_liveness_message JSON_parse).
#[local] Abbreviation heartbeat := (ApiBridge.run JSON_parse JSON_stringify).
#[local] Abbreviation beat := (ApiBridge.step JSON_parse JSON_stringify).

Lemma heartbeat_app (evs evs' : list ApiBridge.event) (st : ApiBridge.bridge) :
  heartbeat (evs ++ evs') st = heartbeat evs' (heartbeat evs st).
Proof. unfold ApiBridge.run. apply fold_left_app. Qed.

(** A sign of life from a client whose socket takes writes raises
    [isAlive] and leaves the interval and the counter alone. *)
Lemma answer_raises_isAlive
    (k : nat) (a : Pulse.answer) (st : ApiBridge.bridge) (c : ApiBridge.connection) :
  ApiBridge.clients st !! k = Some c ->
  ApiBridge.write_throws c = false ->
  match a with
  | Pulse.pong_frame => True
  | Pulse.message raw => is_liveness_message raw = true
  end ->
  exists c',
    ApiBridge.clients (beat (Pulse.answer_event k a) st) !! k = Some c'
    /\ ApiBridge.isAlive c' = true
    /\ ApiBridge.pingInterval c' = ApiBridge.pingInterval c
    /\ ApiBridge.write_throws c' = false
    /\ ApiBridge.websocketClients (beat (Pulse.answer_event k a) st)
       = ApiBridge.websocketClients st.
Proof.
  intros Hk Hwrite Ha. destruct a as [| raw]; simpl.
  - unfold ApiBridge.on_pong. rewrite Hk. simpl.
    eexists. split; [apply lookup_insert_eq |]. repeat split; try assumption.
  - unfold ApiBridge.on_message. rewrite Hk.
    unfold ApiBridge.is_liveness_message in Ha. unfold ApiBridge.handle_message.
    destruct (JSON_parse raw) as [data|e]; simpl in *; [| discriminate Ha].
    destruct (get data "type") as [type|e]; simpl in *; [| discriminate Ha].
    rewrite Hwrite.
    destruct (strict_eq_string type "ping").
    + simpl. eexists. split; [apply lookup_insert_eq |]. repeat split; try assumption.
    + simpl in Ha. rewrite Ha. simpl.
      eexists. split; [apply lookup_insert_eq |]. repeat split; try assumption.
Qed.

(** X14.  A client that answers every probe before the next tick, with a
    pong frame, a JSON pong or a JSON ping of its own, is never closed by
    the heartbeat: after any number of such rounds it is registered, its
    interval is running, and the client counter is what it was. *)
Theorem X14_responsive_client_is_never_evicted
    (k : nat) (answers : list Pulse.answer)
    (st : ApiBridge.bridge) (c : ApiBridge.connection) :
  ApiBridge.clients st !! k = Some c ->
  ApiBridge.pingInterval c = true ->
  ApiBridge.isAlive c = true ->
  ApiBridge.write_throws c = false ->
  Forall (fun a => match a with
                   | Pulse.pong_frame => True
                   | Pulse.message raw => is_liveness_message raw = true
                   end) answers ->
  exists c',
    ApiBridge.clients (heartbeat (concat (map (Pulse.round k) answers)) st) !! k = Some c'
    /\ ApiBridge.isAlive c' = true
    /\ ApiBridge.pingInterval c' = true
    /\ ApiBridge.websocketClients (heartbeat (concat (map (Pulse.round k) answers)) st)
       = ApiBridge.websocketClients st.
Proof.
  intros Hk Hint Halive Hwrite Hall. revert st c Hk Hint Halive Hwrite.
  induction Hall as [| a rest Ha _ IH]; intros st c Hk Hint Halive Hwrite.
  - exists c. repeat split; assumption.
  - change (concat (map (Pulse.round k) (a :: rest)))
      with (Pulse.round k a ++ concat (map (Pulse.round k) rest)).
    rewrite heartbeat_app.
    change (heartbeat (Pulse.round k a) st)
      with (beat (Pulse.answer_event k a) (on_interval k st)).
    assert (Hprobe : exists c1,
               ApiBridge.clients (on_interval k st) !! k = Some c1
               /\ ApiBridge.pingInterval c1 = true
               /\ ApiBridge.write_throws c1 = false
               /\ ApiBridge.websocketClients (on_interval k st)
                  = ApiBridge.websocketClients st).
    { unfold ApiBridge.on_interval. rewrite Hk, Hint, Halive, Hwrite. simpl.
      destruct (ApiBridge.ws_isAlive c); simpl;
        (eexists; split; [apply lookup_insert_eq |]; repeat split; assumption). }
    destruct Hprobe as (c1 & Hk1 & Hint1 & Hwrite1 & Hcount1).
    destruct (answer_raises_isAlive k a (on_interval k st) c1 Hk1 Hwrite1 Ha)
      as (c2 & Hk2 & Halive2 & Hint2 & Hwrite2 & Hcount2).
    destruct (IH _ c2 Hk2 (eq_trans Hint2 Hint1) Halive2 Hwrite2)
      as (c' & Hk' & Halive' & Hint' & Hcount').
    exists c'. repeat split; try assumption.
    rewrite Hcount', Hcount2, Hcount1. reflexivity.
Qed.

(** X15.  A client whose socket no longer takes writes is closed at the next
    tick of its interval whether or not it was counted as alive: either it
    was not, or the probe cannot be written and the [catch] terminates the
    socket.  Before that tick a ping of its own does not count, because the
    pong cannot be written either. *)
Theorem X15_unwritable_client_is_evicted_at_once
    (k : nat) (st : ApiBridge.bridge) (c : ApiBridge.connection) (raw : string) :
  ApiBridge.clients st !! k = Some c ->
  ApiBridge.pingInterval c = true ->
  ApiBridge.write_throws c = true ->
  ApiBridge.clients (on_interval k st) = delete k (ApiBridge.clients st)
  /\ ApiBridge.websocketClients (on_interval k st)
     = (ApiBridge.websocketClients st - 1)%Z
  /\ (forall data, JSON_parse raw = Normal data ->
                   strict_eq_string (field data "type") "ping" = true ->
                   on_client_message k raw st = st).
Proof.
  intros Hk Hint Hwrite. split; [| split].
  - unfold ApiBridge.on_interval. rewrite Hk, Hint, Hwrite. simpl.
    destruct (ApiBridge.isAlive c); simpl;
      unfold ApiBridge.terminate, ApiBridge.on_close, ApiBridge.clearInterval,
        ApiBridge.print, ApiBridge.update; simpl; rewrite Hk; simpl;
      rewrite lookup_insert_eq; simpl; apply delete_insert_eq.
  - unfold ApiBridge.on_interval. rewrite Hk, Hint, Hwrite. simpl.
    destruct (ApiBridge.isAlive c); simpl;
      unfold ApiBridge.terminate, ApiBridge.on_close, ApiBridge.clearInterval,
        ApiBridge.print, ApiBridge.update; simpl; rewrite Hk; simpl;
      rewrite lookup_insert_eq; reflexivity.
  - intros data Hparse Hping. unfold ApiBridge.on_message. rewrite Hk.
    unfold ApiBridge.handle_message. rewrite Hparse. simpl.
    unfold field in Hping.
    destruct (get data "type") as [type|e]; simpl; [| reflexivity].
    rewrite Hping, Hwrite. reflexivity.
Qed.

(** With its interval cleared, a client is touched by no event but its own
    socket closing. *)
Lemma beat_without_interval
    (k : nat) (ev : ApiBridge.event) (st : ApiBridge.bridge) (c : ApiBridge.connection) :
  ApiBridge.clients st !! k = Some c ->
  ApiBridge.pingInterval c = false ->
  Pulse.keeps_open k ev = true ->
  exists c', ApiBridge.clients (beat ev st) !! k = Some c'
             /\ ApiBridge.pingInterval c' = false.
Proof.
  intros Hk Hint Hev.
  assert (Hother : forall k' c1 s, k' <> k -> ApiBridge.clients s !! k = Some c ->
             ApiBridge.clients (ApiBridge.update k' c1 s) !! k = Some c).
  { intros k' c1 s Hne Hs. unfold ApiBridge.update. simpl.
    rewrite lookup_insert_ne by exact Hne. exact Hs. }
  assert (Hgone : forall k' s, k' <> k -> ApiBridge.clients s !! k = Some c ->
             ApiBridge.clients (ApiBridge.terminate k' s) !! k = Some c).
  { intros k' s Hne Hs. unfold ApiBridge.terminate, ApiBridge.on_close.
    destruct (ApiBridge.clients s !! k'); [| exact Hs].
    simpl. rewrite lookup_delete_ne by exact Hne. exact Hs. }
  assert (Hclear : forall k' s, k' <> k -> ApiBridge.clients s !! k = Some c ->
             ApiBridge.clients (ApiBridge.clearInterval k' s) !! k = Some c).
  { intros k' s Hne Hs. unfold ApiBridge.clearInterval.
    destruct (ApiBridge.clients s !! k'); [| exact Hs]. apply Hother; assumption. }
  destruct ev as [k' | k' | k' raw | k' | k']; simpl in *.
  - destruct (decide (k' = k)) as [-> | Hne].
    + unfold ApiBridge.on_interval. rewrite Hk, Hint. simpl.
      exists c. split; assumption.
    + exists c. split; [| exact Hint].
      unfold ApiBridge.on_interval.
      destruct (ApiBridge.clients st !! k') as [c1|]; [| exact Hk].
      destruct (negb (ApiBridge.pingInterval c1)); [exact Hk |].
      destruct (negb (ApiBridge.isAlive c1)).
      { apply Hgone, Hclear; [exact Hne | exact Hne |]. exact Hk. }
      destruct (ApiBridge.write_throws c1).
      { apply Hgone, Hclear; [exact Hne | exact Hne |]. exact Hk. }
      destruct (ApiBridge.ws_isAlive c1); apply Hother; assumption.
  - destruct (decide (k' = k)) as [-> | Hne].
    + unfold ApiBridge.on_pong. rewrite Hk. simpl.
      eexists. split; [apply lookup_insert_eq | exact Hint].
    + exists c. split; [| exact Hint]. unfold ApiBridge.on_pong.
      destruct (ApiBridge.clients st !! k'); [apply Hother; assumption | exact Hk].
  - destruct (decide (k' = k)) as [-> | Hne].
    + unfold ApiBridge.on_message. rewrite Hk.
      unfold ApiBridge.handle_message.
      destruct (JSON_parse raw) as [data|e]; simpl; [| exists c; split; assumption].
      destruct (get data "type") as [type|e]; simpl; [| exists c; split; assumption].
      destruct (strict_eq_string type "ping").
      * destruct (ApiBridge.write_throws c); [exists c; split; assumption |].
        simpl. eexists. split; [apply lookup_insert_eq | exact Hint].
      * destruct (strict_eq_string type "pong"); simpl;
          (eexists; split; [apply lookup_insert_eq | exact Hint]).
    + exists c. split; [| exact Hint]. unfold ApiBridge.on_message.
      destruct (ApiBridge.clients st !! k') as [c1|]; [| exact Hk].
      destruct (ApiBridge.handle_message JSON_parse JSON_stringify raw c1);
        [apply Hother; assumption | exact Hk].
  - apply negb_true_iff, Nat.eqb_neq in Hev.
    exists c. split; [| exact Hint]. unfold ApiBridge.on_close.
    destruct (ApiBridge.clients st !! k'); [| exact Hk].
    simpl. rewrite lookup_delete_ne by exact Hev. exact Hk.
  - destruct (decide (k' = k)) as [-> | Hne].
    + unfold ApiBridge.on_error, ApiBridge.clearInterval. rewrite Hk. simpl.
      eexists. split; [apply lookup_insert_eq | reflexivity].
    + exists c. split; [| exact Hint]. apply Hclear; assumption.
Qed.

(** X16.  Once the socket of a client has reported an error, the heartbeat
    never closes that client: its interval is cleared, and whatever ticks,
    pongs, messages and errors follow, for it or for other clients, it
    stays in the registry until its own socket closes. *)
Theorem X16_socket_error_stops_the_heartbeat
    (k : nat) (evs : list ApiBridge.event)
    (st : ApiBridge.bridge) (c : ApiBridge.connection) :
  ApiBridge.clients st !! k = Some c ->
  forallb (Pulse.keeps_open k) evs = true ->
  exists c', ApiBridge.clients (heartbeat evs (ApiBridge.on_error k st)) !! k = Some c'
             /\ ApiBridge.pingInterval c' = false.
Proof.
  intros Hk Hevs.
  assert (Hrun : forall evs s c0,
             ApiBridge.clients s !! k = Some c0 ->
             ApiBridge.pingInterval c0 = false ->
             forallb (Pulse.keeps_open k) evs = true ->
             exists c', ApiBridge.clients (heartbeat evs s) !! k = Some c'
                        /\ ApiBridge.pingInterval c' = false).
  { clear. induction evs as [| ev rest IH]; intros s c0 Hs Hint Hall.
    - exists c0. split; assumption.
    - simpl in Hall. apply andb_true_iff in Hall. destruct Hall as [Hev Hrest].
      change (heartbeat (ev :: rest) s) with (heartbeat rest (beat ev s)).
      destruct (beat_without_interval k ev s c0 Hs Hint Hev) as (c1 & Hs1 & Hint1).
      apply (IH _ c1); assumption. }
  apply (Hrun evs _ (ApiBridge.Connection (ApiBridge.isAlive c) false
                       (ApiBridge.ws_isAlive c) (ApiBridge.write_throws c)
                       (ApiBridge.sent c))).
  - unfold ApiBridge.on_error, ApiBridge.clearInterval. rewrite Hk. simpl.
    apply lookup_insert_eq.
  - reflexivity.
  - exact Hevs.
Qed.

End PulseProperties.

(** * Properties of the conversation store of api-bridge.js *)

Import Desk.

Section StoreProperties.

Variable JSON_stringify : json -> string.
Variable Number_of_text : json -> option Q.
Variable add : Q -> Q -> Q.
Variable sub : Q -> Q -> Q.
Variable trim : string -> string.

#[local] Abbreviation handleConversationStats :=
  (ApiStore.handleConversationStats JSON_stringify Number_of_text add).
#[local] Abbreviation addConversation := (ApiStore.addConversation add).
#[local] Abbreviation broadcast := (ApiStore.broadcastToWebSocket JSON_stringify).
#[local] Abbreviation less_than := (ApiStore.less_than Number_of_text).

Ltac enter_route :=
  unfold ApiStore.handleConversationStats, ApiStore.bind, ApiStore.modify,
    ApiStore.lift, ApiStore.ret; simpl.

Lemma get_not_null (body : json) (k : string) :
  body <> JNull -> get body k = Normal (field body k).
Proof.
  intros Hbody. unfold field. destruct body; simpl; try reflexivity. contradiction.
Qed.

Lemma js_or_first_truthy (body : json) (h : ApiStore.headers) :
  ApiStore.js_or
    (ApiStore.js_or
       (ApiStore.js_or (field body "device_id")
                       (ApiStore.header_value (ApiStore.device_id_dash h)))
       (ApiStore.header_value (ApiStore.device_id_underscore h)))
    (ApiStore.header_value (ApiStore.x_device_id h))
  = (if truthy (first_truthy (offered body h))
     then first_truthy (offered body h)
     else ApiStore.header_value (ApiStore.x_device_id h)).
Proof.
  unfold ApiStore.js_or, offered, first_truthy.
  destruct (truthy (field body "device_id")) eqn:H1; simpl;
    rewrite ?H1; simpl; rewrite ?H1; [reflexivity |].
  destruct (truthy (ApiStore.header_value (ApiStore.device_id_dash h))) eqn:H2; simpl;
    rewrite ?H2; simpl; rewrite ?H2; [reflexivity |].
  destruct (truthy (ApiStore.header_value (ApiStore.device_id_underscore h))) eqn:H3;
    simpl; rewrite ?H3; simpl; rewrite ?H3; [reflexivity |].
  destruct (truthy (ApiStore.header_value (ApiStore.x_device_id h))) eqn:H4;
    simpl; rewrite ?H4; reflexivity.
Qed.


Lemma first_truthy_truthy (body : json) (h : ApiStore.headers) (id : json) :
  first_truthy (offered body h) = Some id ->
  truthy (first_truthy (offered body h)) = true.
Proof.
  intros Hid. unfold offered in *. simpl in *.
  repeat match goal with
         | H : (if truthy ?v then _ else _) = Some _ |- _ =>
             destruct (truthy v) eqn:?; [rewrite H in *; try assumption |]
         end; try discriminate Hid.
  all: try (rewrite <- Hid; assumption).
Qed.

(** The request that passes the checks: what is stored, broadcast and
    answered. *)
Lemma handle_accepted
    (body : json) (h : ApiStore.headers) (now : ApiStore.clock)
    (insert : completion unit) (st : ApiStore.store)
    (d : Q) (early : bool) (id : json) :
  body <> JNull ->
  field body "duration" = Some (JNum d) ->
  less_than (Some (or_default (field body "timestamp")
                              (ApiStore.seconds (ApiStore.at_default now))))
            ApiStore.minValidTimestamp = Normal early ->
  first_truthy (offered body h) = Some id ->
  toPrimitive_throws id = false ->
  let given := or_default (field body "timestamp")
                          (ApiStore.seconds (ApiStore.at_default now)) in
  let c := ApiStore.Conversation id
             (or_default (field body "session_id") (JStr "unknown")) d
             (or_default (field body "reason") (JStr "unknown"))
             (if early then ApiStore.seconds (ApiStore.at_repair now) else given)
             (ApiStore.at_receipt now) in
  let counted := ApiStore.incr_apiRequests st in
  handleConversationStats body h now insert st
  = (Normal (ApiStore.Response 200
               (JObj [("success", JBool true);
                      ("message", JStr "Conversation stats received");
                      ("sessionId", ApiStore.sessionId c);
                      ("timestamp", ApiStore.timestamp c)])),
     broadcast (ApiStore.conversation_message c)
       (addConversation c insert
          (if early
           then ApiStore.print (ApiStore.warn_invalid_timestamp given) counted
           else counted))).
Proof.
  intros Hbody Hdur Hearly Hid Hconv given c counted. enter_route.
  rewrite !(get_not_null body _ Hbody). rewrite Hdur.
  fold given. fold given in Hearly. rewrite Hearly.
  rewrite js_or_first_truthy.
  pose proof (first_truthy_truthy _ _ _ Hid) as Htruthy.
  rewrite Hid in *. rewrite Htruthy. cbv iota. rewrite Htruthy.
  destruct early; simpl; rewrite Hconv; reflexivity.
Qed.


Lemma store_forEach_sockets (message : string) (cs : list ws_client) (n : nat) :
  fst (fst (ApiStore.forEach_client message cs n)) = map (delivered message) cs.
Proof.
  revert n. induction cs as [| c rest IH]; intros n; [reflexivity |].
  simpl. unfold delivered at 1, ws_send.
  destruct (readyState c =? OPEN)%Z; simpl.
  - destruct (send_throws c); simpl.
    + specialize (IH n).
      destruct (ApiStore.forEach_client message rest n) as [[rest' m] out].
      simpl in *. rewrite IH. reflexivity.
    + specialize (IH (S n)).
      destruct (ApiStore.forEach_client message rest (S n)) as [[rest' m] out].
      simpl in *. rewrite IH. reflexivity.
  - specialize (IH n).
    destruct (ApiStore.forEach_client message rest n) as [[rest' m] out].
    simpl in *. rewrite IH. reflexivity.
Qed.

(** A broadcast touches the sockets and the console only. *)
Lemma store_broadcast (data : json) (st : ApiStore.store) :
  ApiStore.conversations (broadcast data st) = ApiStore.conversations st
  /\ ApiStore.stats (broadcast data st) = ApiStore.stats st
  /\ ApiStore.deviceNames (broadcast data st) = ApiStore.deviceNames st
  /\ ApiStore.wss (broadcast data st)
     = option_map (map (delivered (JSON_stringify data))) (ApiStore.wss st).
Proof.
  unfold ApiStore.broadcastToWebSocket.
  destruct (ApiStore.wss st) as [cs|] eqn:Hwss; simpl; [| rewrite Hwss; repeat split].
  pose proof (store_forEach_sockets (JSON_stringify data) cs 0) as Hcs.
  destruct (ApiStore.forEach_client (JSON_stringify data) cs 0) as [[cs' n] out].
  simpl in Hcs. subst cs'.
  destruct (0 <? n)%nat; repeat split.
Qed.

Lemma cache_conversations (c : ApiStore.conversation) (st : ApiStore.store) :
  length (ApiStore.conversations st) <= 1000 ->
  ApiStore.conversations (ApiStore.cache c st)
  = firstn 1000 (c :: ApiStore.conversations st).
Proof.
  intros Hlen. unfold ApiStore.cache, ApiStore.set_conversations.
  cbn [ApiStore.conversations].
  destruct (Nat.ltb_spec 1000 (length (c :: ApiStore.conversations st))) as [Hfull | Hfull].
  - rewrite removelast_firstn_len. f_equal.
    cbn [length] in *. lia.
  - symmetry. apply firstn_all2. exact Hfull.
Qed.



Lemma less_than_number (q bound : Q) :
  less_than (Some (JNum q)) bound = Normal (negb (Qle_bool bound q)).
Proof. reflexivity. Qed.

Lemma past_2020_truthy (q : Q) :
  Qle_bool ApiStore.minValidTimestamp q = true -> truthy (Some (JNum q)) = true.
Proof.
  intros Hq. simpl. apply negb_true_iff.
  destruct (Qeq_bool q 0) eqn:Hz; [| reflexivity].
  apply Qeq_bool_iff in Hz. apply Qle_bool_iff in Hq. rewrite Hz in Hq.
  exfalso. revert Hq. unfold ApiStore.minValidTimestamp, Qle. simpl. lia.
Qed.

Lemma handled_head
    (c : ApiStore.conversation) (insert : completion unit) (st : ApiStore.store) :
  ApiStore.conversations (broadcast (ApiStore.conversation_message c)
                                    (addConversation c insert st)) !! 0%nat
  = Some c.
Proof.
  destruct (store_broadcast (ApiStore.conversation_message c)
              (addConversation c insert st)) as [-> _].
  assert (Hcache : forall s, ApiStore.conversations (ApiStore.cache c s) !! 0%nat = Some c).
  { intros s. unfold ApiStore.cache, ApiStore.set_conversations.
    cbn [ApiStore.conversations].
    destruct (Nat.ltb_spec 1000 (length (c :: ApiStore.conversations s)))
      as [Hfull | Hfull]; [| reflexivity].
    destruct (ApiStore.conversations s); [simpl in Hfull; lia | reflexivity]. }
  unfold ApiStore.addConversation. destruct insert; simpl; apply Hcache.
Qed.

(** X19.  A request is accepted when its duration is a number and its
    device identifier is truthy and converts to a string.  The timestamp
    of an accepted request that is a number is kept when it is not before
    2020-01-01 ([1577836800]); otherwise it is replaced by the clock, read
    in seconds.  So, with a clock past that date, the timestamp stored,
    broadcast and answered for such a request is never before it. *)
Theorem X19_numeric_timestamp_is_kept_or_repaired
    (body : json) (h : ApiStore.headers) (now : ApiStore.clock)
    (insert : completion unit) (st : ApiStore.store) (d q : Q) (id : json) :
  body <> JNull ->
  field body "duration" = Some (JNum d) ->
  field body "timestamp" = Some (JNum q) ->
  first_truthy (offered body h) = Some id ->
  toPrimitive_throws id = false ->
  Qle_bool ApiStore.minValidTimestamp (inject_Z (ApiStore.at_default now / 1000)) = true ->
  Qle_bool ApiStore.minValidTimestamp (inject_Z (ApiStore.at_repair now / 1000)) = true ->
  exists c t,
    ApiStore.conversations (snd (handleConversationStats body h now insert st)) !! 0%nat
    = Some c
    /\ ApiStore.timestamp c = JNum t
    /\ Qle_bool ApiStore.minValidTimestamp t = true
    /\ JNum t = (if Qle_bool ApiStore.minValidTimestamp q then JNum q
                 else if Qeq_bool q 0 then ApiStore.seconds (ApiStore.at_default now)
                      else ApiStore.seconds (ApiStore.at_repair now))
    /\ (forall r, fst (handleConversationStats body h now insert st) = Normal r ->
                  field (ApiStore.payload r) "timestamp" = Some (JNum t)).
Proof.
  intros Hbody Hdur Hts Hid Hconv Hdefault Hrepair.
  destruct (Qle_bool ApiStore.minValidTimestamp q) eqn:Hq.
  - pose proof (past_2020_truthy q Hq) as Htruthy.
    assert (Hearly : less_than
              (Some (or_default (field body "timestamp")
                                (ApiStore.seconds (ApiStore.at_default now))))
              ApiStore.minValidTimestamp = Normal false).
    { rewrite Hts. unfold or_default. rewrite Htruthy, less_than_number, Hq.
      reflexivity. }
    rewrite (handle_accepted body h now insert st d false id Hbody Hdur Hearly Hid Hconv).
    simpl fst. simpl snd.
    eexists _, q. split; [apply handled_head |].
    rewrite Hts. unfold or_default. rewrite Htruthy. simpl.
    repeat split; try assumption. intros r [= <-]. reflexivity.
  - destruct (Qeq_bool q 0) eqn:Hz.
    + assert (Hearly : less_than
                (Some (or_default (field body "timestamp")
                                  (ApiStore.seconds (ApiStore.at_default now))))
                ApiStore.minValidTimestamp = Normal false).
      { rewrite Hts. unfold or_default. simpl truthy. rewrite Hz. simpl negb.
        unfold ApiStore.seconds. rewrite less_than_number, Hdefault. reflexivity. }
      rewrite (handle_accepted body h now insert st d false id Hbody Hdur Hearly Hid Hconv).
      simpl fst. simpl snd.
      eexists _, _. split; [apply handled_head |].
      rewrite Hts. unfold or_default. simpl truthy. rewrite Hz. simpl.
      repeat split; try assumption. intros r [= <-]. reflexivity.
    + assert (Hearly : less_than
                (Some (or_default (field body "timestamp")
                                  (ApiStore.seconds (ApiStore.at_default now))))
                ApiStore.minValidTimestamp = Normal true).
      { rewrite Hts. unfold or_default. simpl truthy. rewrite Hz. simpl negb.
        cbv iota. rewrite less_than_number, Hq. reflexivity. }
      rewrite (handle_accepted body h now insert st d true id Hbody Hdur Hearly Hid Hconv).
      simpl fst. simpl snd.
      eexists _, _. split; [apply handled_head |].
      simpl. repeat split; try assumption. intros r [= <-]. reflexivity.
Qed.

(** X20.  The check of the timestamp does not reach a value that does not
    convert to a number: in a request with a numeric duration and a device
    identifier that converts to a string, a timestamp that is a non-empty
    string such as [yesterday] compares false with the bound and is
    stored, broadcast and answered as it came. *)
Theorem X20_non_numeric_timestamp_passes_unchecked
    (body : json) (h : ApiStore.headers) (now : ApiStore.clock)
    (insert : completion unit) (st : ApiStore.store) (d : Q) (id : json)
    (text : string) :
  body <> JNull ->
  field body "duration" = Some (JNum d) ->
  field body "timestamp" = Some (JStr text) ->
  text <> EmptyString ->
  Number_of_text (JStr text) = None ->
  first_truthy (offered body h) = Some id ->
  toPrimitive_throws id = false ->
  exists c,
    ApiStore.conversations (snd (handleConversationStats body h now insert st)) !! 0%nat
    = Some c
    /\ ApiStore.timestamp c = JStr text
    /\ (forall r, fst (handleConversationStats body h now insert st) = Normal r ->
                  ApiStore.status r = 200%Z
                  /\ field (ApiStore.payload r) "timestamp" = Some (JStr text)).
Proof.
  intros Hbody Hdur Hts Htext Hnan Hid Hconv.
  assert (Htruthy : truthy (Some (JStr text)) = true).
  { simpl. apply negb_true_iff, String.eqb_neq. exact Htext. }
  assert (Hearly : less_than
            (Some (or_default (field body "timestamp")
                              (ApiStore.seconds (ApiStore.at_default now))))
            ApiStore.minValidTimestamp = Normal false).
  { rewrite Hts. unfold or_default. rewrite Htruthy.
    unfold ApiStore.less_than, ApiStore.to_number. simpl. rewrite Hnan. reflexivity. }
  rewrite (handle_accepted body h now insert st d false id Hbody Hdur Hearly Hid Hconv).
  simpl fst. simpl snd.
  eexists. split; [apply handled_head |].
  rewrite Hts. unfold or_default. rewrite Htruthy. simpl.
  split; [reflexivity |]. intros r [= <-]. split; reflexivity.
Qed.


(** X22.  Whatever the request, the answer of the handler carries no device
    identifier: neither a [deviceId] nor a [device_id] property. *)
Theorem X22_answer_never_carries_the_device_id
    (body : json) (h : ApiStore.headers) (now : ApiStore.clock)
    (insert : completion unit) (st : ApiStore.store) (r : ApiStore.response) :
  fst (handleConversationStats body h now insert st) = Normal r ->
  field (ApiStore.payload r) "deviceId" = None
  /\ field (ApiStore.payload r) "device_id" = None
  /\ (ApiStore.status r = 200%Z \/ ApiStore.status r = 400%Z).
Proof.
  enter_route.
  destruct (get body "device_id") as [v|e] eqn:Hget; [| discriminate].
  rewrite !(get_total body "device_id" _ v Hget).
  destruct (field body "duration") as [[]|]; try (intros [= <-]; repeat split; right; reflexivity).
  destruct (less_than _ _) as [early|e]; [| discriminate].
  destruct early; simpl;
    match goal with
    | |- context [match ?x with Some _ => _ | None => _ end] => destruct x as [id|]
    end;
    try match goal with
        | |- context [if truthy ?x then _ else _] => destruct (truthy x)
        end;
    simpl;
    try match goal with
        | |- context [if toPrimitive_throws ?x then _ else _] =>
            destruct (toPrimitive_throws x)
        end;
    simpl; intros Hanswer; try discriminate Hanswer; injection Hanswer as <-;
    repeat split; (left; reflexivity) || (right; reflexivity).
Qed.

Lemma firstn_app_firstn {A : Type} (m k : nat) (newer l : list A) :
  m <= length newer + k ->
  firstn m (newer ++ firstn k l) = firstn m (newer ++ l).
Proof.
  revert m. induction newer as [| x newer IH]; intros m Hm.
  - cbn [app length] in *. rewrite firstn_firstn. f_equal. lia.
  - destruct m as [| m]; [reflexivity |].
    cbn [app firstn]. f_equal. apply IH. cbn [length] in Hm. lia.
Qed.

Lemma addConversation_cache
    (c : ApiStore.conversation) (insert : completion unit) (st : ApiStore.store) :
  length (ApiStore.conversations st) <= 1000 ->
  ApiStore.conversations (addConversation c insert st)
  = firstn 1000 (c :: ApiStore.conversations st).
Proof.
  intros Hlen. unfold ApiStore.addConversation.
  destruct insert; simpl; apply cache_conversations; exact Hlen.
Qed.

(** X23.  The cache holds the most recent conversations, newest first, and
    never more than 1000: after any series of [addConversation] calls,
    whether the database took the rows or not, it is the first 1000 of
    the new conversations, latest first, followed by the old ones. *)
Theorem X23_cache_keeps_the_latest_thousand
    (added : list (ApiStore.conversation * completion unit)) (st : ApiStore.store) :
  length (ApiStore.conversations st) <= 1000 ->
  ApiStore.conversations
    (fold_left (fun s p => addConversation (fst p) (snd p) s) added st)
  = firstn 1000 (rev (map fst added) ++ ApiStore.conversations st)
  /\ length (ApiStore.conversations
               (fold_left (fun s p => addConversation (fst p) (snd p) s) added st))
     <= 1000.
Proof.
  intros Hlen.
  assert (Hcache : ApiStore.conversations
            (fold_left (fun s p => addConversation (fst p) (snd p) s) added st)
          = firstn 1000 (rev (map fst added) ++ ApiStore.conversations st)).
  { revert st Hlen. induction added as [| [c insert] rest IH]; intros st Hlen.
    - cbn [fold_left map rev app]. symmetry. apply firstn_all2. exact Hlen.
    - cbn [fold_left fst snd]. rewrite IH.
      + rewrite addConversation_cache by exact Hlen.
        cbn [map fst rev]. rewrite <- app_assoc. cbn [app].
        apply firstn_app_firstn. lia.
      + rewrite addConversation_cache by exact Hlen. rewrite length_firstn. lia. }
  split; [exact Hcache |].
  rewrite Hcache, length_firstn. lia.
Qed.




Ltac enter_delete :=
  unfold ApiStore.delete_device, ApiStore.try_catch, ApiStore.bind, ApiStore.lift,
    ApiStore.modify, ApiStore.ret, ApiStore.deleteDeviceName; simpl.

(** X25.  Deleting a device, when the database goes along, leaves no cached
    conversation of that device and keeps the others in their order, takes
    the counted rows off the conversation counter, forgets the device's
    name and no other, and leaves the sockets alone; when the count or the
    deletion fails in the database, the answer is 500 and nothing but the
    console has changed. *)
Theorem X25_delete_device_purges_cache_and_name
    (device : string) (n : Z) (d : Q) (st : ApiStore.store) (e : string)
    (count : completion (Z * Q)) :
  (let out := ApiStore.delete_device sub device (Normal (n, d)) (Normal tt)
                                     (Normal tt) st in
   (exists r, fst out = Normal r /\ ApiStore.status r = 200%Z)
   /\ ApiStore.conversations (snd out)
      = List.filter
          (fun c => negb (strict_eq_string (Some (ApiStore.deviceId c)) device))
          (ApiStore.conversations st)
   /\ Forall (fun c => ApiStore.deviceId c <> JStr device)
             (ApiStore.conversations (snd out))
   /\ ApiStore.totalConversations (ApiStore.stats (snd out))
      = (ApiStore.totalConversations (ApiStore.stats st) - n)%Z
   /\ ApiStore.deviceNames (snd out) = delete device (ApiStore.deviceNames st)
   /\ ApiStore.wss (snd out) = ApiStore.wss st)
  /\ (let out := ApiStore.delete_device sub device (Throw e) (Normal tt)
                                        (Normal tt) st in
      (exists r, fst out = Normal r /\ ApiStore.status r = 500%Z)
      /\ snd out = ApiStore.print (ApiStore.error_delete_device e) st)
  /\ (let out := ApiStore.delete_device sub device count (Throw e) (Normal tt) st in
      (exists r, fst out = Normal r /\ ApiStore.status r = 500%Z)
      /\ same_conversations st (snd out)).
Proof.
  split; [| split].
  - enter_delete.
    assert (Hpurged : Forall (fun c => ApiStore.deviceId c <> JStr device)
              (List.filter
                 (fun c => negb (strict_eq_string (Some (ApiStore.deviceId c)) device))
                 (ApiStore.conversations st))).
    { apply List.Forall_forall. intros c Hc. apply filter_In in Hc.
      destruct Hc as [_ Hc]. intros Heq. rewrite Heq in Hc. simpl in Hc.
      rewrite String.eqb_refl in Hc. discriminate Hc. }
    destruct (ApiStore.deviceNames st !! device) as [name|] eqn:Hname; simpl.
    + split; [eexists; split; reflexivity |]. repeat split; exact Hpurged.
    + split; [eexists; split; reflexivity |].
      split; [reflexivity |]. split; [exact Hpurged |]. split; [reflexivity |].
      split; [| reflexivity].
      symmetry. apply delete_id. exact Hname.
  - enter_delete. split; [eexists; split; reflexivity | reflexivity].
  - enter_delete. destruct count as [[n' d']|e']; simpl;
      (split; [eexists; split; reflexivity | repeat split]).
Qed.

(** X26.  Deleting a device is not all or nothing: when the conversations
    were deleted and only the statement that forgets the device's name
    fails, the answer is 500, yet the cache is already purged and the
    counter already lowered, while the name is still known. *)
Theorem X26_delete_device_can_fail_half_way
    (device name : string) (n : Z) (d : Q) (st : ApiStore.store) (e : string) :
  ApiStore.deviceNames st !! device = Some name ->
  let out := ApiStore.delete_device sub device (Normal (n, d)) (Normal tt)
                                    (Throw e) st in
  (exists r, fst out = Normal r /\ ApiStore.status r = 500%Z)
  /\ ApiStore.conversations (snd out)
     = List.filter
         (fun c => negb (strict_eq_string (Some (ApiStore.deviceId c)) device))
         (ApiStore.conversations st)
  /\ ApiStore.totalConversations (ApiStore.stats (snd out))
     = (ApiStore.totalConversations (ApiStore.stats st) - n)%Z
  /\ ApiStore.deviceNames (snd out) !! device = Some name.
Proof.
  intros Hname. enter_delete. rewrite Hname. simpl.
  split; [eexists; split; reflexivity |]. repeat split. exact Hname.
Qed.

Ltac enter_names :=
  unfold ApiStore.post_device_name, ApiStore.delete_device_name,
    ApiStore.saveDeviceName, ApiStore.deleteDeviceName, ApiStore.bind, ApiStore.lift,
    ApiStore.modify, ApiStore.ret; simpl.

(** X27.  A device name round-trips: once a name that is a string and not
    blank is posted and the database takes it, the name answered for that
    device is the posted one, trimmed, and the names of other devices are
    as before; once it is deleted the answer is [null], and deleting it
    again is answered 404 and changes nothing. *)
Theorem X27_device_name_round_trip
    (device : string) (body : json) (text : string) (st : ApiStore.store) :
  body <> JNull ->
  field body "name" = Some (JStr text) ->
  text <> EmptyString ->
  trim text <> EmptyString ->
  let posted := ApiStore.post_device_name trim device body (Normal tt) st in
  let deleted := ApiStore.delete_device_name device (Normal tt) (snd posted) in
  let again := ApiStore.delete_device_name device (Normal tt) (snd deleted) in
  (exists r, fst posted = Normal r /\ ApiStore.status r = 200%Z
             /\ field (ApiStore.payload r) "deviceName" = Some (JStr (trim text)))
  /\ field (ApiStore.payload (ApiStore.get_device_name device (snd posted))) "deviceName"
     = Some (JStr (trim text))
  /\ (forall other, other <> device ->
        ApiStore.get_device_name other (snd posted) = ApiStore.get_device_name other st)
  /\ (exists r, fst deleted = Normal r /\ ApiStore.status r = 200%Z)
  /\ field (ApiStore.payload (ApiStore.get_device_name device (snd deleted))) "deviceName"
     = Some JNull
  /\ (exists r, fst again = Normal r /\ ApiStore.status r = 404%Z)
  /\ snd again = snd deleted.
Proof.
  intros Hbody Hname Htext Htrim posted deleted again.
  assert (Hlen : (String.length (trim text) =? 0)%nat = false).
  { apply Nat.eqb_neq. destruct (trim text); [contradiction | discriminate]. }
  assert (Htruthy : negb (text =? EmptyString)%string = true).
  { apply negb_true_iff, String.eqb_neq. exact Htext. }
  assert (Hposted : posted
            = (Normal (ApiStore.Response 200
                         (JObj [("success", JBool true);
                                ("deviceId", JStr device);
                                ("deviceName", JStr (trim text));
                                ("message", JStr "Device name updated")])),
               ApiStore.set_deviceNames
                 (<[device := trim text]> (ApiStore.deviceNames st)) st)).
  { subst posted. enter_names. rewrite (get_not_null body _ Hbody), Hname.
    simpl. rewrite Htruthy, Hlen. reflexivity. }
  assert (Hdeleted : deleted
            = (Normal (ApiStore.Response 200
                         (JObj [("success", JBool true);
                                ("deviceId", JStr device);
                                ("message", JStr "Device name removed")])),
               ApiStore.set_deviceNames
                 (delete device (<[device := trim text]> (ApiStore.deviceNames st)))
                 st)).
  { subst deleted. rewrite Hposted. enter_names.
    rewrite lookup_insert_eq. reflexivity. }
  assert (Hagain : again
            = (Normal (ApiStore.Response 404
                         (JObj [("success", JBool false);
                                ("error", JStr "Device name not found")])),
               snd deleted)).
  { subst again. rewrite Hdeleted. enter_names.
    rewrite lookup_delete_eq. reflexivity. }
  rewrite Hagain, Hdeleted, Hposted. simpl.
  split; [eexists; repeat split |].
  split.
  { unfold ApiStore.get_device_name. simpl. rewrite lookup_insert_eq. simpl.
    assert (Ht : negb (trim text =? EmptyString)%string = true)
      by (apply negb_true_iff, String.eqb_neq; exact Htrim).
    unfold or_default. simpl. rewrite Ht. reflexivity. }
  split.
  { intros other Hother. unfold ApiStore.get_device_name. simpl.
    rewrite lookup_insert_ne by congruence. reflexivity. }
  split; [eexists; split; reflexivity |].
  split.
  { unfold ApiStore.get_device_name. simpl. rewrite lookup_delete_eq. reflexivity. }
  split; [eexists; split; reflexivity | reflexivity].
Qed.

(** X28.  A name that is missing, not a string, empty or blank is answered
    400 and changes nothing; and when the database refuses a valid name,
    the handler throws and the name map is as it was. *)
Theorem X28_bad_device_name_changes_nothing
    (device : string) (body : json) (st : ApiStore.store) (e : string) :
  body <> JNull ->
  (match field body "name" with
   | Some (JStr text) => text = EmptyString \/ trim text = EmptyString
   | _ => True
   end ->
   exists r, ApiStore.post_device_name trim device body (Normal tt) st = (Normal r, st)
             /\ ApiStore.status r = 400%Z)
  /\ (forall text,
         field body "name" = Some (JStr text) ->
         text <> EmptyString -> trim text <> EmptyString ->
         fst (ApiStore.post_device_name trim device body (Throw e) st) = Throw e
         /\ ApiStore.deviceNames
              (snd (ApiStore.post_device_name trim device body (Throw e) st))
            = ApiStore.deviceNames st).
Proof.
  intros Hbody. split.
  - intros Hbad. enter_names. rewrite (get_not_null body _ Hbody).
    destruct (field body "name") as [[| b | q | text | items | fields]|];
      try (eexists; split; reflexivity).
    simpl. destruct Hbad as [-> | Hblank].
    + simpl. eexists; split; reflexivity.
    + rewrite Hblank. simpl. rewrite orb_true_r. eexists; split; reflexivity.
  - intros text Hname Htext Htrim. enter_names.
    rewrite (get_not_null body _ Hbody), Hname. simpl.
    assert (Hlen : (String.length (trim text) =? 0)%nat = false).
    { apply Nat.eqb_neq. destruct (trim text); [contradiction | discriminate]. }
    assert (Htruthy : negb (text =? EmptyString)%string = true).
    { apply negb_true_iff, String.eqb_neq. exact Htext. }
    rewrite Htruthy, Hlen. simpl. split; reflexivity.
Qed.

Lemma firstn_subset {A : Type} (n : nat) (l : list A) (x : A) :
  In x (firstn n l) -> In x l.
Proof.
  revert l. induction n as [| n IH]; intros [| y l] Hin; try contradiction.
  destruct Hin as [-> | Hin]; [left; reflexivity | right; apply IH; exact Hin].
Qed.

Lemma includes_not_empty (needle : string) :
  needle <> EmptyString -> ApiStore.includes needle EmptyString = false.
Proof. intros H. destruct needle; [contradiction | reflexivity]. Qed.

(** X29.  The history a new client is sent holds at most ten messages, each
    of a cached conversation that is no test data (its session is not
    [test-123], its reason not [test], its device not [unknown]), in the
    order of the cache; and a client that connects with [history=false]
    anywhere in the URL is sent none. *)
Theorem X29_history_is_short_and_real (url : option string) (st : ApiStore.store) :
  length (ApiStore.history url st) <= 10
  /\ (forall m, In m (ApiStore.history url st) ->
        exists c, In c (ApiStore.conversations st)
                  /\ ApiStore.is_real c = true
                  /\ m = ApiStore.conversation_message c)
  /\ (forall u, url = Some u -> ApiStore.includes "history=false" u = true ->
                ApiStore.history url st = [])
  /\ (ApiStore.sendHistory url = true ->
      ApiStore.history url st
      = map ApiStore.conversation_message
            (firstn 10 (List.filter ApiStore.is_real (ApiStore.conversations st)))).
Proof.
  unfold ApiStore.history. split; [| split; [| split]].
  - destruct (ApiStore.sendHistory url && (0 <? length (ApiStore.conversations st))%nat);
      [| simpl; lia].
    rewrite length_map, length_firstn. lia.
  - intros m Hm.
    destruct (ApiStore.sendHistory url && (0 <? length (ApiStore.conversations st))%nat);
      [| contradiction].
    apply in_map_iff in Hm. destruct Hm as (c & <- & Hc).
    apply firstn_subset in Hc. apply filter_In in Hc. destruct Hc as [Hin Hreal].
    exists c. repeat split; assumption.
  - intros u -> Hoff. unfold ApiStore.sendHistory. simpl.
    destruct (negb (u =? EmptyString)%string) eqn:Hu.
    + rewrite Hoff. reflexivity.
    + apply negb_false_iff, String.eqb_eq in Hu. subst u.
      rewrite includes_not_empty in Hoff by discriminate. discriminate Hoff.
  - intros ->. simpl.
    destruct (0 <? length (ApiStore.conversations st))%nat eqn:Hlen; [reflexivity |].
    apply Nat.ltb_ge in Hlen.
    destruct (ApiStore.conversations st); [reflexivity | simpl in Hlen; lia].
Qed.

End StoreProperties.

(** * The further properties at concrete inputs *)

Lemma X2_witness :
  fetchDeviceConfig "e4:b0:63:85:96:00" "uuid-1" (Normal Sample.ota1)
  = Normal Cases.config1
  /\ subscribeTopics Cases.config1
     = ["xiaozhi/dev1/publish"; "devices/p2p/e4_b0_63_85_96_00"].
Proof.
  split; [vm_compute; reflexivity |].
  apply (X2_fetched_configuration_topics "e4:b0:63:85:96:00" "uuid-1" Sample.ota1
           Cases.config1); [discriminate | vm_compute; reflexivity].
Defined.

Lemma X3_witness :
  exists closure c,
    (clients (Sample.run Sample.superseded) !! 0%nat = Some closure
     /\ mqttClient (Sample.run Sample.superseded) = Some 1%nat
     /\ clients (Sample.run Sample.superseded) !! 1%nat = Some c)
    /\ (subscribed <$> clients (doSubscribe 0 (Sample.run Sample.superseded)) !! 1%nat)
       = Some ["xiaozhi/dev1/publish"; "devices/p2p/e4_b0_63_85_96_00"; "#"].
Proof.
  eexists _, _. split.
  - split; [reflexivity |]. split; reflexivity.
  - apply (proj1 (X3_subscription_round (Sample.run Sample.superseded) 0 1 _ _
                    eq_refl eq_refl eq_refl)).
Defined.

Lemma X5_witness :
  (Sample.parse (Sample.raw Sample.marked) = Normal (snd Sample.marked)
   /\ has_marker (snd Sample.marked) = true
   /\ nullish_or_number (field (snd Sample.marked) "duration") = true
   /\ primitive (field (snd Sample.marked) "timestamp") = true
   /\ wss Sample.three_sockets
      = Some [Sample.socket; Sample.broken_socket; Sample.socket])
  /\ wss (snd (AutoBridge.on_message Sample.parse Sample.stringify "any/topic"
                 (Sample.raw Sample.marked) Sample.now Sample.three_sockets))
     = Some (map (delivered (Sample.stringify (snd Sample.marked)))
                 [Sample.socket; Sample.broken_socket; Sample.socket]).
Proof.
  split.
  - do 4 (split; [vm_compute; reflexivity |]). vm_compute; reflexivity.
  - apply (proj1 (proj2 (X5_marked_payload_is_forwarded_verbatim
             Sample.parse Sample.stringify "any/topic" (Sample.raw Sample.marked)
             Sample.now Sample.three_sockets (snd Sample.marked)
             [Sample.socket; Sample.broken_socket; Sample.socket]
             ltac:(vm_compute; reflexivity) ltac:(vm_compute; reflexivity)
             ltac:(vm_compute; reflexivity) ltac:(vm_compute; reflexivity)
             ltac:(vm_compute; reflexivity)))).
Defined.

Lemma X6_witness :
  (Cases.parse (Sample.raw Cases.bad_duration) = Normal (snd Cases.bad_duration)
   /\ has_marker (snd Cases.bad_duration) = true
   /\ nullish_or_number (field (snd Cases.bad_duration) "duration") = false)
  /\ wss (snd (AutoBridge.on_message Cases.parse Sample.stringify "any/topic"
                 (Sample.raw Cases.bad_duration) Sample.now Sample.three_sockets))
     = wss Sample.three_sockets
  /\ conversationStats
       (stats (snd (AutoBridge.on_message Cases.parse Sample.stringify "any/topic"
                      (Sample.raw Cases.bad_duration) Sample.now Sample.three_sockets)))
     = (conversationStats (stats Sample.three_sockets) + 1)%Z.
Proof.
  split.
  - do 2 (split; [vm_compute; reflexivity |]). vm_compute; reflexivity.
  - apply (proj2 (X6_marked_payload_with_bad_duration_is_counted_not_forwarded
             Cases.parse Sample.stringify "any/topic" (Sample.raw Cases.bad_duration)
             Sample.now Sample.three_sockets (snd Cases.bad_duration)
             ltac:(vm_compute; reflexivity) ltac:(vm_compute; reflexivity)
             ltac:(vm_compute; reflexivity))).
Defined.

Lemma X7_witness :
  subscribe_calls (AutoBridge.step Sample.parse Sample.stringify (StabilizationTimer 0)
                     (Sample.run Sample.acknowledged))
  <> subscribe_calls (Sample.run Sample.acknowledged)
  /\ exists i, StabilizationTimer 0 = StabilizationTimer i
               /\ i ∈ timers (Sample.run Sample.acknowledged)
               /\ mqtt_connected (Sample.run Sample.acknowledged) = true.
Proof.
  assert (Hcalls : subscribe_calls
                     (AutoBridge.step Sample.parse Sample.stringify (StabilizationTimer 0)
                        (Sample.run Sample.acknowledged))
                   <> subscribe_calls (Sample.run Sample.acknowledged))
    by (vm_compute; discriminate).
  split; [exact Hcalls |].
  exact (X7_only_a_timer_subscribes Sample.parse Sample.stringify (StabilizationTimer 0)
           (Sample.run Sample.acknowledged) Hcalls).
Defined.

Lemma X10_witness :
  exists c,
    clients (Sample.run Sample.acknowledged) !! 0%nat = Some c
    /\ exists c',
         clients (AutoBridge.run Sample.parse Sample.stringify
                    [StabilizationTimer 0; Subscribed 0 None]
                    (Sample.run Sample.acknowledged)) !! 0%nat = Some c'
         /\ ages c c'.
Proof.
  eexists. split; [reflexivity |].
  apply (X10_client_objects_only_age Sample.parse Sample.stringify
           [StabilizationTimer 0; Subscribed 0 None] (Sample.run Sample.acknowledged) 0).
  reflexivity.
Defined.

Lemma X11_witness :
  exists c,
    (clients (Sample.run Cases.asked) !! 0%nat = Some c
     /\ isFirstConnect c = true)
    /\ clients (on_subscribed 0 (Some "Not authorized") (Sample.run Cases.asked))
       = <[0%nat := MqttClient (connected c) (subscribed c) (conn_config c) false Resolved]>
           (clients (Sample.run Cases.asked))
    /\ clients (on_subscribed 0 None
                  (on_subscribed 0 (Some "Not authorized") (Sample.run Cases.asked)))
       = clients (on_subscribed 0 (Some "Not authorized") (Sample.run Cases.asked)).
Proof.
  eexists. split.
  - split; reflexivity.
  - apply (X11_first_round_resolves_even_on_failure (Sample.run Cases.asked) 0 _
             (Some "Not authorized") None eq_refl eq_refl).
Defined.

Lemma X13_witness :
  wss Sample.three_sockets = Some [Sample.socket; Sample.broken_socket; Sample.socket]
  /\ wss (fold_left
            (fun s data => AutoBridge.broadcastToWebSocket Sample.stringify data s)
            [snd Sample.marked; snd Sample.ping] Sample.three_sockets)
     = Some (map (stamped (map Sample.stringify [snd Sample.marked; snd Sample.ping]))
                 [Sample.socket; Sample.broken_socket; Sample.socket]).
Proof.
  split; [reflexivity |].
  apply (X13_broadcasts_arrive_in_order Sample.stringify
           [snd Sample.marked; snd Sample.ping] Sample.three_sockets
           [Sample.socket; Sample.broken_socket; Sample.socket]).
  reflexivity.
Defined.

Lemma X14_witness :
  (ApiBridge.clients Sample.one_client !! 7%nat
   = Some (ApiBridge.fresh_connection None false)
   /\ ApiBridge.is_liveness_message Sample.parse (Sample.raw Sample.ping) = true)
  /\ exists c',
       ApiBridge.clients
         (ApiBridge.run Sample.parse Sample.stringify
            (concat (map (Pulse.round 7)
                         [Pulse.pong_frame; Pulse.message (Sample.raw Sample.ping)]))
            Sample.one_client) !! 7%nat = Some c'
       /\ ApiBridge.isAlive c' = true
       /\ ApiBridge.pingInterval c' = true
       /\ ApiBridge.websocketClients
            (ApiBridge.run Sample.parse Sample.stringify
               (concat (map (Pulse.round 7)
                            [Pulse.pong_frame; Pulse.message (Sample.raw Sample.ping)]))
               Sample.one_client)
          = ApiBridge.websocketClients Sample.one_client.
Proof.
  split.
  - split; vm_compute; reflexivity.
  - apply (X14_responsive_client_is_never_evicted Sample.parse Sample.stringify 7
             [Pulse.pong_frame; Pulse.message (Sample.raw Sample.ping)]
             Sample.one_client (ApiBridge.fresh_connection None false));
      try (vm_compute; reflexivity).
    repeat constructor; vm_compute; reflexivity.
Defined.

Lemma X15_witness :
  (ApiBridge.clients Cases.deaf_client !! 7%nat
   = Some (ApiBridge.fresh_connection None true)
   /\ Sample.parse (Sample.raw Sample.ping) = Normal (snd Sample.ping)
   /\ strict_eq_string (field (snd Sample.ping) "type") "ping" = true)
  /\ ApiBridge.clients (ApiBridge.on_interval Sample.stringify 7 Cases.deaf_client)
     = delete 7%nat (ApiBridge.clients Cases.deaf_client)
  /\ ApiBridge.websocketClients
       (ApiBridge.on_interval Sample.stringify 7 Cases.deaf_client) = 0%Z
  /\ ApiBridge.on_message Sample.parse Sample.stringify 7 (Sample.raw Sample.ping)
       Cases.deaf_client
     = Cases.deaf_client.
Proof.
  pose proof (X15_unwritable_client_is_evicted_at_once Sample.parse Sample.stringify 7
                Cases.deaf_client (ApiBridge.fresh_connection None true)
                (Sample.raw Sample.ping)
                ltac:(vm_compute; reflexivity) eq_refl eq_refl) as (Hgone & Hcount & Hping).
  split.
  - do 2 (split; [vm_compute; reflexivity |]). vm_compute; reflexivity.
  - split; [exact Hgone |]. split; [exact Hcount |].
    apply (Hping (snd Sample.ping)); vm_compute; reflexivity.
Defined.

Lemma X16_witness :
  (ApiBridge.clients Sample.one_client !! 7%nat
   = Some (ApiBridge.fresh_connection None false)
   /\ forallb (Pulse.keeps_open 7)
        [ApiBridge.Interval 7; ApiBridge.Pong 7;
         ApiBridge.ClientMessage 7 (Sample.raw Sample.ping); ApiBridge.Close 8] = true)
  /\ exists c',
       ApiBridge.clients
         (ApiBridge.run Sample.parse Sample.stringify
            [ApiBridge.Interval 7; ApiBridge.Pong 7;
             ApiBridge.ClientMessage 7 (Sample.raw Sample.ping); ApiBridge.Close 8]
            (ApiBridge.on_error 7 Sample.one_client)) !! 7%nat = Some c'
       /\ ApiBridge.pingInterval c' = false.
Proof.
  split.
  - split; vm_compute; reflexivity.
  - apply (X16_socket_error_stops_the_heartbeat Sample.parse Sample.stringify 7
             [ApiBridge.Interval 7; ApiBridge.Pong 7;
              ApiBridge.ClientMessage 7 (Sample.raw Sample.ping); ApiBridge.Close 8]
             Sample.one_client (ApiBridge.fresh_connection None false));
      vm_compute; reflexivity.
Defined.



Lemma X19_witness :
  (field Cases.early "timestamp" = Some (JNum (5 # 1))
   /\ first_truthy (offered Cases.early Cases.no_headers) = Some (JStr "dev1"))
  /\ exists c t,
       ApiStore.conversations
         (snd (ApiStore.handleConversationStats Sample.stringify Cases.Number_of_text
                 Qplus Cases.early Cases.no_headers Cases.clock (Normal tt)
                 Cases.empty)) !! 0%nat = Some c
       /\ ApiStore.timestamp c = JNum t
       /\ Qle_bool ApiStore.minValidTimestamp t = true
       /\ JNum t = ApiStore.seconds (ApiStore.at_repair Cases.clock).
Proof.
  split; [split; reflexivity |].
  destruct (X19_numeric_timestamp_is_kept_or_repaired Sample.stringify
              Cases.Number_of_text Qplus Cases.early Cases.no_headers Cases.clock
              (Normal tt) Cases.empty (12 # 1) (5 # 1) (JStr "dev1")
              ltac:(discriminate) eq_refl eq_refl eq_refl eq_refl
              ltac:(vm_compute; reflexivity) ltac:(vm_compute; reflexivity))
    as (c & t & Hhead & Hstamp & Hvalid & Hwhich & _).
  exists c, t. split; [exact Hhead |]. split; [exact Hstamp |].
  split; [exact Hvalid | exact Hwhich].
Defined.

Lemma X20_witness :
  (field Cases.dated "timestamp" = Some (JStr "yesterday")
   /\ Cases.Number_of_text (JStr "yesterday") = None)
  /\ exists c,
       ApiStore.conversations
         (snd (ApiStore.handleConversationStats Sample.stringify Cases.Number_of_text
                 Qplus Cases.dated Cases.no_headers Cases.clock (Normal tt)
                 Cases.empty)) !! 0%nat = Some c
       /\ ApiStore.timestamp c = JStr "yesterday".
Proof.
  split; [split; reflexivity |].
  destruct (X20_non_numeric_timestamp_passes_unchecked Sample.stringify
              Cases.Number_of_text Qplus Cases.dated Cases.no_headers Cases.clock
              (Normal tt) Cases.empty (12 # 1) (JStr "dev1") "yesterday"
              ltac:(discriminate) eq_refl eq_refl ltac:(discriminate) eq_refl eq_refl
              eq_refl)
    as (c & Hhead & Hstamp & _).
  exists c. split; [exact Hhead | exact Hstamp].
Defined.


Lemma X22_witness :
  exists r,
    fst (ApiStore.handleConversationStats Sample.stringify Cases.Number_of_text Qplus
           Cases.request Cases.no_headers Cases.clock (Normal tt) Cases.empty)
    = Normal r
    /\ field (ApiStore.payload r) "deviceId" = None
    /\ field (ApiStore.payload r) "device_id" = None
    /\ (ApiStore.status r = 200%Z \/ ApiStore.status r = 400%Z).
Proof.
  eexists. split; [vm_compute; reflexivity |].
  apply (X22_answer_never_carries_the_device_id Sample.stringify Cases.Number_of_text
           Qplus Cases.request Cases.no_headers Cases.clock (Normal tt) Cases.empty).
  vm_compute; reflexivity.
Defined.

Lemma X23_witness :
  length (ApiStore.conversations Cases.empty) <= 1000
  /\ ApiStore.conversations
       (fold_left (fun s p => ApiStore.addConversation Qplus (fst p) (snd p) s)
          [(Cases.conversation1, Normal tt); (Cases.conversation2, Throw "disk full")]
          Cases.empty)
     = firstn 1000 (rev (map fst [(Cases.conversation1, Normal tt);
                                  (Cases.conversation2, Throw "disk full")])
                    ++ ApiStore.conversations Cases.empty).
Proof.
  split; [apply Nat.le_0_l |].
  apply (proj1 (X23_cache_keeps_the_latest_thousand Qplus
                  [(Cases.conversation1, Normal tt);
                   (Cases.conversation2, Throw "disk full")]
                  Cases.empty (Nat.le_0_l 1000))).
Defined.


Lemma X26_witness :
  ApiStore.deviceNames Cases.named !! "dev1" = Some "Kitchen"
  /\ (exists r,
         fst (ApiStore.delete_device Qminus "dev1" (Normal (1%Z, 12 # 1)) (Normal tt)
                (Throw "database is locked") Cases.named) = Normal r
         /\ ApiStore.status r = 500%Z)
  /\ ApiStore.conversations
       (snd (ApiStore.delete_device Qminus "dev1" (Normal (1%Z, 12 # 1)) (Normal tt)
               (Throw "database is locked") Cases.named))
     = List.filter
         (fun c => negb (strict_eq_string (Some (ApiStore.deviceId c)) "dev1"))
         (ApiStore.conversations Cases.named)
  /\ ApiStore.totalConversations
       (ApiStore.stats
          (snd (ApiStore.delete_device Qminus "dev1" (Normal (1%Z, 12 # 1)) (Normal tt)
                  (Throw "database is locked") Cases.named)))
     = (ApiStore.totalConversations (ApiStore.stats Cases.named) - 1)%Z
  /\ ApiStore.deviceNames
       (snd (ApiStore.delete_device Qminus "dev1" (Normal (1%Z, 12 # 1)) (Normal tt)
               (Throw "database is locked") Cases.named)) !! "dev1"
     = Some "Kitchen".
Proof.
  assert (Hname : ApiStore.deviceNames Cases.named !! "dev1" = Some "Kitchen")
    by (vm_compute; reflexivity).
  split; [exact Hname |].
  exact (X26_delete_device_can_fail_half_way Qminus "dev1" "Kitchen" 1 (12 # 1)
           Cases.named "database is locked" Hname).
Defined.

Lemma X27_witness :
  Cases.trim "  Kitchen " = "Kitchen"
  /\ field (ApiStore.payload
              (ApiStore.get_device_name "dev2"
                 (snd (ApiStore.post_device_name Cases.trim "dev2"
                         (JObj [("name", JStr "  Kitchen ")]) (Normal tt) Cases.named))))
           "deviceName"
     = Some (JStr (Cases.trim "  Kitchen ")).
Proof.
  split; [vm_compute; reflexivity |].
  apply (proj1 (proj2 (X27_device_name_round_trip Cases.trim "dev2"
                         (JObj [("name", JStr "  Kitchen ")]) "  Kitchen " Cases.named
                         ltac:(discriminate) eq_refl ltac:(discriminate)
                         ltac:(vm_compute; discriminate)))).
Defined.

Lemma X28_witness :
  Cases.trim "   " = EmptyString
  /\ exists r,
       ApiStore.post_device_name Cases.trim "dev2" (JObj [("name", JStr "   ")])
         (Normal tt) Cases.named = (Normal r, Cases.named)
       /\ ApiStore.status r = 400%Z.
Proof.
  assert (Hblank : Cases.trim "   " = EmptyString) by (vm_compute; reflexivity).
  split; [exact Hblank |].
  apply (proj1 (X28_bad_device_name_changes_nothing Cases.trim "dev2"
                  (JObj [("name", JStr "   ")]) Cases.named "unused"
                  ltac:(discriminate))).
  right. exact Hblank.
Defined.

